(** * The DNS front end of the sidecar: sidecar/dns/server.go

    A shallow embedding of the query-to-record pipeline of the DNS server
    (question parsing, catalog lookup, record synthesis, response assembly)
    together with the properties the specification states about it.

    Layout: the pieces of the Go standard library and of miekg/dns the server
    relies on, the registry client types, the server itself, executable
    stand-ins of the imported parsers for running scenarios, and then the
    statements. *)

From Stdlib Require Import ZArith String Ascii.
From stdpp Require Import base list strings numbers option gmap.

Local Open Scope string_scope.

(** ** Go values *)

(** Go's [error] values.  One constructor per place the server builds an
    error, carrying the arguments of the format string; errors handed back by
    imported code are kept by origin. *)
Inductive error : Type :=
| UnsupportedClass (qclass : Z)
| UnsupportedType (qtype : Z)
| InvalidDomainName (name : string)
| ServiceNameMissing (name : string)
| MoreThanOneProtocol
| InstanceNotFound (instanceID : string)
| UnsupportedEndpointType (type : string)
| NotIPPort (value : string)
| AtoiError (s : string)
| URLError (s : string)
| ClientError (msg : string)
| DiscoveryClientNil.

Module Go.

(** strings.HasPrefix(s, prefix) *)
Definition HasPrefix (s pre : string) : bool := String.prefix pre s.

(** The slice expression s[1:] on a string; it panics on the empty string. *)
Definition from1 (s : string) : option string :=
  match s with
  | EmptyString => None
  | String _ rest => Some rest
  end.

(** net.IP is a byte slice; a byte is a Z in [0, 256).  A nil IP is [None]
    where the code can meet one. *)
Definition IP : Type := list Z.

Definition IPv4len : nat := 4.
Definition IPv6len : nat := 16.

Definition v4InV6Prefix : IP := [0; 0; 0; 0; 0; 0; 0; 0; 0; 0; 255; 255]%Z.

(** net.IPv4(a, b, c, d): the 16-byte form of an IPv4 address. *)
Definition IPv4 (a b c d : Z) : IP := (v4InV6Prefix ++ [a; b; c; d])%list.

Definition isZeros (p : IP) : bool := forallb (Z.eqb 0) p.

(** ip.To4(): the 4-byte form, or nil. *)
Definition To4 (ip : IP) : option IP :=
  if decide (length ip = IPv4len) then Some ip
  else if bool_decide (length ip = IPv6len)
          && isZeros (take 10 ip)
          && bool_decide (ip !! 10%nat = Some 255%Z)
          && bool_decide (ip !! 11%nat = Some 255%Z)
       then Some (take 4 (drop 12 ip))
       else None.

(** ip.To16(): the 16-byte form, or nil. *)
Definition To16 (ip : IP) : option IP :=
  match ip with
  | [a; b; c; d] => Some (IPv4 a b c d)
  | _ => if decide (length ip = IPv6len) then Some ip else None
  end.

(** strconv.Atoi on a 64-bit platform: an optional sign, at least one
    decimal digit, and a value that fits an int. *)
Definition digit (c : ascii) : option Z :=
  let n := Z.of_N (N_of_ascii c) in
  if ((48 <=? n) && (n <=? 57))%Z then Some (n - 48)%Z else None.

Fixpoint digits (s : string) (acc : Z) : option Z :=
  match s with
  | EmptyString => Some acc
  | String c rest =>
      match digit c with
      | Some d => digits rest (acc * 10 + d)%Z
      | None => None
      end
  end.

Definition Atoi (s : string) : option Z :=
  match s with
  | EmptyString => None
  | String c rest =>
      let neg := bool_decide (c = "-"%char) in
      let body := if neg || bool_decide (c = "+"%char) then rest else s in
      match body with
      | EmptyString => None
      | _ =>
          match digits body 0 with
          | Some n =>
              let v := if neg then (- n)%Z else n in
              if ((- 2 ^ 63 <=? v) && (v <? 2 ^ 63))%Z then Some v else None
          | None => None
          end
      end
  end.

(** The conversion uint16(n) of an int. *)
Definition uint16 (n : Z) : Z := (n mod 65536)%Z.

(** Indexing a slice with an int: out of range is a run-time panic. *)
Definition index {A : Type} (l : list A) (i : Z) : option A :=
  if (i <? 0)%Z then None else l !! Z.to_nat i.

(** The slice expression l[:hi].  Go allows hi up to the capacity; the
    server only slices below the length, so the bound here is the length. *)
Definition slice_to {A : Type} (l : list A) (hi : Z) : option (list A) :=
  if ((hi <? 0) || (Z.of_nat (length l) <? hi))%Z then None
  else Some (take (Z.to_nat hi) l).

(** The part of a parsed url.URL the server reads. *)
Record URL : Type := { Host : string }.

End Go.

(** ** miekg/dns: constants, messages, records *)

Module dns.

Definition ClassINET : Z := 1.
Definition ClassCHAOS : Z := 3.

Definition TypeA : Z := 1.
Definition TypeAAAA : Z := 28.
Definition TypeSRV : Z := 33.

Definition RcodeSuccess : Z := 0.
Definition RcodeFormatError : Z := 1.
Definition RcodeServerFailure : Z := 2.
Definition RcodeNameError : Z := 3.

Definition OpcodeQuery : Z := 0.

Record Question : Type := { Name : string; Qtype : Z; Qclass : Z }.

Record RR_Header : Type :=
  { Hdr_Name : string; Rrtype : Z; Class : Z; Ttl : Z }.

(** The resource records the server builds, and [RFC3597] for any other
    record a request may carry in its additional section. *)
Inductive RR : Type :=
| A (Hdr : RR_Header) (ip : option Go.IP)
| AAAA (Hdr : RR_Header) (ip : option Go.IP)
| SRV (Hdr : RR_Header) (Priority Weight Port : Z) (Target : string)
| RFC3597 (Hdr : RR_Header) (Rdata : string).

Record Msg : Type :=
  { Id : Z;
    Response : bool;
    Opcode : Z;
    Authoritative : bool;
    RecursionDesired : bool;
    RecursionAvailable : bool;
    Rcode : Z;
    Msg_Question : list Question;
    Answer : list RR;
    Extra : list RR }.

(** new(dns.Msg) *)
Definition new_Msg : Msg :=
  {| Id := 0; Response := false; Opcode := 0; Authoritative := false;
     RecursionDesired := false; RecursionAvailable := false; Rcode := 0;
     Msg_Question := []; Answer := []; Extra := [] |}.

(** Msg.SetReply: turns [m] into a reply to [request]. *)
Definition SetReply (m request : Msg) : Msg :=
  {| Id := Id request;
     Response := true;
     Opcode := OpcodeQuery;
     Authoritative := Authoritative m;
     RecursionDesired := RecursionDesired request;
     RecursionAvailable := RecursionAvailable m;
     Rcode := RcodeSuccess;
     Msg_Question := match Msg_Question request with
                     | [] => Msg_Question m
                     | q :: _ => [q]
                     end;
     Answer := Answer m;
     Extra := Extra m |}.

(** Assignments to single fields of a message. *)
Definition set_Rcode (m : Msg) (rcode : Z) : Msg :=
  {| Id := Id m; Response := Response m; Opcode := Opcode m;
     Authoritative := Authoritative m;
     RecursionDesired := RecursionDesired m;
     RecursionAvailable := RecursionAvailable m;
     Rcode := rcode;
     Msg_Question := Msg_Question m;
     Answer := Answer m; Extra := Extra m |}.

Definition set_Answer (m : Msg) (answer : list RR) : Msg :=
  {| Id := Id m; Response := Response m; Opcode := Opcode m;
     Authoritative := Authoritative m;
     RecursionDesired := RecursionDesired m;
     RecursionAvailable := RecursionAvailable m;
     Rcode := Rcode m;
     Msg_Question := Msg_Question m;
     Answer := answer; Extra := Extra m |}.

Definition set_Extra (m : Msg) (extra : list RR) : Msg :=
  {| Id := Id m; Response := Response m; Opcode := Opcode m;
     Authoritative := Authoritative m;
     RecursionDesired := RecursionDesired m;
     RecursionAvailable := RecursionAvailable m;
     Rcode := Rcode m;
     Msg_Question := Msg_Question m;
     Answer := Answer m; Extra := extra |}.

Definition set_flags (m : Msg) (authoritative recursionAvailable : bool) : Msg :=
  {| Id := Id m; Response := Response m; Opcode := Opcode m;
     Authoritative := authoritative;
     RecursionDesired := RecursionDesired m;
     RecursionAvailable := recursionAvailable;
     Rcode := Rcode m;
     Msg_Question := Msg_Question m;
     Answer := Answer m; Extra := Extra m |}.

(** Msg.SetRcode: SetReply, then the response code. *)
Definition SetRcode (m request : Msg) (rcode : Z) : Msg :=
  set_Rcode (SetReply m request) rcode.

(** dns.IsFqdn and dns.Fqdn: a name is fully qualified when it ends in a
    dot. *)
Fixpoint IsFqdn (s : string) : bool :=
  match s with
  | EmptyString => false
  | String c EmptyString => bool_decide (c = "."%char)
  | String _ rest => IsFqdn rest
  end.

Definition Fqdn (s : string) : string := if IsFqdn s then s else s +:+ ".".

End dns.

(** ** The registry client *)

Module client.

(** Modelled from the spec: the declarations of package registry/client
    (ServiceEndpoint, ServiceInstance, InstanceFilter and the Discovery
    interface), which server.go imports; the fields are those the server
    reads and the data model names. *)
Record ServiceEndpoint : Type := { Type_ : string; Value : string }.

Record ServiceInstance : Type :=
  { ID : string;
    Service : string;
    Endpoint : ServiceEndpoint;
    InstanceTags : list string }.

Record InstanceFilter : Type :=
  { ServiceName : string; Tags : list string }.

(** The Discovery interface: one call, which hands back the instances and
    an error. *)
Record Discovery : Type :=
  { ListInstances : InstanceFilter -> list ServiceInstance * option error }.

End client.

#[global] Instance error_eq_dec : EqDecision error.
Proof. solve_decision. Defined.
#[global] Instance ServiceEndpoint_eq_dec : EqDecision client.ServiceEndpoint.
Proof. solve_decision. Defined.
#[global] Instance ServiceInstance_eq_dec : EqDecision client.ServiceInstance.
Proof. solve_decision. Defined.
#[global] Instance RR_Header_eq_dec : EqDecision dns.RR_Header.
Proof. solve_decision. Defined.
#[global] Instance RR_eq_dec : EqDecision dns.RR.
Proof. solve_decision. Defined.

(** ** Imported parsers

    The functions of miekg/dns, net and net/url that the server calls and
    whose code lives outside the repository.  The server is defined over any
    implementation of them; a nil result or a non-nil error is [None]. *)
Record Imports : Type :=
  { dns_IsDomainName : string -> Z * bool;
    dns_SplitDomainName : string -> list string;
    net_SplitHostPort : string -> option (string * string);
    net_ParseIP : string -> option Go.IP;
    url_Parse : string -> option Go.URL }.

(** ** Execution

    The server writes into the response message it is handed and draws from
    the process-wide random source; an index out of range or a call through
    a nil interface panics.  A computation takes the state and either returns
    a value with the new state or panics. *)
Record state : Type := { response : dns.Msg; rand : list nat }.

Inductive outcome (A : Type) : Type :=
| Ret (a : A) (st : state)
| Panic.
Arguments Ret {A} a st.
Arguments Panic {A}.

Definition M (A : Type) : Type := state -> outcome A.

#[global] Instance M_ret : MRet M := fun A a st => Ret a st.
#[global] Instance M_bind : MBind M := fun A B f m st =>
  match m st with
  | Ret a st' => f a st'
  | Panic => Panic
  end.

(** A value that exists, or a panic. *)
Definition orPanic {A : Type} (o : option A) : M A := fun st =>
  match o with
  | Some a => Ret a st
  | None => Panic
  end.

Definition modifyResponse (f : dns.Msg -> dns.Msg) : M unit := fun st =>
  Ret tt {| response := f (response st); rand := rand st |}.

(** rand.Intn(n): the next draw of the source, reduced below [n]; it panics
    when [n] is not positive.  The source is the list of its future raw
    draws, and an exhausted source keeps drawing 0. *)
Definition Intn (n : nat) : M nat := fun st =>
  match n with
  | O => Panic
  | S _ =>
      match rand st with
      | [] => Ret 0%nat st
      | r :: rest => Ret (r mod n)%nat {| response := response st; rand := rest |}
      end
  end.

(** ** The server *)

Record Config : Type :=
  { DiscoveryClient : option client.Discovery;
    Port : Z;
    Domain : string }.

Record Server : Type := { config : Config }.

(** validate: the discovery client must be there; the domain is made fully
    qualified in place. *)
Definition validate (c : Config) : Config * option error :=
  match DiscoveryClient c with
  | None => (c, Some DiscoveryClientNil)
  | Some _ =>
      ({| DiscoveryClient := DiscoveryClient c;
          Port := Port c;
          Domain := dns.Fqdn (Domain c) |}, None)
  end.

Definition NewServer (c : Config) : option Server * option error :=
  match validate c with
  | (_, Some err) => (None, Some err)
  | (c', None) => (Some {| config := c' |}, None)
  end.

Definition createARecord (name : string) (ip : option Go.IP) : dns.RR :=
  dns.A {| dns.Hdr_Name := name; dns.Rrtype := dns.TypeA;
           dns.Class := dns.ClassINET; dns.Ttl := 0 |} ip.

Definition createAAAARecord (name : string) (ip : option Go.IP) : dns.RR :=
  dns.AAAA {| dns.Hdr_Name := name; dns.Rrtype := dns.TypeAAAA;
              dns.Class := dns.ClassINET; dns.Ttl := 0 |} ip.

Definition createSRVRecord (name : string) (port : Z) (target : string) : dns.RR :=
  dns.SRV {| dns.Hdr_Name := name; dns.Rrtype := dns.TypeSRV;
             dns.Class := dns.ClassINET; dns.Ttl := 0 |} 0 0 port target.

(** records[i], records[j] = records[j], records[i]: both reads, then the two
    writes; an index out of range panics. *)
Definition swap {A : Type} (i j : nat) (records : list A) : option (list A) :=
  match records !! i, records !! j with
  | Some ri, Some rj => Some (<[j := ri]> (<[i := rj]> records))
  | _, _ => None
  end.

(** The loop of shuffleRecords from index [i] on, [todo] indices left. *)
Fixpoint shuffleFrom (i todo : nat) (records : list dns.RR) : M (list dns.RR) :=
  match todo with
  | O => mret records
  | S todo' =>
      j ← Intn (i + 1);
      records ← orPanic (swap i j records);
      shuffleFrom (S i) todo' records
  end.

Definition shuffleRecords (records : list dns.RR) : M (list dns.RR) :=
  shuffleFrom 0 (length records) records.

(** The tokens that name a protocol (the first case of the switch over the
    tags). *)
Definition isProtocol (tag : string) : bool :=
  bool_decide (tag = "tcp") || bool_decide (tag = "udp")
  || bool_decide (tag = "http") || bool_decide (tag = "https").

(** The loop that splits tags and protocol; [None] is the early return on a
    second protocol. *)
Fixpoint splitTagsProtocol (tagOrProtocol : list string) (protocol : string)
    (tags : list string) : option (string * list string) :=
  match tagOrProtocol with
  | [] => Some (protocol, tags)
  | tag :: rest =>
      if isProtocol tag then
        if bool_decide (protocol ≠ "") then None
        else splitTagsProtocol rest tag tags
      else splitTagsProtocol rest protocol (tags ++ [tag])%list
  end.

(** One round of the protocol filter, which compacts the slice in place:
    the element at [i] is read and, when it matches, written at [k]. *)
Definition protocolFilterStep (protocol : string)
    (acc : list client.ServiceInstance * nat) (i : nat)
    : list client.ServiceInstance * nat :=
  let '(serviceInstances, k) := acc in
  match serviceInstances !! i with
  | Some serviceInstance =>
      if decide (client.Type_ (client.Endpoint serviceInstance) = protocol)
      then (<[k := serviceInstance]> serviceInstances, S k)
      else (serviceInstances, k)
  | None => (serviceInstances, k)
  end.

Definition applyProtocolFilter (protocol : string)
    (serviceInstances : list client.ServiceInstance)
    : list client.ServiceInstance :=
  let '(compacted, k) :=
    foldl (protocolFilterStep protocol) (serviceInstances, 0%nat)
          (seq 0 (length serviceInstances)) in
  take k compacted.

(** The scan of retrieveInstancesForInstanceQuery. *)
Fixpoint findInstance (instanceID : string)
    (serviceInstances : list client.ServiceInstance)
    : option client.ServiceInstance :=
  match serviceInstances with
  | [] => None
  | serviceInstance :: rest =>
      if decide (client.ID serviceInstance = instanceID)
      then Some serviceInstance
      else findInstance instanceID rest
  end.

Section server.

Variable ext : Imports.
Variable s : Server.

Definition SetRcode (request : dns.Msg) (rcode : Z) : M unit :=
  modifyResponse (fun response => dns.SetRcode response request rcode).

(** A result (ip, port, nil) is [inl]; (nil, 0, err) is [inr]. *)
Definition splitHostPortTCPUDP (value : string) : Go.IP * Z + error :=
  let '(host, port) :=
    match net_SplitHostPort ext value with
    | Some (host, port) => (host, port)
    | None => (value, "0")
    end in
  match net_ParseIP ext host with
  | None => inr (NotIPPort value)
  | Some ip =>
      match Go.Atoi port with
      | None => inr (AtoiError port)
      | Some portNum => inl (ip, Go.uint16 portNum)
      end
  end.

Definition splitHostPortHTTP (value : string) : Go.IP * Z + error :=
  let isHTTP := Go.HasPrefix value "http://" in
  let isHTTPS := Go.HasPrefix value "https://" in
  let '(value, isHTTP) :=
    if negb isHTTPS && negb isHTTP then ("http://" +:+ value, true)
    else (value, isHTTP) in
  match url_Parse ext value with
  | None => inr (URLError value)
  | Some parsedURL =>
      match splitHostPortTCPUDP (Go.Host parsedURL) with
      | inr err => inr err
      | inl (ip, port) =>
          let port :=
            if (port =? 0)%Z then
              if isHTTP then 80%Z else if isHTTPS then 443%Z else port
            else port in
          inl (ip, port)
      end
  end.

Definition splitHostPort (endpoint : client.ServiceEndpoint) : Go.IP * Z + error :=
  let type := client.Type_ endpoint in
  if bool_decide (type = "tcp") || bool_decide (type = "udp")
  then splitHostPortTCPUDP (client.Value endpoint)
  else if bool_decide (type = "http") || bool_decide (type = "https")
  then splitHostPortHTTP (client.Value endpoint)
  else inr (UnsupportedEndpointType type).

Definition retrieveInstancesForServiceQuery (serviceName : string)
    (request : dns.Msg) (tagOrProtocol : list string)
    : M (list client.ServiceInstance * option error) :=
  match splitTagsProtocol tagOrProtocol "" [] with
  | None =>
      SetRcode request dns.RcodeFormatError;;
      mret ([], Some MoreThanOneProtocol)
  | Some (protocol, tags) =>
      let filters :=
        {| client.ServiceName := serviceName; client.Tags := tags |} in
      discovery ← orPanic (DiscoveryClient (config s));
      match client.ListInstances discovery filters with
      | (_, Some err) =>
          SetRcode request dns.RcodeServerFailure;;
          mret ([], Some err)
      | (serviceInstances, None) =>
          if bool_decide (protocol ≠ "")
          then mret (applyProtocolFilter protocol serviceInstances, None)
          else mret (serviceInstances, None)
      end
  end.

Definition retrieveInstancesForInstanceQuery (instanceID : string)
    (request : dns.Msg) : M (list client.ServiceInstance * option error) :=
  discovery ← orPanic (DiscoveryClient (config s));
  match client.ListInstances discovery
          {| client.ServiceName := ""; client.Tags := [] |} with
  | (serviceInstances, Some err) =>
      SetRcode request dns.RcodeServerFailure;;
      mret (serviceInstances, Some err)
  | (serviceInstances, None) =>
      match findInstance instanceID serviceInstances with
      | Some serviceInstance => mret ([serviceInstance], None)
      | None =>
          SetRcode request dns.RcodeNameError;;
          mret ([], Some (InstanceNotFound instanceID))
      end
  end.

Definition retrieveServices (question : dns.Question) (request : dns.Msg)
    : M (list client.ServiceInstance * option error) :=
  let '(numberOfLabels, isValidDomain) :=
    dns_IsDomainName ext (dns.Name question) in
  if negb isValidDomain then
    SetRcode request dns.RcodeFormatError;;
    mret ([], Some (InvalidDomainName (dns.Name question)))
  else
    let fullDomainRequestArray := dns_SplitDomainName ext (dns.Name question) in
    if bool_decide (length fullDomainRequestArray = 1%nat)
       || bool_decide (length fullDomainRequestArray = 2%nat)
    then
      SetRcode request dns.RcodeNameError;;
      mret ([], Some (ServiceNameMissing (dns.Name question)))
    else
      kind ← orPanic (Go.index fullDomainRequestArray (numberOfLabels - 2));
      if bool_decide (kind = "service") then
        let long :=
          serviceName ← orPanic (Go.index fullDomainRequestArray (numberOfLabels - 3));
          tagsOrProtocol ← orPanic (Go.slice_to fullDomainRequestArray (numberOfLabels - 3));
          retrieveInstancesForServiceQuery serviceName request tagsOrProtocol in
        if bool_decide (dns.Qtype question = dns.TypeSRV)
           && bool_decide (numberOfLabels = 4%Z)
        then
          label0 ← orPanic (Go.index fullDomainRequestArray 0);
          if Go.HasPrefix label0 "_" then
            label1 ← orPanic (Go.index fullDomainRequestArray 1);
            if Go.HasPrefix label1 "_" then
              tagOrProtocol ← orPanic (Go.from1 label1);
              serviceName ← orPanic (Go.from1 label0);
              retrieveInstancesForServiceQuery serviceName request [tagOrProtocol]
            else long
          else long
        else long
      else if bool_decide (kind = "instance")
              && (bool_decide (dns.Qtype question = dns.TypeA)
                  || bool_decide (dns.Qtype question = dns.TypeAAAA))
              && bool_decide (numberOfLabels = 3%Z)
      then
        instanceID ← orPanic (Go.index fullDomainRequestArray 0);
        retrieveInstancesForInstanceQuery instanceID request
      else mret ([], None).

(** One round of the loop of createRecordsForInstances over the pair
    (answer, extra). *)
Definition recordsStep (question : dns.Question)
    (acc : list dns.RR * list dns.RR)
    (serviceInstance : client.ServiceInstance) : list dns.RR * list dns.RR :=
  let '(answer, extra) := acc in
  match splitHostPort (client.Endpoint serviceInstance) with
  | inr _ => (answer, extra)
  | inl (ip, port) =>
      if bool_decide (dns.Qtype question = dns.TypeA) then
        match Go.To4 ip with
        | Some ipV4 =>
            (answer ++ [createARecord (dns.Name question) (Some ipV4)], extra)%list
        | None => (answer, extra)
        end
      else if bool_decide (dns.Qtype question = dns.TypeAAAA) then
        match Go.To4 ip with
        | None =>
            (answer ++ [createARecord (dns.Name question) (Go.To16 ip)], extra)%list
        | Some _ => (answer, extra)
        end
      else if bool_decide (dns.Qtype question = dns.TypeSRV) then
        let target :=
          client.ID serviceInstance +:+ ".instance." +:+ Domain (config s) +:+ "." in
        let answer :=
          (answer ++ [createSRVRecord (dns.Name question) port target])%list in
        match Go.To4 ip with
        | Some ipV4 =>
            (answer, extra ++ [createARecord (dns.Name question) (Some ipV4)])%list
        | None =>
            (answer, extra ++ [createAAAARecord (dns.Name question) (Go.To16 ip)])%list
        end
      else (answer, extra)
  end.

Definition createRecordsForInstances (question : dns.Question)
    (request : dns.Msg) (serviceInstances : list client.ServiceInstance)
    : M (option error) :=
  let '(answer, extra) := foldl (recordsStep question) ([], []) serviceInstances in
  if bool_decide (length answer = 0%nat) then
    SetRcode request dns.RcodeNameError;;
    mret None
  else
    answer ← shuffleRecords answer;
    extra ← shuffleRecords extra;
    modifyResponse (fun response =>
      dns.set_Answer response (dns.Answer response ++ answer)%list);;
    modifyResponse (fun response =>
      dns.set_Extra response (dns.Extra response ++ extra)%list);;
    SetRcode request dns.RcodeSuccess;;
    mret None.

Definition handleQuestion (question : dns.Question) (request : dns.Msg)
    : M (option error) :=
  if negb (bool_decide (dns.Qclass question = dns.ClassINET)) then
    SetRcode request dns.RcodeServerFailure;;
    mret (Some (UnsupportedClass (dns.Qclass question)))
  else if negb (bool_decide (dns.Qtype question = dns.TypeA)
                || bool_decide (dns.Qtype question = dns.TypeAAAA)
                || bool_decide (dns.Qtype question = dns.TypeSRV)) then
    SetRcode request dns.RcodeServerFailure;;
    mret (Some (UnsupportedType (dns.Qtype question)))
  else
    '(serviceInstances, err) ← retrieveServices question request;
    match err with
    | Some e => mret (Some e)
    | None => createRecordsForInstances question request serviceInstances
    end.

(** The loop of handleRequest over the questions, left at the first
    error. *)
Fixpoint handleQuestions (questions : list dns.Question) (request : dns.Msg)
    : M unit :=
  match questions with
  | [] => mret tt
  | question :: rest =>
      err ← handleQuestion question request;
      match err with
      | Some _ => mret tt
      | None => handleQuestions rest request
      end
  end.

(** handleRequest: the result is the message handed to WriteMsg. *)
Definition handleRequest (request : dns.Msg) : M dns.Msg := fun st =>
  let reply :=
    dns.set_flags
      (dns.set_Extra (dns.SetReply dns.new_Msg request) (dns.Extra request))
      true false in
  match handleQuestions (dns.Msg_Question request) request
          {| response := reply; rand := rand st |} with
  | Ret _ st' => Ret (response st') st'
  | Panic => Panic
  end.

End server.

(** ** Executable stand-ins for the imported parsers

    Used to run the server on concrete scenarios.  Each follows the Go
    function on the inputs the scenarios use and says where it stops:
    domain names without backslash escapes, IPv4 addresses in dotted decimal
    without leading zeros, IPv6 addresses written as eight hexadecimal groups
    (no "::" and no dotted tail), and URLs of the shape
    scheme://host[:port][/path] without user information. *)

Module Sample.

(** The pieces of [s] between the occurrences of [sep]; [cur] is the piece
    being read, reversed. *)
Fixpoint splitOn (sep : ascii) (s : string) (cur : list ascii) : list string :=
  match s with
  | EmptyString => [string_of_list_ascii (rev cur)]
  | String c rest =>
      if bool_decide (c = sep)
      then string_of_list_ascii (rev cur) :: splitOn sep rest []
      else splitOn sep rest (c :: cur)
  end.

Definition hasByte (c : ascii) (s : string) : bool :=
  existsb (fun d => bool_decide (d = c)) (list_ascii_of_string s).

(** The name with its final dot dropped, when it has one. *)
Definition dropRootDot (s : string) : string :=
  if dns.IsFqdn s then String.substring 0 (String.length s - 1) s else s.

(** dns.IsDomainName: the empty name has no label; otherwise every dot ends
    a label, no two dots follow each other, and a label has at most 63
    bytes. *)
Definition IsDomainName (s : string) : Z * bool :=
  match s with
  | EmptyString => (0%Z, true)
  | _ =>
      let labels := splitOn "." (dropRootDot s) [] in
      let twoDots := existsb (fun l => bool_decide (l = "")) (tail labels) in
      let longLabel := existsb (fun l => bool_decide (64 ≤ String.length l)%nat) labels in
      if hasByte "\" s || twoDots || longLabel then (0%Z, false)
      else (Z.of_nat (length labels), true)
  end.

(** dns.SplitDomainName: nil for the empty name and for the root. *)
Definition SplitDomainName (s : string) : list string :=
  if bool_decide (s = "") || bool_decide (s = ".") then []
  else splitOn "." (dropRootDot s) [].

(** The offset of the last [c] in [s]. *)
Fixpoint lastIndex (c : ascii) (s : string) (i : nat) (found : option nat) : option nat :=
  match s with
  | EmptyString => found
  | String d rest =>
      lastIndex c rest (S i) (if bool_decide (d = c) then Some i else found)
  end.

Definition from (i : nat) (s : string) : string :=
  String.substring i (String.length s - i) s.

(** net.SplitHostPort *)
Definition SplitHostPort (hostport : string) : option (string * string) :=
  match lastIndex ":" hostport 0 None with
  | None => None
  | Some i =>
      let bracketed :=
        match String.get 0 hostport with
        | Some c => bool_decide (c = "["%char)
        | None => false
        end in
      let parsed :=
        if bracketed then
          match String.index 0 "]" hostport with
          | None => None
          | Some e =>
              if bool_decide (e + 1 = String.length hostport)%nat then None
              else if bool_decide (e + 1 = i)%nat
              then Some (String.substring 1 (e - 1) hostport, 1%nat, (e + 1)%nat)
              else None
          end
        else
          let host := String.substring 0 i hostport in
          if hasByte ":" host then None else Some (host, 0%nat, 0%nat) in
      match parsed with
      | None => None
      | Some (host, j, k) =>
          if hasByte "[" (from j hostport) then None
          else if hasByte "]" (from k hostport) then None
          else Some (host, from (i + 1) hostport)
      end
  end.

(** A decimal octet without sign or leading zero. *)
Definition octet (s : string) : option Z :=
  match s with
  | EmptyString => None
  | String c rest =>
      if bool_decide (c = "0"%char) && negb (bool_decide (rest = "")) then None
      else
        match Go.digits s 0 with
        | Some n => if (n <=? 255)%Z then Some n else None
        | None => None
        end
  end.

Definition hexDigit (c : ascii) : option Z :=
  let n := Z.of_N (N_of_ascii c) in
  if ((48 <=? n) && (n <=? 57))%Z then Some (n - 48)%Z
  else if ((97 <=? n) && (n <=? 102))%Z then Some (n - 87)%Z
  else if ((65 <=? n) && (n <=? 70))%Z then Some (n - 55)%Z
  else None.

Fixpoint hexDigits (s : string) (acc : Z) : option Z :=
  match s with
  | EmptyString => Some acc
  | String c rest =>
      match hexDigit c with
      | Some d => hexDigits rest (acc * 16 + d)%Z
      | None => None
      end
  end.

(** One group of an IPv6 address: one to four hexadecimal digits, as its
    two bytes. *)
Definition group (s : string) : option (list Z) :=
  if bool_decide (1 ≤ String.length s ≤ 4)%nat then
    match hexDigits s 0 with
    | Some n => Some [(n / 256)%Z; (n mod 256)%Z]
    | None => None
    end
  else None.

(** net.ParseIP on dotted-decimal IPv4 and on eight-group IPv6 text. *)
Definition ParseIP (s : string) : option Go.IP :=
  if hasByte ":" s then
    let groups := splitOn ":" s [] in
    if bool_decide (length groups = 8%nat)
    then mjoin <$> mapM group groups
    else None
  else
    match mapM octet (splitOn "." s []) with
    | Some [a; b; c; d] => Some (Go.IPv4 a b c d)
    | _ => None
    end.

(** url.Parse on scheme://host[:port][/path]: the host is what stands
    between "://" and the next slash. *)
Definition Parse (rawurl : string) : option Go.URL :=
  match String.index 0 "://" rawurl with
  | None => None
  | Some i =>
      let rest := from (i + 3) rawurl in
      if hasByte "@" rest || hasByte "?" rest || hasByte "#" rest
         || hasByte "%" rest
      then None
      else
        match splitOn "/" rest [] with
        | host :: _ => Some {| Go.Host := host |}
        | [] => None
        end
  end.

Definition imports : Imports :=
  {| dns_IsDomainName := IsDomainName;
     dns_SplitDomainName := SplitDomainName;
     net_SplitHostPort := SplitHostPort;
     net_ParseIP := ParseIP;
     url_Parse := Parse |}.

(** A catalog held in memory: ListInstances hands back the instances of
    the named service that carry every requested tag, and all instances
    for the empty filter. *)
Definition matches (f : client.InstanceFilter) (i : client.ServiceInstance) : bool :=
  (bool_decide (client.ServiceName f = "")
   || bool_decide (client.Service i = client.ServiceName f))
  && forallb (fun t => bool_decide (t ∈ client.InstanceTags i)) (client.Tags f).

Definition catalog (instances : list client.ServiceInstance) : client.Discovery :=
  {| client.ListInstances := fun f => (filter (fun i => matches f i = true) instances, None) |}.

Definition server (d : client.Discovery) (domain : string) : Server :=
  {| config := {| DiscoveryClient := Some d; Port := 53; Domain := domain |} |}.

Definition reviews : client.ServiceInstance :=
  {| client.ID := "abc123...";
     client.Service := "reviews";
     client.Endpoint := {| client.Type_ := "http"; client.Value := "192.168.1.10:9080" |};
     client.InstanceTags := [] |}.

(** Three instances of service "web": an IPv4 endpoint with a port, an
    IPv6 endpoint without one, and an endpoint that names no address. *)
Definition web : list client.ServiceInstance :=
  [ {| client.ID := "i-1"; client.Service := "web";
       client.Endpoint := {| client.Type_ := "tcp"; client.Value := "10.0.0.5:9090" |};
       client.InstanceTags := ["v1"] |};
    {| client.ID := "i-2"; client.Service := "web";
       client.Endpoint := {| client.Type_ := "tcp"; client.Value := "2001:db8:0:0:0:0:0:1" |};
       client.InstanceTags := ["v2"] |};
    {| client.ID := "i-3"; client.Service := "web";
       client.Endpoint := {| client.Type_ := "udp"; client.Value := "not-an-address" |};
       client.InstanceTags := [] |} ].

(** A catalog in which two instances carry the same ID. *)
Definition twins : list client.ServiceInstance :=
  [ {| client.ID := "i-8"; client.Service := "db";
       client.Endpoint := {| client.Type_ := "tcp"; client.Value := "10.0.0.8:5432" |};
       client.InstanceTags := [] |};
    {| client.ID := "i-9"; client.Service := "db";
       client.Endpoint := {| client.Type_ := "tcp"; client.Value := "10.0.0.1:5432" |};
       client.InstanceTags := [] |};
    {| client.ID := "i-9"; client.Service := "db";
       client.Endpoint := {| client.Type_ := "tcp"; client.Value := "10.0.0.2:5432" |};
       client.InstanceTags := [] |} ].

Definition question (name : string) (qtype : Z) : dns.Question :=
  {| dns.Name := name; dns.Qtype := qtype; dns.Qclass := dns.ClassINET |}.

Definition request (questions : list dns.Question) : dns.Msg :=
  {| dns.Id := 7; dns.Response := false; dns.Opcode := 0;
     dns.Authoritative := false; dns.RecursionDesired := true;
     dns.RecursionAvailable := false; dns.Rcode := 0;
     dns.Msg_Question := questions;
     dns.Answer := []; dns.Extra := [] |}.

Definition start (rand : list nat) : state :=
  {| response := dns.new_Msg; rand := rand |}.

End Sample.

(** ** Derived notions used in the statements *)

(** What one instance contributes to (answer, extra): one round of the loop
    of createRecordsForInstances run on empty lists. *)
Definition instanceRecords (ext : Imports) (s : Server) (question : dns.Question)
    (serviceInstance : client.ServiceInstance) : list dns.RR * list dns.RR :=
  recordsStep ext s question ([], []) serviceInstance.

(** The answer and extra lists as the loop leaves them, before the shuffle. *)
Definition answerRecords (ext : Imports) (s : Server) (question : dns.Question)
    (serviceInstances : list client.ServiceInstance) : list dns.RR :=
  (foldl (recordsStep ext s question) ([], []) serviceInstances).1.

Definition extraRecords (ext : Imports) (s : Server) (question : dns.Question)
    (serviceInstances : list client.ServiceInstance) : list dns.RR :=
  (foldl (recordsStep ext s question) ([], []) serviceInstances).2.

(** The instances whose endpoint splitHostPort resolves, in order, each with
    its address and port. *)
Definition resolvable (ext : Imports)
    (serviceInstances : list client.ServiceInstance)
    : list (client.ServiceInstance * Go.IP * Z) :=
  omap (fun serviceInstance =>
          match splitHostPort ext (client.Endpoint serviceInstance) with
          | inl (ip, port) => Some (serviceInstance, ip, port)
          | inr _ => None
          end) serviceInstances.

(** Two messages that differ at most in the order of their answer and extra
    records. *)
Definition sameRecords (m1 m2 : dns.Msg) : Prop :=
  dns.set_Extra (dns.set_Answer m1 []) [] = dns.set_Extra (dns.set_Answer m2 []) []
  ∧ dns.Answer m1 ≡ₚ dns.Answer m2
  ∧ dns.Extra m1 ≡ₚ dns.Extra m2.

(** Two outcomes that agree: both panic, or both return the same value and
    leave responses with the same records. *)
Definition agree {A : Type} (o1 o2 : outcome A) : Prop :=
  match o1, o2 with
  | Ret a1 st1, Ret a2 st2 => a1 = a2 ∧ sameRecords (response st1) (response st2)
  | Panic, Panic => True
  | _, _ => False
  end.

(** A computation whose outcome depends neither on the random source nor on
    the order of the records already in the response. *)
Definition steady {A : Type} (m : M A) : Prop :=
  ∀ st1 st2, sameRecords (response st1) (response st2) → agree (m st1) (m st2).

(** The state after response.SetRcode(request, rcode). *)
Definition withRcode (request : dns.Msg) (rcode : Z) (st : state) : state :=
  {| response := dns.SetRcode (response st) request rcode; rand := rand st |}.

(** A computation that returns from every state: it never panics. *)
Definition returns {A : Type} (m : M A) : Prop :=
  ∀ st, ∃ a st', m st = Ret a st'.

(** The label count and the label list of a question name agree: for a name
    dns.IsDomainName accepts, dns.SplitDomainName yields as many labels as
    counted, and at least one. *)
Definition labelsAgree (ext : Imports) (name : string) : Prop :=
  ∀ numberOfLabels,
    dns_IsDomainName ext name = (numberOfLabels, true) →
    numberOfLabels = Z.of_nat (length (dns_SplitDomainName ext name))
    ∧ dns_SplitDomainName ext name ≠ [].

(** What a lookup leaves behind: with an error, one of the three error
    codes is set and nothing else is touched; without, the state is as it
    was. *)
Definition lookupOutcome (request : dns.Msg) (st : state)
    (o : outcome (list client.ServiceInstance * option error)) : Prop :=
  match o with
  | Ret (_, Some _) st' =>
      ∃ rcode,
        rcode ∈ [dns.RcodeFormatError; dns.RcodeServerFailure; dns.RcodeNameError]
        ∧ st' = withRcode request rcode st
  | Ret (_, None) st' => st' = st
  | Panic => True
  end.

(** What every response under construction satisfies, from the first line of
    handleRequest to the reply written: it answers [request], is
    authoritative, offers no recursion, starts its extra section with the
    request's, and carries one of the four response codes the server uses. *)
Definition replyInvariant (request m : dns.Msg) : Prop :=
  dns.Id m = dns.Id request
  ∧ dns.Response m = true
  ∧ dns.Authoritative m = true
  ∧ dns.RecursionAvailable m = false
  ∧ dns.Extra request `prefix_of` dns.Extra m
  ∧ dns.Rcode m ∈ [dns.RcodeSuccess; dns.RcodeFormatError;
                   dns.RcodeServerFailure; dns.RcodeNameError].

(** ** The catalog's instance IDs: registry/store/istio/catalog.go *)

(** crypto/sha256: the SHA-256 digest of a byte string (FIPS 180-4), words
    as Z in [0, 2^32). *)
Module sha256.

Definition K : list Z :=
  [
    1116352408; 1899447441; 3049323471; 3921009573; 961987163; 1508970993;
    2453635748; 2870763221; 3624381080; 310598401; 607225278; 1426881987;
    1925078388; 2162078206; 2614888103; 3248222580; 3835390401; 4022224774;
    264347078; 604807628; 770255983; 1249150122; 1555081692; 1996064986;
    2554220882; 2821834349; 2952996808; 3210313671; 3336571891; 3584528711;
    113926993; 338241895; 666307205; 773529912; 1294757372; 1396182291;
    1695183700; 1986661051; 2177026350; 2456956037; 2730485921; 2820302411;
    3259730800; 3345764771; 3516065817; 3600352804; 4094571909; 275423344;
    430227734; 506948616; 659060556; 883997877; 958139571; 1322822218;
    1537002063; 1747873779; 1955562222; 2024104815; 2227730452; 2361852424;
    2428436474; 2756734187; 3204031479; 3329325298
  ]%Z.

Definition init : list Z :=
  [
    1779033703; 3144134277; 1013904242; 2773480762;
    1359893119; 2600822924; 528734635; 1541459225
  ]%Z.

Definition add32 (a b : Z) : Z := ((a + b) mod 4294967296)%Z.

Definition rotr (n x : Z) : Z :=
  Z.lor (Z.shiftr x n) ((Z.shiftl x (32 - n)) mod 4294967296)%Z.

Definition not32 (x : Z) : Z := Z.lxor x 4294967295.

Definition Ch (x y z : Z) : Z := Z.lxor (Z.land x y) (Z.land (not32 x) z).
Definition Maj (x y z : Z) : Z :=
  Z.lxor (Z.lxor (Z.land x y) (Z.land x z)) (Z.land y z).
Definition Sigma0 (x : Z) : Z := Z.lxor (Z.lxor (rotr 2 x) (rotr 13 x)) (rotr 22 x).
Definition Sigma1 (x : Z) : Z := Z.lxor (Z.lxor (rotr 6 x) (rotr 11 x)) (rotr 25 x).
Definition sigma0 (x : Z) : Z := Z.lxor (Z.lxor (rotr 7 x) (rotr 18 x)) (Z.shiftr x 3).
Definition sigma1 (x : Z) : Z := Z.lxor (Z.lxor (rotr 17 x) (rotr 19 x)) (Z.shiftr x 10).

(** A word as four bytes and back, most significant first. *)
Definition wordBytes (w : Z) : list Z :=
  [(w / 16777216) mod 256; (w / 65536) mod 256; (w / 256) mod 256; w mod 256]%Z.

Fixpoint words (bytes : list Z) : list Z :=
  match bytes with
  | a :: b :: c :: d :: rest =>
      (((a * 256 + b) * 256 + c) * 256 + d)%Z :: words rest
  | _ => []
  end.

(** The message followed by the bit 1, zeros, and its length in bits as a
    64-bit number, a multiple of 64 bytes in all. *)
Definition pad (message : list Z) : list Z :=
  let len := Z.of_nat (length message) in
  let zeros := Z.to_nat ((55 - len) mod 64) in
  (message ++ [128%Z] ++ replicate zeros 0%Z
   ++ wordBytes ((len * 8) / 4294967296) ++ wordBytes ((len * 8) mod 4294967296))%list.

(** The message schedule: [w] grows from 16 words to 64. *)
Fixpoint schedule (todo : nat) (w : list Z) : list Z :=
  match todo with
  | O => w
  | S todo' =>
      let t := length w in
      let at_ (back : nat) := nth (t - back) w 0%Z in
      schedule todo'
        (w ++ [add32 (add32 (sigma1 (at_ 2)) (at_ 7))
                     (add32 (sigma0 (at_ 15)) (at_ 16))])%list
  end.

(** One round on the working variables (a, b, c, d, e, f, g, h). *)
Definition round (v : list Z) (kw : Z * Z) : list Z :=
  match v with
  | [a; b; c; d; e; f; g; h] =>
      let T1 := add32 (add32 (add32 h (Sigma1 e)) (add32 (Ch e f g) kw.1)) kw.2 in
      let T2 := add32 (Sigma0 a) (Maj a b c) in
      [add32 T1 T2; a; b; c; add32 d T1; e; f; g]
  | _ => v
  end.

Definition block (h : list Z) (chunk : list Z) : list Z :=
  let w := schedule 48 (words chunk) in
  zip_with add32 h (foldl round h (zip K w)).

Fixpoint blocks (count : nat) (h : list Z) (bytes : list Z) : list Z :=
  match count with
  | O => h
  | S count' => blocks count' (block h (take 64 bytes)) (drop 64 bytes)
  end.

(** sha256.Sum256, as the bytes hash.Sum(nil) hands back after Write. *)
Definition Sum (message : list Z) : list Z :=
  let padded := pad message in
  flat_map wordBytes (blocks (length padded / 64) init padded).

End sha256.

Module hex.

Definition digit (n : Z) : ascii :=
  ascii_of_N (Z.to_N (if (n <? 10)%Z then 48 + n else 87 + n)%Z).

(** hex.EncodeToString: two lowercase hexadecimal digits per byte. *)
Fixpoint EncodeToString (src : list Z) : string :=
  match src with
  | [] => EmptyString
  | b :: rest =>
      String (digit (b / 16)) (String (digit (b mod 16)) (EncodeToString rest))
  end.

End hex.

(** ** Package strings *)

Module strings.

(** strings.Join *)
Fixpoint Join (elems : list string) (sep : string) : string :=
  match elems with
  | [] => ""
  | [e] => e
  | e :: rest => e +:+ sep +:+ Join rest sep
  end.

(** strings.Split(s, sep) for a separator of one byte: the pieces of [s]
    between the separators, all of them; [cur] is the piece being read,
    reversed. *)
Fixpoint SplitFrom (s : string) (sep : ascii) (cur : list ascii) : list string :=
  match s with
  | EmptyString => [string_of_list_ascii (rev cur)]
  | String c rest =>
      if bool_decide (c = sep)
      then string_of_list_ascii (rev cur) :: SplitFrom rest sep []
      else SplitFrom rest sep (c :: cur)
  end.

Definition Split (s : string) (sep : ascii) : list string := SplitFrom s sep [].

(** The conversion []byte(s). *)
Definition bytes (s : string) : list Z :=
  map (fun c => Z.of_N (N_of_ascii c)) (list_ascii_of_string s).

(** The slice expression s[:hi] on a string; it panics beyond the length. *)
Definition sliceTo (s : string) (hi : nat) : option string :=
  if bool_decide (hi ≤ String.length s)%nat
  then Some (String.substring 0 hi s)
  else None.

End strings.

Module istiostore.

(** Modelled from the spec: the fields of the catalog's ServiceInstance that
    computeInstanceID reads, four strings; the type is declared in another
    file of package istiostore. *)
Record Service : Type := { Hostname : string; Address : string }.

Record Endpoint : Type := { Endpoint_Address : string; Endpoint_Port : string }.

Record ServiceInstance : Type :=
  { Instance_Service : Service; Instance_Endpoint : Endpoint }.

(** The string that computeInstanceID hashes. *)
Definition identity (si : ServiceInstance) : string :=
  strings.Join [Hostname (Instance_Service si);
                Address (Instance_Service si);
                Endpoint_Address (Instance_Endpoint si);
                Endpoint_Port (Instance_Endpoint si)] "/".

(** computeInstanceID; [None] is the panic of the slice expression. *)
Definition computeInstanceID (si : ServiceInstance) : option string :=
  let md := sha256.Sum (strings.bytes (identity si)) in
  let mdStr := hex.EncodeToString md in
  strings.sliceTo mdStr 16.

End istiostore.

(** ** The controller over the registry client:
    registry/client/test/platform/vms/controller.go *)

Module vms.

(** The service instance objects the discovery client lists, as far as the
    controller reads them; [RawTags] is the type of their tags. *)
Record Item (RawTags : Type) : Type :=
  { Value : string; ServicePortName : string; ItemTags : RawTags }.
Arguments Value {RawTags} _.
Arguments ServicePortName {RawTags} _.
Arguments ItemTags {RawTags} _.

(** model.NetworkEndpoint and model.ServiceInstance, as the controller
    builds them. *)
Record NetworkEndpoint (Port : Type) : Type :=
  { Endpoint_Address : string; Endpoint_Port : Z; Endpoint_ServicePort : Port }.
Arguments Endpoint_Address {Port} _.
Arguments Endpoint_Port {Port} _.
Arguments Endpoint_ServicePort {Port} _.

Record ServiceInstance (Service Port Tags : Type) : Type :=
  { Instance_Endpoint : NetworkEndpoint Port;
    Instance_Service : Service;
    Instance_Tags : Tags }.
Arguments Instance_Endpoint {Service Port Tags} _.
Arguments Instance_Service {Service Port Tags} _.
Arguments Instance_Tags {Service Port Tags} _.

Section controller.

(** What the file imports or takes from the rest of its package: the types
    of package model and of the client's service objects, the tag and port
    operations on them, the two conversions, and the three calls of the
    discovery client. *)
Variables ServiceObject RawTags Service Port Tags TagsList : Type.
Variable convertService : ServiceObject -> Service.
Variable convertTags : RawTags -> Tags.
Variable Ports_Get : Service -> string -> option Port.
Variable Service_Address : Service -> string.
Variable Service_Hostname : Service -> string.
Variable HasSubsetOf : TagsList -> Tags -> bool.
Variable ListServiceObjects : list ServiceObject * option error.
Variable GetServiceObject : string -> list ServiceObject * option error.
Variable ListServiceInstances : string -> list (Item RawTags) * option error.

(** Services; a nil result is the empty list. *)
Definition Services : list Service :=
  match ListServiceObjects with
  | (_, Some _) => []
  | (items, None) => map convertService items
  end.

(** GetService; (nil, false) is [None]. *)
Definition GetService (hostname : string) : option Service :=
  match GetServiceObject hostname with
  | (_, Some _) => None
  | (item, None) =>
      match item with
      | [only] => Some (convertService only)
      | _ => None
      end
  end.

(** The address and port of an endpoint value, as both loops take them:
    split at the colons, exactly two pieces, the second an integer. *)
Definition addrPort (value : string) : option (string * Z) :=
  match strings.Split value ":" with
  | [addr; port] =>
      match Go.Atoi port with
      | Some n => Some (addr, n)
      | None => None
      end
  | _ => None
  end.

(** The map svcPorts of Instances: the requested ports the service has. *)
Definition svcPortsOf (service : Service) (ports : list string)
    : gmap string Port :=
  foldl (fun svcPorts p =>
           match Ports_Get service p with
           | Some port => <[p := port]> svcPorts
           | None => svcPorts
           end) ∅ ports.

(** The loop of Instances over the items; an early "return nil" gives the
    empty list whatever was collected. *)
Fixpoint instancesLoop (service : Service) (svcPorts : gmap string Port)
    (tags : TagsList) (items : list (Item RawTags))
    (instances : list (ServiceInstance Service Port Tags))
    : list (ServiceInstance Service Port Tags) :=
  match items with
  | [] => instances
  | item :: rest =>
      match svcPorts !! ServicePortName item with
      | Some svcPort =>
          let instanceTags := convertTags (ItemTags item) in
          if HasSubsetOf tags instanceTags then
            match addrPort (Value item) with
            | None => []
            | Some (addr, port) =>
                instancesLoop service svcPorts tags rest
                  (instances ++
                   [ {| Instance_Endpoint :=
                          {| Endpoint_Address := addr;
                             Endpoint_Port := port;
                             Endpoint_ServicePort := svcPort |};
                        Instance_Service := service;
                        Instance_Tags := instanceTags |} ])%list
            end
          else instancesLoop service svcPorts tags rest instances
      | None => instancesLoop service svcPorts tags rest instances
      end
  end.

(** Instances; [None] is the panic of svc[0] on an empty slice. *)
Definition Instances (hostname : string) (ports : list string) (tags : TagsList)
    : option (list (ServiceInstance Service Port Tags)) :=
  match GetServiceObject hostname with
  | (_, Some _) => Some []
  | (svc, None) =>
      match svc with
      | [] => None
      | first :: _ =>
          let service := convertService first in
          let svcPorts := svcPortsOf service ports in
          match ListServiceInstances hostname with
          | (_, Some _) => Some []
          | (items, None) => Some (instancesLoop service svcPorts tags items [])
          end
      end
  end.

(** The inner loop of HostInstances over the items of one service; [None] is
    the "return nil" that ends HostInstances. *)
Fixpoint hostItemsLoop (service : Service) (items : list (Item RawTags))
    (instances : list (ServiceInstance Service Port Tags))
    : option (list (ServiceInstance Service Port Tags)) :=
  match items with
  | [] => Some instances
  | item :: rest =>
      match addrPort (Value item) with
      | None => None
      | Some (addr, port) =>
          match Ports_Get service (ServicePortName item) with
          | None => None
          | Some svcPort =>
              hostItemsLoop service rest
                (instances ++
                 [ {| Instance_Endpoint :=
                        {| Endpoint_Address := addr;
                           Endpoint_Port := port;
                           Endpoint_ServicePort := svcPort |};
                      Instance_Service := service;
                      Instance_Tags := convertTags (ItemTags item) |} ])%list
          end
      end
  end.

(** The outer loop of HostInstances over the services; addrs is a map from
    address to bool, read with the zero value false for a missing key. *)
Fixpoint hostServicesLoop (addrs : gmap string bool)
    (services : list ServiceObject)
    (instances : list (ServiceInstance Service Port Tags))
    : list (ServiceInstance Service Port Tags) :=
  match services with
  | [] => instances
  | svc :: rest =>
      let service := convertService svc in
      if default false (addrs !! Service_Address service) then
        match ListServiceInstances (Service_Hostname service) with
        | (_, Some _) => hostServicesLoop addrs rest instances
        | (items, None) =>
            match hostItemsLoop service items instances with
            | None => []
            | Some instances' => hostServicesLoop addrs rest instances'
            end
        end
      else hostServicesLoop addrs rest instances
  end.

Definition HostInstances (addrs : gmap string bool)
    : list (ServiceInstance Service Port Tags) :=
  match ListServiceObjects with
  | (_, Some _) => []
  | (services, None) => hostServicesLoop addrs services []
  end.

(** ** Notions used in the properties of the controller *)

(** The instance both loops build from an item of a service, when the value
    of its endpoint parses and the service has the port it names. *)
Definition instanceOf (service : Service) (item : Item RawTags)
    : option (ServiceInstance Service Port Tags) :=
  match addrPort (Value item), Ports_Get service (ServicePortName item) with
  | Some (addr, port), Some svcPort =>
      Some {| Instance_Endpoint :=
                {| Endpoint_Address := addr;
                   Endpoint_Port := port;
                   Endpoint_ServicePort := svcPort |};
              Instance_Service := service;
              Instance_Tags := convertTags (ItemTags item) |}
  | _, _ => None
  end.

(** The items Instances looks at: those of a requested port that the
    service has, with tags that the requested ones accept. *)
Definition selected (service : Service) (ports : list string)
    (tags : TagsList) (item : Item RawTags) : bool :=
  bool_decide (ServicePortName item ∈ ports)
  && bool_decide (is_Some (Ports_Get service (ServicePortName item)))
  && HasSubsetOf tags (convertTags (ItemTags item)).

(** The services HostInstances looks at: those at a marked address whose
    instances the client lists without an error. *)
Definition listed (addrs : gmap string bool) (svc : ServiceObject) : bool :=
  default false (addrs !! Service_Address (convertService svc))
  && bool_decide
       ((ListServiceInstances (Service_Hostname (convertService svc))).2 = None).

(** All the instances of one service, or [None] when one of its items does
    not give one. *)
Definition hostService (svc : ServiceObject)
    : option (list (ServiceInstance Service Port Tags)) :=
  mapM (instanceOf (convertService svc))
       (ListServiceInstances (Service_Hostname (convertService svc))).1.

End controller.

Arguments Services {_ _} _ _.
Arguments GetService {_ _} _ _ _.
Arguments svcPortsOf {_ _} _ _ _.
Arguments instancesLoop {_ _ _ _ _} _ _ _ _ _ _ _.
Arguments Instances {_ _ _ _ _ _} _ _ _ _ _ _ _ _ _.
Arguments hostItemsLoop {_ _ _ _} _ _ _ _ _.
Arguments hostServicesLoop {_ _ _ _ _} _ _ _ _ _ _ _ _ _.
Arguments HostInstances {_ _ _ _ _} _ _ _ _ _ _ _ _.
Arguments instanceOf {_ _ _ _} _ _ _ _.
Arguments selected {_ _ _ _ _} _ _ _ _ _ _ _.
Arguments listed {_ _ _} _ _ _ _ _ _.
Arguments hostService {_ _ _ _ _} _ _ _ _ _ _.

End vms.

(** A small registry for the controller: two services, one of which has an
    item whose value carries no port. *)
Module SampleRegistry.

Definition ServiceObject : Type := string * string.

Definition Ports_Get (service : ServiceObject) (name : string) : option Z :=
  if bool_decide (name = "http") then Some 80%Z
  else if bool_decide (name = "admin") then Some 7070%Z
  else None.

Definition HasSubsetOf (tags instanceTags : list string) : bool :=
  forallb (fun t => bool_decide (t ∈ instanceTags)) tags.

Definition objects : list ServiceObject :=
  [("reviews", "10.0.0.1"); ("ratings", "10.0.0.2"); ("details", "10.0.0.3")].

Definition ListServiceObjects : list ServiceObject * option error :=
  (objects, None).

Definition GetServiceObject (hostname : string)
    : list ServiceObject * option error :=
  (filter (fun svc => svc.1 = hostname) objects, None).

Definition item (value port : string) (tags : list string)
    : vms.Item (list string) :=
  {| vms.Value := value; vms.ServicePortName := port; vms.ItemTags := tags |}.

Definition ListServiceInstances (hostname : string)
    : list (vms.Item (list string)) * option error :=
  if bool_decide (hostname = "reviews") then
    ([item "192.168.1.10:9080" "http" ["v1"];
      item "192.168.1.11:9080" "http" ["v2"];
      item "192.168.1.12:7070" "admin" ["v1"]], None)
  else if bool_decide (hostname = "ratings") then
    ([item "192.168.2.10:9080" "http" ["v1"];
      item "192.168.2.11" "http" ["v1"]], None)
  else if bool_decide (hostname = "details") then
    ([], Some (ClientError "unavailable"))
  else ([], None).

Definition Instances :=
  vms.Instances (@id ServiceObject)
    (@id (list string)) Ports_Get HasSubsetOf GetServiceObject
    ListServiceInstances.

Definition GetService := vms.GetService (@id ServiceObject) GetServiceObject.

Definition HostInstances :=
  vms.HostInstances (@id ServiceObject) (@id (list string)) Ports_Get
    (@snd string string) (@fst string string) ListServiceObjects
    ListServiceInstances.

End SampleRegistry.

(** * Properties *)

(** ** Construction *)

Lemma IsFqdn_dot (name : string) : dns.IsFqdn (name +:+ ".") = true.
Proof.
  induction name as [|c [|d rest] IH]; [done|done|].
  exact IH.
Qed.

(** A server built by NewServer holds the fully qualified form of the
    configured domain. *)
Lemma NewServer_Domain (c : Config) (s : Server) :
  NewServer c = (Some s, None) →
  Domain (config s) = dns.Fqdn (Domain c)
  ∧ dns.IsFqdn (Domain (config s)) = true.
Proof.
  unfold NewServer, validate.
  destruct (DiscoveryClient c); [|done]. intros [= <-]. cbn.
  split; [done|]. unfold dns.Fqdn.
  destruct (dns.IsFqdn (Domain c)) eqn:Hfq; [done|apply IsFqdn_dot].
Qed.

(** ** The shuffle *)

(** Within the slice the swap goes through and permutes. *)
Lemma swap_Permutation {A : Type} (i j : nat) (records : list A) :
  (i < length records)%nat → (j < length records)%nat →
  ∃ records', swap i j records = Some records'
              ∧ records' ≡ₚ records
              ∧ length records' = length records.
Proof.
  intros [ri Hi]%lookup_lt_is_Some_2 [rj Hj]%lookup_lt_is_Some_2.
  unfold swap. rewrite Hi, Hj. eexists. split; [done|]. split.
  - by apply Permutation_insert_swap.
  - by rewrite !length_insert.
Qed.

(** A draw never panics on a positive bound and leaves the response alone. *)
Lemma Intn_S (n : nat) (st : state) :
  ∃ j rest, Intn (S n) st = Ret j {| response := response st; rand := rest |}
            ∧ (j < S n)%nat.
Proof.
  unfold Intn. destruct st as [resp [|r rest]]; simpl.
  - exists 0%nat, []. split; [done|lia].
  - exists (r mod S n)%nat, rest. split; [done|].
    apply Nat.mod_upper_bound. lia.
Qed.

(** The loop stays within the slice, so it never panics; it permutes. *)
Lemma shuffleFrom_Permutation (todo i : nat) (records : list dns.RR) (st : state) :
  (i + todo ≤ length records)%nat →
  ∃ records' rest,
    shuffleFrom i todo records st
      = Ret records' {| response := response st; rand := rest |}
    ∧ records' ≡ₚ records.
Proof.
  revert i records st.
  induction todo as [|todo IH]; intros i records st Hlen; simpl.
  - exists records, (rand st). by destruct st.
  - unfold mbind, M_bind.
    replace (i + 1)%nat with (S i) by lia.
    destruct (Intn_S i st) as (j & rest & -> & Hj).
    destruct (swap_Permutation i j records) as (swapped & -> & Hperm & Hlength);
      [lia|lia|].
    cbn [orPanic].
    destruct (IH (S i) swapped {| response := response st; rand := rest |})
      as (records' & rest' & -> & Hperm'); [lia|].
    exists records', rest'. split; [done|].
    by rewrite Hperm'.
Qed.

Lemma shuffleRecords_Permutation (records : list dns.RR) (st : state) :
  ∃ records' rest,
    shuffleRecords records st
      = Ret records' {| response := response st; rand := rest |}
    ∧ records' ≡ₚ records.
Proof. by apply shuffleFrom_Permutation. Qed.

(** ** The protocol filter compacts to the filtered list *)

Lemma protocolFilter_loop (protocol : string) (n : nat) :
  ∀ (i k : nat) (arr : list client.ServiceInstance),
    (k ≤ i)%nat → (i + n ≤ length arr)%nat →
    ∃ arr' k',
      foldl (protocolFilterStep protocol) (arr, k) (seq i n) = (arr', k')
      ∧ take k' arr'
        = (take k arr
           ++ filter (λ si, client.Type_ (client.Endpoint si) = protocol)
                     (take n (drop i arr)))%list.
Proof.
  induction n as [|n IH]; intros i k arr Hk Hlen; simpl.
  - exists arr, k. split; [done|]. by rewrite take_0, app_nil_r.
  - destruct (lookup_lt_is_Some_2 arr i) as [x Hx]; [lia|].
    rewrite Hx. rewrite (drop_S _ _ _ Hx). simpl.
    rewrite filter_cons.
    destruct (decide (client.Type_ (client.Endpoint x) = protocol)) as [Heq|Hne].
    + destruct (IH (S i) (S k) (<[k:=x]> arr)) as (arr' & k' & Hfold & Htake).
      { lia. } { rewrite length_insert. lia. }
      exists arr', k'. split; [done|].
      rewrite Htake.
      rewrite (take_S_r _ _ x) by (apply list_lookup_insert_eq; lia).
      rewrite take_insert_ge by lia.
      rewrite drop_insert_lt by lia.
      by rewrite <- app_assoc.
    + destruct (IH (S i) k arr) as (arr' & k' & Hfold & Htake); [lia|lia|].
      exists arr', k'. split; [done|]. by rewrite Htake.
Qed.

Lemma applyProtocolFilter_filter (protocol : string)
    (serviceInstances : list client.ServiceInstance) :
  applyProtocolFilter protocol serviceInstances
  = filter (λ si, client.Type_ (client.Endpoint si) = protocol) serviceInstances.
Proof.
  unfold applyProtocolFilter.
  destruct (protocolFilter_loop protocol (length serviceInstances) 0 0
              serviceInstances) as (arr' & k' & -> & Htake); [lia|simpl; lia|].
  rewrite Htake. simpl. by rewrite drop_0, firstn_all.
Qed.

(** ** Record synthesis *)

Section synthesis.

Variable ext : Imports.
Variable s : Server.
Variable question : dns.Question.

Lemma recordsStep_app (answer extra : list dns.RR) (si : client.ServiceInstance) :
  recordsStep ext s question (answer, extra) si
  = ((answer ++ (instanceRecords ext s question si).1)%list,
     (extra ++ (instanceRecords ext s question si).2)%list).
Proof.
  unfold instanceRecords, recordsStep.
  destruct (splitHostPort ext (client.Endpoint si)) as [[ip port]|err];
    repeat case_bool_decide; repeat case_match;
    simpl; by rewrite ?app_nil_r.
Qed.

Lemma foldl_recordsStep (serviceInstances : list client.ServiceInstance) :
  ∀ answer extra,
    foldl (recordsStep ext s question) (answer, extra) serviceInstances
    = ((answer ++ answerRecords ext s question serviceInstances)%list,
       (extra ++ extraRecords ext s question serviceInstances)%list).
Proof.
  unfold answerRecords, extraRecords.
  induction serviceInstances as [|si rest IH]; intros answer extra; cbn [foldl].
  - by rewrite !app_nil_r.
  - rewrite recordsStep_app, IH.
    rewrite (recordsStep_app [] []), (IH (_ ++ _)%list (_ ++ _)%list).
    cbn [fst snd app]. by rewrite !app_assoc.
Qed.

Lemma answerRecords_cons si rest :
  answerRecords ext s question (si :: rest)
  = ((instanceRecords ext s question si).1 ++ answerRecords ext s question rest)%list.
Proof.
  unfold answerRecords at 1. cbn [foldl].
  rewrite (recordsStep_app [] []), foldl_recordsStep. done.
Qed.

Lemma extraRecords_cons si rest :
  extraRecords ext s question (si :: rest)
  = ((instanceRecords ext s question si).2 ++ extraRecords ext s question rest)%list.
Proof.
  unfold extraRecords at 1. cbn [foldl].
  rewrite (recordsStep_app [] []), foldl_recordsStep. done.
Qed.

(** What createRecordsForInstances does: it never panics and never fails;
    with no answer it only sets the name-error code, otherwise it appends
    a permutation of each list and sets the success code. *)
Lemma createRecordsForInstances_run (request : dns.Msg)
    (serviceInstances : list client.ServiceInstance) (st : state) :
  ∃ answer extra rest,
    answer ≡ₚ answerRecords ext s question serviceInstances
    ∧ extra ≡ₚ extraRecords ext s question serviceInstances
    ∧ createRecordsForInstances ext s question request serviceInstances st
      = Ret None
          {| response :=
               if bool_decide (answerRecords ext s question serviceInstances = [])
               then dns.SetRcode (response st) request dns.RcodeNameError
               else dns.SetRcode
                      (dns.set_Extra
                         (dns.set_Answer (response st)
                            (dns.Answer (response st) ++ answer)%list)
                         (dns.Extra (response st) ++ extra)%list)
                      request dns.RcodeSuccess;
             rand := rest |}.
Proof.
  unfold createRecordsForInstances.
  rewrite foldl_recordsStep. simpl.
  destruct (answerRecords ext s question serviceInstances) as [|r answer0] eqn:Ha.
  - exists [], (extraRecords ext s question serviceInstances), (rand st).
    by repeat split.
  - rewrite bool_decide_eq_false_2 by done.
    rewrite (bool_decide_eq_false_2 (_ = [])) by done.
    unfold mbind, M_bind.
    destruct (shuffleRecords_Permutation (r :: answer0) st)
      as (answer & rest1 & -> & Hanswer).
    destruct (shuffleRecords_Permutation
                (extraRecords ext s question serviceInstances)
                {| response := response st; rand := rest1 |})
      as (extra & rest2 & -> & Hextra).
    exists answer, extra, rest2. by repeat split.
Qed.

End synthesis.

(** The question types are pairwise distinct. *)
Lemma Qtype_SRV_cases (question : dns.Question) :
  dns.Qtype question = dns.TypeSRV →
  bool_decide (dns.Qtype question = dns.TypeA) = false
  ∧ bool_decide (dns.Qtype question = dns.TypeAAAA) = false
  ∧ bool_decide (dns.Qtype question = dns.TypeSRV) = true.
Proof. intros ->. by vm_compute. Qed.

Lemma Qtype_AAAA_cases (question : dns.Question) :
  dns.Qtype question = dns.TypeAAAA →
  bool_decide (dns.Qtype question = dns.TypeA) = false
  ∧ bool_decide (dns.Qtype question = dns.TypeAAAA) = true.
Proof. intros ->. by vm_compute. Qed.

Section per_type.

Variable ext : Imports.
Variable s : Server.
Variable question : dns.Question.

Lemma instanceRecords_SRV (si : client.ServiceInstance) :
  dns.Qtype question = dns.TypeSRV →
  instanceRecords ext s question si
  = match splitHostPort ext (client.Endpoint si) with
    | inl (ip, port) =>
        ([createSRVRecord (dns.Name question) port
            (client.ID si +:+ ".instance." +:+ Domain (config s) +:+ ".")],
         [match Go.To4 ip with
          | Some ipV4 => createARecord (dns.Name question) (Some ipV4)
          | None => createAAAARecord (dns.Name question) (Go.To16 ip)
          end])
    | inr _ => ([], [])
    end.
Proof.
  intros (HA & HAAAA & HSRV)%Qtype_SRV_cases.
  unfold instanceRecords, recordsStep. rewrite HA, HAAAA, HSRV.
  destruct (splitHostPort ext (client.Endpoint si)) as [[ip port]|err]; [|done].
  by destruct (Go.To4 ip).
Qed.

Lemma instanceRecords_AAAA (si : client.ServiceInstance) :
  dns.Qtype question = dns.TypeAAAA →
  instanceRecords ext s question si
  = match splitHostPort ext (client.Endpoint si) with
    | inl (ip, port) =>
        (match Go.To4 ip with
         | None => [createARecord (dns.Name question) (Go.To16 ip)]
         | Some _ => []
         end, [])
    | inr _ => ([], [])
    end.
Proof.
  intros (HA & HAAAA)%Qtype_AAAA_cases.
  unfold instanceRecords, recordsStep. rewrite HA, HAAAA.
  destruct (splitHostPort ext (client.Endpoint si)) as [[ip port]|err]; [|done].
  by destruct (Go.To4 ip).
Qed.

Lemma resolvable_cons (si : client.ServiceInstance) rest :
  resolvable ext (si :: rest)
  = match splitHostPort ext (client.Endpoint si) with
    | inl (ip, port) => (si, ip, port) :: resolvable ext rest
    | inr _ => resolvable ext rest
    end.
Proof.
  unfold resolvable. cbn [omap list_omap].
  by destruct (splitHostPort ext (client.Endpoint si)) as [[ip port]|err].
Qed.

Lemma records_SRV (serviceInstances : list client.ServiceInstance) :
  dns.Qtype question = dns.TypeSRV →
  answerRecords ext s question serviceInstances
  = map (λ '(si, ip, port),
           createSRVRecord (dns.Name question) port
             (client.ID si +:+ ".instance." +:+ Domain (config s) +:+ "."))
        (resolvable ext serviceInstances)
  ∧ extraRecords ext s question serviceInstances
    = map (λ '(si, ip, port),
             match Go.To4 ip with
             | Some ipV4 => createARecord (dns.Name question) (Some ipV4)
             | None => createAAAARecord (dns.Name question) (Go.To16 ip)
             end)
          (resolvable ext serviceInstances).
Proof.
  intros HSRV.
  induction serviceInstances as [|si rest [IHa IHe]]; [done|].
  rewrite answerRecords_cons, extraRecords_cons, resolvable_cons.
  rewrite instanceRecords_SRV by done. rewrite IHa, IHe.
  by destruct (splitHostPort ext (client.Endpoint si)) as [[ip port]|err].
Qed.

Lemma records_AAAA (serviceInstances : list client.ServiceInstance) :
  dns.Qtype question = dns.TypeAAAA →
  answerRecords ext s question serviceInstances
  = map (λ '(si, ip, port), createARecord (dns.Name question) (Go.To16 ip))
        (filter (λ '(si, ip, port), Go.To4 ip = None)
                (resolvable ext serviceInstances))
  ∧ extraRecords ext s question serviceInstances = [].
Proof.
  intros HAAAA.
  induction serviceInstances as [|si rest [IHa IHe]]; [done|].
  rewrite answerRecords_cons, extraRecords_cons, resolvable_cons.
  rewrite instanceRecords_AAAA by done. rewrite IHa, IHe.
  destruct (splitHostPort ext (client.Endpoint si)) as [[ip port]|err]; [|done].
  rewrite filter_cons. case_decide as H4.
  - change (Go.To4 ip = None) in H4. by rewrite H4.
  - change (Go.To4 ip ≠ None) in H4. by destruct (Go.To4 ip).
Qed.

End per_type.

(** X28.  For an SRV question, createRecordsForInstances appends to the
    answer section a permutation of one SRV record per instance whose
    endpoint resolves (priority and weight 0, the resolved port, and as
    target the instance ID, ".instance.", the domain string the server
    holds and one more dot) and to the extra section a permutation of one
    address record per such instance (an A record when the address has a
    4-byte form, an AAAA record otherwise); with N such instances each of
    the two lists has N records. *)
Theorem SRV_records_per_instance
    (ext : Imports) (s : Server) (question : dns.Question) (request : dns.Msg)
    (serviceInstances : list client.ServiceInstance) (st : state) :
  dns.Qtype question = dns.TypeSRV →
  ∃ answer extra st',
    createRecordsForInstances ext s question request serviceInstances st
    = Ret None st'
    ∧ dns.Answer (response st') = (dns.Answer (response st) ++ answer)%list
    ∧ dns.Extra (response st') = (dns.Extra (response st) ++ extra)%list
    ∧ answer ≡ₚ
        map (λ '(si, ip, port),
               dns.SRV {| dns.Hdr_Name := dns.Name question;
                          dns.Rrtype := dns.TypeSRV;
                          dns.Class := dns.ClassINET;
                          dns.Ttl := 0 |}
                       0 0 port
                       (client.ID si +:+ ".instance." +:+ Domain (config s) +:+ "."))
            (resolvable ext serviceInstances)
    ∧ extra ≡ₚ
        map (λ '(si, ip, port),
               match Go.To4 ip with
               | Some ipV4 =>
                   dns.A {| dns.Hdr_Name := dns.Name question;
                            dns.Rrtype := dns.TypeA;
                            dns.Class := dns.ClassINET;
                            dns.Ttl := 0 |} (Some ipV4)
               | None =>
                   dns.AAAA {| dns.Hdr_Name := dns.Name question;
                               dns.Rrtype := dns.TypeAAAA;
                               dns.Class := dns.ClassINET;
                               dns.Ttl := 0 |} (Go.To16 ip)
               end)
            (resolvable ext serviceInstances)
    ∧ length answer = length (resolvable ext serviceInstances)
    ∧ length extra = length (resolvable ext serviceInstances).
Proof.
  intros HSRV.
  destruct (records_SRV ext s question serviceInstances HSRV) as [Ha He].
  destruct (createRecordsForInstances_run ext s question request
              serviceInstances st) as (answer & extra & rest & Hpa & Hpe & Hrun).
  case_bool_decide as Hnil.
  - exists [], [], {| response := dns.SetRcode (response st) request dns.RcodeNameError;
                      rand := rest |}.
    assert (resolvable ext serviceInstances = []) as Hres.
    { rewrite Hnil in Ha. symmetry in Ha. by apply map_eq_nil in Ha. }
    rewrite Hres. simpl. by rewrite !app_nil_r.
  - eexists answer, extra, _. split; [exact Hrun|].
    rewrite Ha in Hpa. rewrite He in Hpe.
    repeat split; try done.
    + by rewrite Hpa, length_map.
    + by rewrite Hpe, length_map.
Qed.

Lemma SRV_records_per_instance_witness :
  let c := {| DiscoveryClient := Some (Sample.catalog Sample.web);
              Port := 53; Domain := "example" |} in
  let s := {| config := {| DiscoveryClient := Some (Sample.catalog Sample.web);
                           Port := 53; Domain := "example." |} |} in
  let question := Sample.question "web.service.example." dns.TypeSRV in
  let header (rrtype : Z) :=
    {| dns.Hdr_Name := "web.service.example."; dns.Rrtype := rrtype;
       dns.Class := dns.ClassINET; dns.Ttl := 0 |} in
  NewServer c = (Some s, None)
  ∧ dns.Qtype question = dns.TypeSRV
  ∧ ∃ answer extra st',
      createRecordsForInstances Sample.imports s question
        (Sample.request [question]) Sample.web (Sample.start [5; 2; 7]%nat)
      = Ret None st'
      ∧ dns.Answer (response st') = answer
      ∧ dns.Extra (response st') = extra
      ∧ answer ≡ₚ [dns.SRV (header dns.TypeSRV) 0 0 9090 "i-1.instance.example..";
                   dns.SRV (header dns.TypeSRV) 0 0 0 "i-2.instance.example.."]
      ∧ extra ≡ₚ [dns.A (header dns.TypeA) (Some [10; 0; 0; 5]%Z);
                  dns.AAAA (header dns.TypeAAAA)
                    (Some [32; 1; 13; 184; 0; 0; 0; 0; 0; 0; 0; 0; 0; 0; 0; 1]%Z)]
      ∧ length answer = 2%nat
      ∧ length extra = 2%nat.
Proof.
  intros c s question header.
  split; [reflexivity|]. split; [reflexivity|].
  destruct (SRV_records_per_instance Sample.imports s question
              (Sample.request [question]) Sample.web (Sample.start [5; 2; 7]%nat)
              eq_refl)
    as (answer & extra & st' & Hrun & Ha & He & Hpa & Hpe & Hla & Hle).
  exists answer, extra, st'.
  split; [exact Hrun|]. split; [exact Ha|]. split; [exact He|].
  split; [exact Hpa|]. split; [exact Hpe|].
  split; [exact Hla|exact Hle].
Defined.

(** C3.  For an AAAA question, createRecordsForInstances appends to the
    answer section a permutation of one record per instance whose endpoint
    resolves to an address without a 4-byte form, and nothing else; that
    record is the one createARecord builds (type A, class INET, TTL 0) around
    the 16-byte form of the address, and the extra section is left as it
    was.  An instance whose address has a 4-byte form contributes nothing. *)
Theorem AAAA_records_typed_A
    (ext : Imports) (s : Server) (question : dns.Question) (request : dns.Msg)
    (serviceInstances : list client.ServiceInstance) (st : state) :
  dns.Qtype question = dns.TypeAAAA →
  (∃ answer st',
     createRecordsForInstances ext s question request serviceInstances st
     = Ret None st'
     ∧ dns.Answer (response st') = (dns.Answer (response st) ++ answer)%list
     ∧ dns.Extra (response st') = dns.Extra (response st)
     ∧ answer ≡ₚ
         map (λ '(si, ip, port),
                dns.A {| dns.Hdr_Name := dns.Name question;
                         dns.Rrtype := dns.TypeA;
                         dns.Class := dns.ClassINET;
                         dns.Ttl := 0 |} (Go.To16 ip))
             (filter (λ '(si, ip, port), Go.To4 ip = None)
                     (resolvable ext serviceInstances)))
  ∧ (∀ si ip port,
       splitHostPort ext (client.Endpoint si) = inl (ip, port) →
       instanceRecords ext s question si
       = if Go.To4 ip is Some _ then ([], [])
         else ([createARecord (dns.Name question) (Go.To16 ip)], []))
  ∧ (∀ ip, length ip = 16%nat → Go.To16 ip = Some ip).
Proof.
  intros HAAAA. split; [|split].
  - destruct (records_AAAA ext s question serviceInstances HAAAA) as [Ha He].
    destruct (createRecordsForInstances_run ext s question request
                serviceInstances st) as (answer & extra & rest & Hpa & Hpe & Hrun).
    rewrite He in Hpe. apply Permutation_nil_r in Hpe. subst extra.
    case_bool_decide as Hnil.
    + eexists [], _. split; [exact Hrun|].
      rewrite Hnil in Ha. simpl. rewrite app_nil_r.
      repeat split. unfold createARecord in Ha. by rewrite <- Ha.
    + eexists answer, _. split; [exact Hrun|].
      rewrite Ha in Hpa. simpl. rewrite app_nil_r.
      repeat split. exact Hpa.
  - intros si ip port Hsplit.
    rewrite instanceRecords_AAAA by done. rewrite Hsplit.
    by destruct (Go.To4 ip).
  - intros ip Hlen. unfold Go.To16.
    do 5 (destruct ip as [|? ip]; [done|]).
    by rewrite decide_True.
Qed.

Lemma AAAA_records_typed_A_witness :
  let question := Sample.question "web.service.example." dns.TypeAAAA in
  dns.Qtype question = dns.TypeAAAA
  ∧ ∃ st',
      createRecordsForInstances Sample.imports
        (Sample.server (Sample.catalog Sample.web) "example") question
        (Sample.request [question]) Sample.web (Sample.start [5; 2; 7]%nat)
      = Ret None st'
      ∧ dns.Answer (response st')
        = [dns.A {| dns.Hdr_Name := "web.service.example.";
                    dns.Rrtype := dns.TypeA;
                    dns.Class := dns.ClassINET;
                    dns.Ttl := 0 |}
                 (Some [32; 1; 13; 184; 0; 0; 0; 0; 0; 0; 0; 0; 0; 0; 0; 1]%Z)]
      ∧ dns.Extra (response st') = [].
Proof.
  intros question. split; [reflexivity|].
  destruct (AAAA_records_typed_A Sample.imports
              (Sample.server (Sample.catalog Sample.web) "example") question
              (Sample.request [question]) Sample.web (Sample.start [5; 2; 7]%nat)
              eq_refl)
    as [(answer & st' & Hrun & Ha & He & Hperm) _].
  exists st'. split; [exact Hrun|]. split; [|exact He].
  rewrite Ha. apply Permutation_singleton_r in Hperm. by rewrite Hperm.
Defined.

(** ** Question handling *)

Section questions.

Variable ext : Imports.
Variable s : Server.

(** A question of an accepted class and type whose lookup succeeds goes on
    to record synthesis with the instances found. *)
Lemma handleQuestion_synthesis (question : dns.Question) (request : dns.Msg)
    (serviceInstances : list client.ServiceInstance) (st st1 : state) :
  dns.Qclass question = dns.ClassINET →
  dns.Qtype question = dns.TypeA ∨ dns.Qtype question = dns.TypeAAAA
    ∨ dns.Qtype question = dns.TypeSRV →
  retrieveServices ext s question request st = Ret (serviceInstances, None) st1 →
  handleQuestion ext s question request st
  = createRecordsForInstances ext s question request serviceInstances st1.
Proof.
  intros Hclass Htype Hlookup. unfold handleQuestion.
  rewrite bool_decide_eq_true_2 by done.
  assert (bool_decide (dns.Qtype question = dns.TypeA)
          || bool_decide (dns.Qtype question = dns.TypeAAAA)
          || bool_decide (dns.Qtype question = dns.TypeSRV) = true) as ->.
  { destruct Htype as [-> | [-> | ->]]; by vm_compute. }
  cbn [negb]. unfold mbind, M_bind. by rewrite Hlookup.
Qed.

End questions.

(** C4, as the code has it.  A question whose class is not INET fails: the
    handler returns the unsupported-class error, the response code is server
    failure, and the request loop stops at that question. *)
Theorem disallowed_class_is_server_failure
    (ext : Imports) (s : Server) (question : dns.Question)
    (rest : list dns.Question) (request : dns.Msg) (st : state) :
  dns.Qclass question ≠ dns.ClassINET →
  let st' := {| response :=
                  dns.SetRcode (response st) request dns.RcodeServerFailure;
                rand := rand st |} in
  handleQuestion ext s question request st
  = Ret (Some (UnsupportedClass (dns.Qclass question))) st'
  ∧ dns.Rcode (response st') = dns.RcodeServerFailure
  ∧ handleQuestions ext s (question :: rest) request st = Ret tt st'.
Proof.
  intros Hclass st'.
  assert (handleQuestion ext s question request st
          = Ret (Some (UnsupportedClass (dns.Qclass question))) st') as Hq.
  { unfold handleQuestion. by rewrite bool_decide_eq_false_2 by done. }
  split; [exact Hq|]. split; [done|].
  cbn [handleQuestions]. unfold mbind, M_bind. by rewrite Hq.
Qed.

Lemma disallowed_class_is_server_failure_witness :
  let question := {| dns.Name := "reviews.service.example.";
                     dns.Qtype := dns.TypeA;
                     dns.Qclass := dns.ClassCHAOS |} in
  dns.Qclass question ≠ dns.ClassINET
  ∧ ∃ st',
      handleQuestion Sample.imports
        (Sample.server (Sample.catalog [Sample.reviews]) "example")
        question (Sample.request [question]) (Sample.start [])
      = Ret (Some (UnsupportedClass dns.ClassCHAOS)) st'
      ∧ dns.Rcode (response st') = dns.RcodeServerFailure.
Proof.
  intros question.
  assert (dns.Qclass question ≠ dns.ClassINET) as Hclass by (by vm_compute).
  split; [exact Hclass|].
  destruct (disallowed_class_is_server_failure Sample.imports
              (Sample.server (Sample.catalog [Sample.reviews]) "example")
              question [] (Sample.request [question]) (Sample.start []) Hclass)
    as (Hq & Hcode & _).
  eexists. split; [exact Hq|exact Hcode].
Defined.

(** C4 as stated fails: a CHAOS-class question for a name the catalog knows
    ends with response code server failure, which is not format error. *)
Lemma disallowed_class_not_format_error :
  let question := {| dns.Name := "reviews.service.example.";
                     dns.Qtype := dns.TypeA;
                     dns.Qclass := dns.ClassCHAOS |} in
  ∃ err st',
    handleQuestion Sample.imports
      (Sample.server (Sample.catalog [Sample.reviews]) "example")
      question (Sample.request [question]) (Sample.start [])
    = Ret (Some err) st'
    ∧ dns.Rcode (response st') = dns.RcodeServerFailure
    ∧ dns.Rcode (response st') ≠ dns.RcodeFormatError.
Proof.
  intros question. eexists _, _. split; [by vm_compute|]. by split.
Qed.

(** C5, as the code has it.  An SRV question whose name has the
    instance-query shape (three labels, the middle one "instance") matches
    neither branch of the parser: no lookup is made, no record is built, the
    response code is name error, the handler returns no error and the request
    loop goes on with the next question. *)
Theorem SRV_instance_query_is_name_error
    (ext : Imports) (s : Server) (question : dns.Question)
    (rest : list dns.Question) (request : dns.Msg) (st : state)
    (instanceID domain : string) :
  dns.Qclass question = dns.ClassINET →
  dns.Qtype question = dns.TypeSRV →
  dns_IsDomainName ext (dns.Name question) = (3%Z, true) →
  dns_SplitDomainName ext (dns.Name question) = [instanceID; "instance"; domain] →
  let st' := {| response :=
                  dns.SetRcode (response st) request dns.RcodeNameError;
                rand := rand st |} in
  retrieveServices ext s question request st = Ret ([], None) st
  ∧ handleQuestion ext s question request st = Ret None st'
  ∧ dns.Rcode (response st') = dns.RcodeNameError
  ∧ dns.Answer (response st') = dns.Answer (response st)
  ∧ dns.Extra (response st') = dns.Extra (response st)
  ∧ handleQuestions ext s (question :: rest) request st
    = handleQuestions ext s rest request st'.
Proof.
  intros Hclass Htype Hvalid Hsplit st'.
  assert (retrieveServices ext s question request st = Ret ([], None) st) as Hlookup.
  { unfold retrieveServices. rewrite Hvalid, Hsplit, Htype. by vm_compute. }
  assert (handleQuestion ext s question request st = Ret None st') as Hq.
  { rewrite (handleQuestion_synthesis ext s question request [] st st)
      by (done || by right; right).
    by vm_compute. }
  repeat split; try done.
  cbn [handleQuestions]. unfold mbind, M_bind. by rewrite Hq.
Qed.

Lemma SRV_instance_query_is_name_error_witness :
  let question := Sample.question "abc123.instance.example." dns.TypeSRV in
  let instance := {| client.ID := "abc123"; client.Service := "reviews";
                     client.Endpoint := {| client.Type_ := "tcp";
                                           client.Value := "10.0.0.5:9090" |};
                     client.InstanceTags := [] |} in
  dns.Qclass question = dns.ClassINET
  ∧ dns.Qtype question = dns.TypeSRV
  ∧ Sample.IsDomainName (dns.Name question) = (3%Z, true)
  ∧ Sample.SplitDomainName (dns.Name question) = ["abc123"; "instance"; "example"]
  ∧ ∃ st',
      handleQuestion Sample.imports
        (Sample.server (Sample.catalog [instance]) "example")
        question (Sample.request [question]) (Sample.start [])
      = Ret None st'
      ∧ dns.Rcode (response st') = dns.RcodeNameError.
Proof.
  intros question instance.
  do 4 (split; [reflexivity|]).
  destruct (SRV_instance_query_is_name_error Sample.imports
              (Sample.server (Sample.catalog [instance]) "example")
              question [] (Sample.request [question]) (Sample.start [])
              "abc123" "example" eq_refl eq_refl eq_refl eq_refl)
    as (_ & Hq & Hcode & _).
  eexists. split; [exact Hq|exact Hcode].
Defined.

(** C5 as stated fails: the SRV question "abc123.instance.example.", asked of
    a catalog that holds instance abc123, is not rejected; the handler returns
    no error and the response code is name error, not server failure. *)
Lemma SRV_instance_query_not_server_failure :
  let question := Sample.question "abc123.instance.example." dns.TypeSRV in
  let instance := {| client.ID := "abc123"; client.Service := "reviews";
                     client.Endpoint := {| client.Type_ := "tcp";
                                           client.Value := "10.0.0.5:9090" |};
                     client.InstanceTags := [] |} in
  ∃ st',
    handleQuestion Sample.imports
      (Sample.server (Sample.catalog [instance]) "example")
      question (Sample.request [question]) (Sample.start [])
    = Ret None st'
    ∧ dns.Rcode (response st') = dns.RcodeNameError
    ∧ dns.Rcode (response st') ≠ dns.RcodeServerFailure.
Proof.
  intros question instance. eexists. split; [by vm_compute|]. by split.
Qed.

(** ** The SRV shorthand *)

Lemma HasPrefix_underscore (label : string) :
  Go.HasPrefix label "_" = true → ∃ rest, label = String "_" rest.
Proof.
  unfold Go.HasPrefix. destruct label as [|c rest]; cbn [String.prefix]; [done|].
  destruct (Ascii.ascii_dec "_" c) as [<-|]; [|done]. by exists rest.
Qed.

(** A single record is shuffled into itself. *)
Lemma shuffleRecords_singleton (r : dns.RR) (st : state) :
  ∃ rest, shuffleRecords [r] st = Ret [r] {| response := response st; rand := rest |}.
Proof.
  destruct (shuffleRecords_Permutation [r] st) as (records' & rest & Hrun & Hperm).
  apply Permutation_singleton_r in Hperm. subst records'. by exists rest.
Qed.

(** X29.  For an SRV question whose name has four labels, the first two
    starting with an underscore: when the third label is "service" the
    name is taken as the SRV shorthand, and the lookup is the service query
    for the first label without its underscore, with the second label
    without its underscore as the only tag-or-protocol token; when the
    third label is anything else no lookup is made and no instance is
    found. *)
Theorem SRV_shorthand
    (ext : Imports) (s : Server) (question : dns.Question) (request : dns.Msg)
    (st : state) (label0 label1 kind domain : string) :
  dns.Qtype question = dns.TypeSRV →
  dns_IsDomainName ext (dns.Name question) = (4%Z, true) →
  dns_SplitDomainName ext (dns.Name question) = [label0; label1; kind; domain] →
  Go.HasPrefix label0 "_" = true →
  Go.HasPrefix label1 "_" = true →
  (kind = "service" →
   ∃ serviceName tagOrProtocol,
     label0 = "_" +:+ serviceName
     ∧ label1 = "_" +:+ tagOrProtocol
     ∧ retrieveServices ext s question request st
       = retrieveInstancesForServiceQuery s serviceName request [tagOrProtocol] st)
  ∧ (kind ≠ "service" →
     retrieveServices ext s question request st = Ret ([], None) st).
Proof.
  intros Htype Hvalid Hsplit [service ->]%HasPrefix_underscore
         [tag ->]%HasPrefix_underscore.
  split.
  - intros ->. exists service, tag. split; [done|]. split; [done|].
    unfold retrieveServices. rewrite Hvalid, Hsplit, Htype.
    by destruct service, tag; vm_compute.
  - intros Hkind. unfold retrieveServices. rewrite Hvalid, Hsplit, Htype.
    cbn [negb length].
    rewrite !(bool_decide_eq_false_2 (_ = _ :> nat)) by done. cbn [orb].
    unfold mbind at 1, M_bind at 1.
    change (Go.index _ (4 - 2)) with (Some kind). unfold orPanic at 1.
    rewrite (bool_decide_eq_false_2 (kind = "service")) by done.
    change (bool_decide (dns.TypeSRV = dns.TypeA)) with false.
    change (bool_decide (dns.TypeSRV = dns.TypeAAAA)) with false.
    by rewrite andb_false_r.
Qed.

Lemma SRV_shorthand_witness :
  let c := {| DiscoveryClient := Some (Sample.catalog [Sample.reviews]);
              Port := 53; Domain := "example" |} in
  let srv := {| config := {| DiscoveryClient := Some (Sample.catalog [Sample.reviews]);
                             Port := 53; Domain := "example." |} |} in
  let question := Sample.question "_reviews._http.service.example." dns.TypeSRV in
  let request := Sample.request [question] in
  NewServer c = (Some srv, None)
  ∧ dns.Qtype question = dns.TypeSRV
  ∧ Sample.IsDomainName (dns.Name question) = (4%Z, true)
  ∧ Sample.SplitDomainName (dns.Name question)
    = ["_reviews"; "_http"; "service"; "example"]
  ∧ Go.HasPrefix "_reviews" "_" = true
  ∧ Go.HasPrefix "_http" "_" = true
  ∧ retrieveServices Sample.imports srv question request (Sample.start [])
    = retrieveInstancesForServiceQuery srv "reviews" request ["http"] (Sample.start [])
  ∧ retrieveServices Sample.imports srv question request (Sample.start [])
    = Ret ([Sample.reviews], None) (Sample.start []).
Proof.
  intros c srv question request.
  do 6 (split; [reflexivity|]).
  destruct (SRV_shorthand Sample.imports srv question request (Sample.start [])
              "_reviews" "_http" "service" "example"
              eq_refl eq_refl eq_refl eq_refl eq_refl)
    as (Hshort & _).
  destruct (Hshort eq_refl) as (serviceName & tagOrProtocol & H0 & H1 & Hrun).
  change ("_reviews" = String "_" serviceName) in H0. injection H0 as <-.
  change ("_http" = String "_" tagOrProtocol) in H1. injection H1 as <-.
  split; [exact Hrun|]. rewrite Hrun. reflexivity.
Defined.

(** C1, at the scenario of the claim.  The server that NewServer builds for
    the domain "example.com", over a catalog holding the instance (ID
    "abc123...", service "reviews", http endpoint "192.168.1.10:9080"), is
    asked the SRV question "_reviews._http.example.com.": four labels, the
    first two starting with an underscore.  The lookup the shorthand stands
    for finds the instance, yet the name is not taken as the shorthand,
    since its third label is not "service": no lookup is made, and the
    reply carries no SRV record and no extra record, with response code
    name error.  The form the comment on the query formats gives for the
    shorthand, the two underscore labels followed by the domain, fares the
    same for the domain "example". *)
Theorem SRV_shorthand_is_not_recognised (draws : list nat) :
  let catalog := Sample.catalog [Sample.reviews] in
  let c := {| DiscoveryClient := Some catalog; Port := 53;
              Domain := "example.com" |} in
  let question := Sample.question "_reviews._http.example.com." dns.TypeSRV in
  let request := Sample.request [question] in
  let c1 := {| DiscoveryClient := Some catalog; Port := 53;
               Domain := "example" |} in
  let question1 := Sample.question "_reviews._http.example." dns.TypeSRV in
  let request1 := Sample.request [question1] in
  ∃ srv srv1 reply reply1 st' st1',
    NewServer c = (Some srv, None)
    ∧ Sample.IsDomainName (dns.Name question) = (4%Z, true)
    ∧ Sample.SplitDomainName (dns.Name question)
      = ["_reviews"; "_http"; "example"; "com"]
    ∧ retrieveInstancesForServiceQuery srv "reviews" request ["http"]
        (Sample.start draws)
      = Ret ([Sample.reviews], None) (Sample.start draws)
    ∧ retrieveServices Sample.imports srv question request (Sample.start draws)
      = Ret ([], None) (Sample.start draws)
    ∧ handleRequest Sample.imports srv request (Sample.start draws)
      = Ret reply st'
    ∧ dns.Answer reply = []
    ∧ dns.Extra reply = []
    ∧ dns.Rcode reply = dns.RcodeNameError
    ∧ NewServer c1 = (Some srv1, None)
    ∧ handleRequest Sample.imports srv1 request1 (Sample.start draws)
      = Ret reply1 st1'
    ∧ dns.Answer reply1 = []
    ∧ dns.Extra reply1 = []
    ∧ dns.Rcode reply1 = dns.RcodeNameError.
Proof.
  intros catalog c question request c1 question1 request1.
  eexists _, _, _, _, _, _.
  split; [reflexivity|].
  do 4 (split; [by vm_compute|]).
  split; [by vm_compute|].
  do 3 (split; [reflexivity|]).
  split; [reflexivity|].
  split; [by vm_compute|].
  by repeat split.
Qed.

(** C2, at a server as NewServer builds it.  The server built for the
    domain "example" holds "example."; asked the SRV question
    "web.service.example." over a catalog with two instances whose endpoint
    resolves, it answers, whatever the random source draws, one SRV record
    and one address record for each of them, with the ports, priority and
    weight as the claim has them, but the targets are
    "i-1.instance.example.." and "i-2.instance.example..", with two final
    dots: validate has already put the final dot on the domain, and the
    format of the target adds another.  The name of the claim,
    "i-1.instance.example.", is a domain name of three labels, the one
    with which the instance is queried; the target sent is not a domain
    name. *)
Theorem SRV_target_has_two_final_dots (draws : list nat) :
  let c := {| DiscoveryClient := Some (Sample.catalog Sample.web);
              Port := 53; Domain := "example" |} in
  let question := Sample.question "web.service.example." dns.TypeSRV in
  let header (rrtype : Z) :=
    {| dns.Hdr_Name := "web.service.example."; dns.Rrtype := rrtype;
       dns.Class := dns.ClassINET; dns.Ttl := 0 |} in
  ∃ s reply st',
    NewServer c = (Some s, None)
    ∧ Domain (config s) = "example."
    ∧ handleRequest Sample.imports s (Sample.request [question])
        (Sample.start draws)
      = Ret reply st'
    ∧ dns.Rcode reply = dns.RcodeSuccess
    ∧ dns.Answer reply
      ≡ₚ [dns.SRV (header dns.TypeSRV) 0 0 9090 "i-1.instance.example..";
          dns.SRV (header dns.TypeSRV) 0 0 0 "i-2.instance.example.."]
    ∧ dns.Extra reply
      ≡ₚ [dns.A (header dns.TypeA) (Some [10; 0; 0; 5]%Z);
          dns.AAAA (header dns.TypeAAAA)
            (Some [32; 1; 13; 184; 0; 0; 0; 0; 0; 0; 0; 0; 0; 0; 0; 1]%Z)]
    ∧ (∀ r, r ∈ dns.Answer reply →
            r ≠ dns.SRV (header dns.TypeSRV) 0 0 9090 "i-1.instance.example."
            ∧ r ≠ dns.SRV (header dns.TypeSRV) 0 0 0 "i-2.instance.example.")
    ∧ Sample.IsDomainName "i-1.instance.example." = (3%Z, true)
    ∧ Sample.IsDomainName "i-1.instance.example.." = (0%Z, false).
Proof.
  intros c question header.
  set (s := {| config := {| DiscoveryClient := Some (Sample.catalog Sample.web);
                            Port := 53; Domain := "example." |} |}).
  set (request := Sample.request [question]).
  set (st0 := {| response :=
                   dns.set_flags
                     (dns.set_Extra (dns.SetReply dns.new_Msg request)
                        (dns.Extra request)) true false;
                 rand := draws |}).
  destruct (createRecordsForInstances_run Sample.imports s question request
              Sample.web st0) as (answer & extra & rest & Hpa & Hpe & Hrun).
  change (answerRecords Sample.imports s question Sample.web)
    with [dns.SRV (header dns.TypeSRV) 0 0 9090 "i-1.instance.example..";
          dns.SRV (header dns.TypeSRV) 0 0 0 "i-2.instance.example.."]
    in Hpa, Hrun.
  change (extraRecords Sample.imports s question Sample.web)
    with [dns.A (header dns.TypeA) (Some [10; 0; 0; 5]%Z);
          dns.AAAA (header dns.TypeAAAA)
            (Some [32; 1; 13; 184; 0; 0; 0; 0; 0; 0; 0; 0; 0; 0; 0; 1]%Z)]
    in Hpe.
  rewrite bool_decide_eq_false_2 in Hrun by done.
  assert (handleQuestion Sample.imports s question request st0
          = createRecordsForInstances Sample.imports s question request
              Sample.web st0) as Hquestion.
  { apply handleQuestion_synthesis; [done|by right; right|by vm_compute]. }
  eexists s, _, _. split; [reflexivity|]. split; [reflexivity|].
  split.
  { unfold handleRequest. fold request. cbn [dns.Msg_Question Sample.request
      request handleQuestions Sample.start rand].
    fold request. fold st0. unfold mbind, M_bind.
    rewrite Hquestion, Hrun. reflexivity. }
  cbn [response dns.SetRcode dns.set_Rcode dns.set_Extra dns.set_Answer
       dns.Rcode dns.Answer dns.Extra st0 app].
  split; [reflexivity|]. split; [exact Hpa|]. split; [exact Hpe|].
  split; [|by split].
  intros r Hr. apply list_elem_of_In in Hr.
  apply (Permutation_in _ Hpa), list_elem_of_In in Hr.
  apply elem_of_cons in Hr as [-> | Hr]; [by split|].
  apply elem_of_cons in Hr as [-> | Hr]; [by split|].
  by apply not_elem_of_nil in Hr.
Qed.

(** ** The catalog gateway *)

(** C6.  For a service query whose tokens hold the protocol filter
    [protocol] and whose discovery call succeeds with [instances], the
    instances resolved are exactly the instances of the client's result whose
    endpoint type is [protocol], in their order: none of another type is
    returned, none of that type is lost, the result is a sublist of the
    client's.  An empty result is not an error: synthesis from it builds no
    record and returns no error. *)
Theorem protocol_filter_keeps_matching_instances
    (s : Server) (serviceName : string) (request : dns.Msg)
    (tagOrProtocol : list string) (protocol : string) (tags : list string)
    (discovery : client.Discovery) (instances : list client.ServiceInstance)
    (st : state) :
  splitTagsProtocol tagOrProtocol "" [] = Some (protocol, tags) →
  protocol ≠ "" →
  DiscoveryClient (config s) = Some discovery →
  client.ListInstances discovery
    {| client.ServiceName := serviceName; client.Tags := tags |}
  = (instances, None) →
  let kept :=
    filter (λ si, client.Type_ (client.Endpoint si) = protocol) instances in
  retrieveInstancesForServiceQuery s serviceName request tagOrProtocol st
  = Ret (kept, None) st
  ∧ (∀ si, si ∈ kept → client.Type_ (client.Endpoint si) = protocol)
  ∧ (∀ si, si ∈ instances →
           client.Type_ (client.Endpoint si) = protocol → si ∈ kept)
  ∧ kept `sublist_of` instances
  ∧ (kept = [] →
     ∀ (ext : Imports) (question : dns.Question) (st1 : state),
       answerRecords ext s question kept = []
       ∧ extraRecords ext s question kept = []
       ∧ createRecordsForInstances ext s question request kept st1
         = Ret None
             {| response :=
                  dns.SetRcode (response st1) request dns.RcodeNameError;
                rand := rand st1 |}).
Proof.
  intros Hsplit Hproto Hclient Hlist kept.
  split; [|split; [|split; [|split]]].
  - unfold retrieveInstancesForServiceQuery. rewrite Hsplit, Hclient.
    unfold mbind, M_bind, orPanic. rewrite Hlist.
    rewrite bool_decide_eq_true_2 by done.
    by rewrite applyProtocolFilter_filter.
  - intros si Hin. by apply list_elem_of_filter in Hin as [? _].
  - intros si Hin Htype. by apply list_elem_of_filter.
  - apply sublist_filter.
  - intros -> ext question st1. by vm_compute.
Qed.

Lemma protocol_filter_keeps_matching_instances_witness :
  let srv := Sample.server (Sample.catalog Sample.web) "example" in
  let request := Sample.request [Sample.question "tcp.web.service.example." dns.TypeA] in
  splitTagsProtocol ["tcp"] "" [] = Some ("tcp", [])
  ∧ "tcp" ≠ ""
  ∧ DiscoveryClient (config srv) = Some (Sample.catalog Sample.web)
  ∧ client.ListInstances (Sample.catalog Sample.web)
      {| client.ServiceName := "web"; client.Tags := [] |} = (Sample.web, None)
  ∧ retrieveInstancesForServiceQuery srv "web" request ["tcp"] (Sample.start [])
    = Ret (take 2 Sample.web, None) (Sample.start []).
Proof.
  intros srv request.
  assert ("tcp" ≠ "") as Hne by done.
  split; [reflexivity|]. split; [exact Hne|].
  split; [reflexivity|]. split; [reflexivity|].
  exact (proj1 (protocol_filter_keeps_matching_instances srv "web" request
                  ["tcp"] "tcp" [] (Sample.catalog Sample.web) Sample.web
                  (Sample.start []) eq_refl Hne eq_refl eq_refl)).
Defined.

(** ** Empty answers *)

Lemma answerRecords_all_skipped (ext : Imports) (s : Server)
    (question : dns.Question) (serviceInstances : list client.ServiceInstance) :
  Forall (λ si, ∃ err, splitHostPort ext (client.Endpoint si) = inr err)
         serviceInstances →
  answerRecords ext s question serviceInstances = [].
Proof.
  induction 1 as [|si rest [err Herr] _ IH]; [done|].
  rewrite answerRecords_cons, IH.
  unfold instanceRecords, recordsStep. by rewrite Herr.
Qed.

Lemma createRecordsForInstances_no_answer (ext : Imports) (s : Server)
    (question : dns.Question) (request : dns.Msg)
    (serviceInstances : list client.ServiceInstance) (st : state) :
  answerRecords ext s question serviceInstances = [] →
  createRecordsForInstances ext s question request serviceInstances st
  = Ret None {| response := dns.SetRcode (response st) request dns.RcodeNameError;
                rand := rand st |}.
Proof.
  intros Hnil. unfold createRecordsForInstances.
  rewrite foldl_recordsStep, Hnil. done.
Qed.

(** C7.  A question that reaches record synthesis (accepted class and type,
    lookup without error) and for which no answer record is built leaves the
    response code at name error and the handler returns no error, so the
    request loop goes on; the code is not server failure.  No answer record
    is built, in particular, when there is no instance or when every instance
    is skipped because its endpoint does not resolve. *)
Theorem no_answer_is_name_error
    (ext : Imports) (s : Server) (question : dns.Question)
    (rest : list dns.Question) (request : dns.Msg)
    (serviceInstances : list client.ServiceInstance) (st st1 : state) :
  dns.Qclass question = dns.ClassINET →
  dns.Qtype question = dns.TypeA ∨ dns.Qtype question = dns.TypeAAAA
    ∨ dns.Qtype question = dns.TypeSRV →
  retrieveServices ext s question request st = Ret (serviceInstances, None) st1 →
  let st' := {| response :=
                  dns.SetRcode (response st1) request dns.RcodeNameError;
                rand := rand st1 |} in
  (answerRecords ext s question serviceInstances = [] →
   handleQuestion ext s question request st = Ret None st'
   ∧ dns.Rcode (response st') = dns.RcodeNameError
   ∧ dns.Rcode (response st') ≠ dns.RcodeServerFailure
   ∧ handleQuestions ext s (question :: rest) request st
     = handleQuestions ext s rest request st')
  ∧ (Forall (λ si, ∃ err, splitHostPort ext (client.Endpoint si) = inr err)
            serviceInstances →
     answerRecords ext s question serviceInstances = []).
Proof.
  intros Hclass Htype Hlookup st'. split; [|apply answerRecords_all_skipped].
  intros Hnil.
  assert (handleQuestion ext s question request st = Ret None st') as Hq.
  { rewrite (handleQuestion_synthesis ext s question request serviceInstances st st1)
      by done.
    by apply createRecordsForInstances_no_answer. }
  split; [exact Hq|]. split; [done|]. split; [done|].
  cbn [handleQuestions]. unfold mbind, M_bind. by rewrite Hq.
Qed.

Lemma no_answer_is_name_error_witness :
  let question := Sample.question "udp.web.service.example." dns.TypeA in
  let srv := Sample.server (Sample.catalog Sample.web) "example" in
  let request := Sample.request [question] in
  dns.Qclass question = dns.ClassINET
  ∧ retrieveServices Sample.imports srv question request (Sample.start [])
    = Ret (drop 2 Sample.web, None) (Sample.start [])
  ∧ answerRecords Sample.imports srv question (drop 2 Sample.web) = []
  ∧ ∃ st',
      handleQuestion Sample.imports srv question request (Sample.start [])
      = Ret None st'
      ∧ dns.Rcode (response st') = dns.RcodeNameError.
Proof.
  intros question srv request.
  assert (retrieveServices Sample.imports srv question request (Sample.start [])
          = Ret (drop 2 Sample.web, None) (Sample.start [])) as Hlookup
    by reflexivity.
  assert (answerRecords Sample.imports srv question (drop 2 Sample.web) = [])
    as Hnil by reflexivity.
  split; [reflexivity|]. split; [exact Hlookup|]. split; [exact Hnil|].
  destruct (no_answer_is_name_error Sample.imports srv question [] request
              (drop 2 Sample.web) (Sample.start []) (Sample.start [])
              eq_refl (or_introl eq_refl) Hlookup) as [Hname _].
  destruct (Hname Hnil) as (Hq & Hcode & _).
  eexists. split; [exact Hq|exact Hcode].
Defined.

(** ** Endpoints *)

(** A value that starts with "https://" does not start with "http://". *)
Lemma https_not_http (value : string) :
  Go.HasPrefix value "https://" = true → Go.HasPrefix value "http://" = false.
Proof.
  unfold Go.HasPrefix.
  destruct value as [|c1 [|c2 [|c3 [|c4 [|c5 rest]]]]]; cbn [String.prefix];
    repeat (destruct (Ascii.ascii_dec _ _); try done).
  all: subst; try done.
Qed.

(** C8.  Address and port of an endpoint.
    Type tcp or udp: the value is split by net.SplitHostPort; when that
    fails the whole value is the host and the port is 0; a host that
    net.ParseIP does not accept makes the extraction fail.
    Type http or https: the value is parsed as a URL, after "http://" is put
    in front of it when it starts with neither "http://" nor "https://"; the
    host part is then treated as above, and a port of 0 becomes 80, or 443
    for a value that starts with "https://".
    An instance whose extraction fails is passed over: the lists built so far
    stay as they are, and createRecordsForInstances returns no error. *)
Theorem endpoint_extraction
    (ext : Imports) (s : Server) (endpoint : client.ServiceEndpoint) :
  let value := client.Value endpoint in
  (client.Type_ endpoint = "tcp" ∨ client.Type_ endpoint = "udp" →
   (∀ host port ip portNum,
      net_SplitHostPort ext value = Some (host, port) →
      net_ParseIP ext host = Some ip →
      Go.Atoi port = Some portNum →
      splitHostPort ext endpoint = inl (ip, Go.uint16 portNum))
   ∧ (∀ ip,
        net_SplitHostPort ext value = None →
        net_ParseIP ext value = Some ip →
        splitHostPort ext endpoint = inl (ip, 0%Z))
   ∧ (∀ host port,
        net_SplitHostPort ext value = Some (host, port) →
        net_ParseIP ext host = None →
        splitHostPort ext endpoint = inr (NotIPPort value))
   ∧ (net_SplitHostPort ext value = None →
      net_ParseIP ext value = None →
      splitHostPort ext endpoint = inr (NotIPPort value)))
  ∧ (client.Type_ endpoint = "http" ∨ client.Type_ endpoint = "https" →
     let https := Go.HasPrefix value "https://" in
     let http := Go.HasPrefix value "http://" in
     let rawurl := if https || http then value else "http://" +:+ value in
     ∀ parsedURL ip port,
       url_Parse ext rawurl = Some parsedURL →
       splitHostPortTCPUDP ext (Go.Host parsedURL) = inl (ip, port) →
       splitHostPort ext endpoint
       = inl (ip, if (port =? 0)%Z then (if https then 443%Z else 80%Z) else port))
  ∧ (∀ question answer extra si err,
       client.Endpoint si = endpoint →
       splitHostPort ext endpoint = inr err →
       recordsStep ext s question (answer, extra) si = (answer, extra))
  ∧ (∀ question request serviceInstances st,
       ∃ st', createRecordsForInstances ext s question request serviceInstances st
              = Ret None st').
Proof.
  intros value. split; [|split; [|split]].
  - intros Htype.
    assert (splitHostPort ext endpoint = splitHostPortTCPUDP ext value) as ->.
    { unfold splitHostPort. by destruct Htype as [-> | ->]. }
    unfold splitHostPortTCPUDP. repeat split.
    + intros host port ip portNum -> Hip Hport. by rewrite Hip, Hport.
    + intros ip -> Hip. by rewrite Hip.
    + intros host port -> Hip. by rewrite Hip.
    + intros -> Hip. by rewrite Hip.
  - intros Htype https http rawurl parsedURL ip port Hurl Hhost.
    assert (splitHostPort ext endpoint = splitHostPortHTTP ext value) as ->.
    { unfold splitHostPort. by destruct Htype as [-> | ->]. }
    unfold splitHostPortHTTP. fold value. fold https. fold http.
    subst rawurl.
    destruct https eqn:Hhttps.
    + assert (http = false) as Hhttp by (by apply https_not_http).
      rewrite Hhttp in *. cbn [negb andb orb] in *.
      by rewrite Hurl, Hhost.
    + destruct http eqn:Hhttp; cbn [negb andb orb] in *;
        by rewrite Hurl, Hhost.
  - intros question answer extra si err Hep Herr.
    unfold recordsStep. by rewrite Hep, Herr.
  - intros question request serviceInstances st.
    destruct (createRecordsForInstances_run ext s question request
                serviceInstances st) as (answer & extra & rest & _ & _ & ->).
    by eexists.
Qed.

Lemma endpoint_extraction_witness :
  let srv := Sample.server (Sample.catalog Sample.web) "example" in
  splitHostPort Sample.imports
    {| client.Type_ := "tcp"; client.Value := "10.0.0.5:9090" |}
  = inl (Go.IPv4 10 0 0 5, 9090%Z)
  ∧ splitHostPort Sample.imports
      {| client.Type_ := "udp"; client.Value := "10.0.0.5" |}
    = inl (Go.IPv4 10 0 0 5, 0%Z)
  ∧ splitHostPort Sample.imports
      {| client.Type_ := "udp"; client.Value := "reviews.local:9080" |}
    = inr (NotIPPort "reviews.local:9080")
  ∧ splitHostPort Sample.imports
      {| client.Type_ := "http"; client.Value := "10.0.0.5" |}
    = inl (Go.IPv4 10 0 0 5, 80%Z)
  ∧ splitHostPort Sample.imports
      {| client.Type_ := "https"; client.Value := "https://10.0.0.5/status" |}
    = inl (Go.IPv4 10 0 0 5, 443%Z)
  ∧ splitHostPort Sample.imports
      {| client.Type_ := "https"; client.Value := "10.0.0.5" |}
    = inl (Go.IPv4 10 0 0 5, 80%Z).
Proof.
  intros srv.
  pose (extraction := endpoint_extraction Sample.imports srv).
  split; [|split; [|split; [|split; [|split]]]].
  - destruct (extraction {| client.Type_ := "tcp"; client.Value := "10.0.0.5:9090" |})
      as [Htcp _].
    destruct (Htcp (or_introl eq_refl)) as (Hport & _).
    exact (Hport "10.0.0.5" "9090" (Go.IPv4 10 0 0 5) 9090%Z eq_refl eq_refl eq_refl).
  - destruct (extraction {| client.Type_ := "udp"; client.Value := "10.0.0.5" |})
      as [Hudp _].
    destruct (Hudp (or_intror eq_refl)) as (_ & Hbare & _).
    exact (Hbare (Go.IPv4 10 0 0 5) eq_refl eq_refl).
  - destruct (extraction {| client.Type_ := "udp"; client.Value := "reviews.local:9080" |})
      as [Hudp _].
    destruct (Hudp (or_intror eq_refl)) as (_ & _ & Hname & _).
    exact (Hname "reviews.local" "9080" eq_refl eq_refl).
  - destruct (extraction {| client.Type_ := "http"; client.Value := "10.0.0.5" |})
      as (_ & Hhttp & _).
    exact (Hhttp (or_introl eq_refl) {| Go.Host := "10.0.0.5" |}
             (Go.IPv4 10 0 0 5) 0%Z eq_refl eq_refl).
  - destruct (extraction {| client.Type_ := "https";
                            client.Value := "https://10.0.0.5/status" |})
      as (_ & Hhttps & _).
    exact (Hhttps (or_intror eq_refl) {| Go.Host := "10.0.0.5" |}
             (Go.IPv4 10 0 0 5) 0%Z eq_refl eq_refl).
  - destruct (extraction {| client.Type_ := "https"; client.Value := "10.0.0.5" |})
      as (_ & Hhttps & _).
    exact (Hhttps (or_intror eq_refl) {| Go.Host := "10.0.0.5" |}
             (Go.IPv4 10 0 0 5) 0%Z eq_refl eq_refl).
Defined.

(** ** Runs that differ only in the random draws *)

Lemma sameRecords_refl (m : dns.Msg) : sameRecords m m.
Proof. by repeat split. Qed.

Lemma sameRecords_SetRcode (m1 m2 request : dns.Msg) (rcode : Z) :
  sameRecords m1 m2 →
  sameRecords (dns.SetRcode m1 request rcode) (dns.SetRcode m2 request rcode).
Proof.
  destruct m1, m2. unfold sameRecords. cbn.
  intros (Heq & Ha & He). injection Heq as -> -> -> -> -> -> -> ->.
  by repeat split.
Qed.

Lemma sameRecords_append (m1 m2 : dns.Msg) (answer1 answer2 extra1 extra2 : list dns.RR) :
  sameRecords m1 m2 →
  answer1 ≡ₚ answer2 →
  extra1 ≡ₚ extra2 →
  sameRecords
    (dns.set_Extra (dns.set_Answer m1 (dns.Answer m1 ++ answer1)%list)
       (dns.Extra m1 ++ extra1)%list)
    (dns.set_Extra (dns.set_Answer m2 (dns.Answer m2 ++ answer2)%list)
       (dns.Extra m2 ++ extra2)%list).
Proof.
  destruct m1, m2. unfold sameRecords. cbn.
  intros (Heq & Ha & He) Hanswer Hextra.
  injection Heq as -> -> -> -> -> -> -> ->.
  repeat split; by f_equiv.
Qed.

Section steady.

Context {A B : Type}.

Lemma steady_ret (a : A) : steady (mret a).
Proof. intros st1 st2 Hsame. by split. Qed.

Lemma steady_bind (m : M A) (f : A → M B) :
  steady m → (∀ a, steady (f a)) → steady (m ≫= f).
Proof.
  intros Hm Hf st1 st2 Hsame. unfold mbind, M_bind.
  specialize (Hm st1 st2 Hsame). unfold agree in Hm.
  destruct (m st1) as [a1 st1'|], (m st2) as [a2 st2'|]; try done.
  destruct Hm as [-> Hsame']. by apply Hf.
Qed.

Lemma steady_orPanic (o : option A) : steady (orPanic o).
Proof. intros st1 st2 Hsame. unfold orPanic. by destruct o. Qed.

End steady.

Lemma steady_SetRcode (request : dns.Msg) (rcode : Z) :
  steady (SetRcode request rcode).
Proof.
  intros st1 st2 Hsame. split; [done|]. by apply sameRecords_SetRcode.
Qed.

(** Dispatches a goal [steady m] along the structure of [m]. *)
Ltac steady :=
  repeat first
    [ apply steady_ret
    | apply steady_orPanic
    | apply steady_SetRcode
    | apply steady_bind; [|intros ?]
    | match goal with
      | |- steady (if ?b then _ else _) => destruct b
      | |- steady (match ?x with _ => _ end) => destruct x
      end ].

Section steady_server.

Variable ext : Imports.
Variable s : Server.

Lemma steady_retrieveInstancesForServiceQuery serviceName request tagOrProtocol :
  steady (retrieveInstancesForServiceQuery s serviceName request tagOrProtocol).
Proof. unfold retrieveInstancesForServiceQuery. steady. Qed.

Lemma steady_retrieveInstancesForInstanceQuery instanceID request :
  steady (retrieveInstancesForInstanceQuery s instanceID request).
Proof. unfold retrieveInstancesForInstanceQuery. steady. Qed.

Lemma steady_retrieveServices question request :
  steady (retrieveServices ext s question request).
Proof.
  unfold retrieveServices. cbv zeta.
  steady;
    auto using steady_retrieveInstancesForServiceQuery,
               steady_retrieveInstancesForInstanceQuery.
Qed.

Lemma steady_createRecordsForInstances question request serviceInstances :
  steady (createRecordsForInstances ext s question request serviceInstances).
Proof.
  intros st1 st2 Hsame.
  destruct (createRecordsForInstances_run ext s question request
              serviceInstances st1) as (a1 & e1 & r1 & Ha1 & He1 & ->).
  destruct (createRecordsForInstances_run ext s question request
              serviceInstances st2) as (a2 & e2 & r2 & Ha2 & He2 & ->).
  split; [done|]. cbn [response].
  case_bool_decide.
  - by apply sameRecords_SetRcode.
  - apply sameRecords_SetRcode, sameRecords_append; [done| |].
    + by rewrite Ha1, Ha2.
    + by rewrite He1, He2.
Qed.

Lemma steady_handleQuestion question request :
  steady (handleQuestion ext s question request).
Proof.
  unfold handleQuestion.
  steady;
    auto using steady_retrieveServices, steady_createRecordsForInstances.
Qed.

Lemma steady_handleQuestions questions request :
  steady (handleQuestions ext s questions request).
Proof.
  induction questions as [|question rest IH]; cbn [handleQuestions].
  - apply steady_ret.
  - apply steady_bind; [apply steady_handleQuestion|].
    intros [err|]; [apply steady_ret|apply IH].
Qed.

End steady_server.

(** C9.  The shuffle returns a permutation of the list it is given, and so
    two runs of the request handler on the same request, with the same
    catalog answers, whatever the random draws of each run: either both
    panic, or the two replies have the same fields and carry the same answer
    records and the same extra records up to order. *)
Theorem replies_agree_up_to_order
    (ext : Imports) (s : Server) (request : dns.Msg) (st1 st2 : state) :
  (∀ (records : list dns.RR) (st : state),
     ∃ records' st', shuffleRecords records st = Ret records' st'
                     ∧ records' ≡ₚ records)
  ∧ match handleRequest ext s request st1, handleRequest ext s request st2 with
    | Ret reply1 _, Ret reply2 _ =>
        dns.Answer reply1 ≡ₚ dns.Answer reply2
        ∧ dns.Extra reply1 ≡ₚ dns.Extra reply2
        ∧ dns.Rcode reply1 = dns.Rcode reply2
        ∧ sameRecords reply1 reply2
    | Panic, Panic => True
    | _, _ => False
    end.
Proof.
  split.
  - intros records st.
    destruct (shuffleRecords_Permutation records st) as (records' & rest & Hrun & Hperm).
    by eexists _, _.
  - unfold handleRequest.
    set (reply := dns.set_flags _ _ _).
    pose proof (steady_handleQuestions ext s (dns.Msg_Question request) request
                  {| response := reply; rand := rand st1 |}
                  {| response := reply; rand := rand st2 |}
                  (sameRecords_refl reply)) as Hagree.
    unfold agree in Hagree.
    destruct (handleQuestions _ _ _ _ {| response := reply; rand := rand st1 |})
      as [[] st1'|];
    destruct (handleQuestions _ _ _ _ {| response := reply; rand := rand st2 |})
      as [[] st2'|]; try done.
    destruct Hagree as [_ Hsame].
    split; [apply Hsame|]. split; [apply Hsame|]. split; [|exact Hsame].
    destruct Hsame as (Heq & _ & _).
    destruct (response st1'), (response st2'). cbn in Heq |- *.
    by injection Heq.
Qed.

(** ** Requests with several questions *)

(** C10.  When a question reaches record synthesis and yields no answer
    record, the response code becomes name error and the handler returns no
    error, so the loop of handleRequest goes on to the next question; when
    that question yields answer records its handling sets the response code
    to success.  The reply to a request made of these two questions
    therefore carries the success code and the records of the second. *)
Theorem later_answer_overwrites_name_error
    (ext : Imports) (s : Server) (request : dns.Msg)
    (question1 question2 : dns.Question) (rest : list dns.Question)
    (instances1 instances2 : list client.ServiceInstance)
    (st st1 st2 : state) :
  dns.Qclass question1 = dns.ClassINET →
  dns.Qtype question1 = dns.TypeA ∨ dns.Qtype question1 = dns.TypeAAAA
    ∨ dns.Qtype question1 = dns.TypeSRV →
  retrieveServices ext s question1 request st = Ret (instances1, None) st1 →
  answerRecords ext s question1 instances1 = [] →
  let after1 := {| response :=
                     dns.SetRcode (response st1) request dns.RcodeNameError;
                   rand := rand st1 |} in
  dns.Qclass question2 = dns.ClassINET →
  dns.Qtype question2 = dns.TypeA ∨ dns.Qtype question2 = dns.TypeAAAA
    ∨ dns.Qtype question2 = dns.TypeSRV →
  retrieveServices ext s question2 request after1 = Ret (instances2, None) st2 →
  answerRecords ext s question2 instances2 ≠ [] →
  handleQuestion ext s question1 request st = Ret None after1
  ∧ dns.Rcode (response after1) = dns.RcodeNameError
  ∧ ∃ after2,
      handleQuestion ext s question2 request after1 = Ret None after2
      ∧ dns.Rcode (response after2) = dns.RcodeSuccess
      ∧ dns.Answer (response after2)
        ≡ₚ (dns.Answer (response st2) ++ answerRecords ext s question2 instances2)%list
      ∧ handleQuestions ext s (question1 :: question2 :: rest) request st
        = handleQuestions ext s rest request after2
      ∧ (∀ st_in,
           dns.Msg_Question request = [question1; question2] →
           st = {| response :=
                     dns.set_flags
                       (dns.set_Extra (dns.SetReply dns.new_Msg request)
                          (dns.Extra request)) true false;
                   rand := rand st_in |} →
           handleRequest ext s request st_in = Ret (response after2) after2).
Proof.
  intros Hclass1 Htype1 Hlookup1 Hnil after1 Hclass2 Htype2 Hlookup2 Hsome.
  assert (handleQuestion ext s question1 request st = Ret None after1) as Hq1.
  { rewrite (handleQuestion_synthesis ext s question1 request instances1 st st1)
      by done.
    by apply createRecordsForInstances_no_answer. }
  split; [exact Hq1|]. split; [done|].
  destruct (createRecordsForInstances_run ext s question2 request instances2 st2)
    as (answer & extra & rest2 & Hanswer & Hextra & Hrun).
  rewrite bool_decide_eq_false_2 in Hrun by done.
  set (after2 := {| response := _; rand := rest2 |}) in Hrun.
  exists after2.
  assert (handleQuestion ext s question2 request after1 = Ret None after2) as Hq2.
  { rewrite (handleQuestion_synthesis ext s question2 request instances2 after1 st2)
      by done.
    exact Hrun. }
  split; [exact Hq2|]. split; [done|]. split.
  { cbn. by rewrite Hanswer. }
  assert (∀ rest',
            handleQuestions ext s (question1 :: question2 :: rest') request st
            = handleQuestions ext s rest' request after2) as Hloop.
  { intros rest'. cbn [handleQuestions]. unfold mbind at 1, M_bind at 1.
    rewrite Hq1. unfold mbind at 1, M_bind at 1. by rewrite Hq2. }
  split; [apply Hloop|].
  intros st_in Hquestions Hst. unfold handleRequest.
  rewrite Hquestions, <- Hst, Hloop. done.
Qed.

Lemma later_answer_overwrites_name_error_witness :
  let question1 := Sample.question "nosuch.service.example." dns.TypeA in
  let question2 := Sample.question "reviews.service.example." dns.TypeA in
  let srv := Sample.server (Sample.catalog (Sample.reviews :: Sample.web)) "example" in
  let request := Sample.request [question1; question2] in
  let st := {| response :=
                 dns.set_flags
                   (dns.set_Extra (dns.SetReply dns.new_Msg request)
                      (dns.Extra request)) true false;
               rand := [] |} in
  let after1 := {| response :=
                     dns.SetRcode (response st) request dns.RcodeNameError;
                   rand := [] |} in
  retrieveServices Sample.imports srv question1 request st = Ret ([], None) st
  ∧ answerRecords Sample.imports srv question1 [] = []
  ∧ retrieveServices Sample.imports srv question2 request after1
    = Ret ([Sample.reviews], None) after1
  ∧ answerRecords Sample.imports srv question2 [Sample.reviews] ≠ []
  ∧ ∃ reply st',
      handleRequest Sample.imports srv request (Sample.start []) = Ret reply st'
      ∧ dns.Rcode reply = dns.RcodeSuccess
      ∧ dns.Answer reply
        = [createARecord "reviews.service.example." (Some [192; 168; 1; 10]%Z)].
Proof.
  intros question1 question2 srv request st after1.
  assert (retrieveServices Sample.imports srv question1 request st
          = Ret ([], None) st) as Hlookup1 by reflexivity.
  assert (retrieveServices Sample.imports srv question2 request after1
          = Ret ([Sample.reviews], None) after1) as Hlookup2 by reflexivity.
  assert (answerRecords Sample.imports srv question2 [Sample.reviews] ≠ [])
    as Hsome by discriminate.
  split; [exact Hlookup1|]. split; [reflexivity|].
  split; [exact Hlookup2|]. split; [exact Hsome|].
  destruct (later_answer_overwrites_name_error Sample.imports srv request
              question1 question2 [] [] [Sample.reviews] st st after1
              eq_refl (or_introl eq_refl) Hlookup1 eq_refl
              eq_refl (or_introl eq_refl) Hlookup2 Hsome)
    as (_ & _ & after2 & _ & Hcode & Hanswer & _ & Hrequest).
  exists (response after2), after2.
  split; [exact (Hrequest (Sample.start []) eq_refl eq_refl)|].
  split; [exact Hcode|].
  apply Permutation_singleton_r in Hanswer. exact Hanswer.
Defined.


(** * Further properties of the server *)

(** ** What a lookup leaves behind *)

Section lookups.

Variable ext : Imports.
Variable s : Server.

Lemma lookupOutcome_service serviceName request tagOrProtocol st :
  lookupOutcome request st
    (retrieveInstancesForServiceQuery s serviceName request tagOrProtocol st).
Proof.
  unfold retrieveInstancesForServiceQuery, lookupOutcome.
  unfold mbind, M_bind, orPanic, SetRcode, modifyResponse, mret, M_ret.
  repeat case_match; simplify_eq; try done.
  - eexists. split; [|reflexivity]. rewrite !elem_of_cons; auto.
  - eexists. split; [|reflexivity]. rewrite !elem_of_cons; auto.
Qed.

Lemma lookupOutcome_instance instanceID request st :
  lookupOutcome request st
    (retrieveInstancesForInstanceQuery s instanceID request st).
Proof.
  unfold retrieveInstancesForInstanceQuery, lookupOutcome.
  unfold mbind, M_bind, orPanic, SetRcode, modifyResponse, mret, M_ret.
  repeat case_match; simplify_eq; try done.
  - eexists. split; [|reflexivity]. rewrite !elem_of_cons; auto.
  - eexists. split; [|reflexivity]. rewrite !elem_of_cons; auto.
Qed.

Lemma lookupOutcome_retrieveServices question request st :
  lookupOutcome request st (retrieveServices ext s question request st).
Proof.
  unfold retrieveServices.
  destruct (dns_IsDomainName ext (dns.Name question)) as [n valid].
  destruct valid; cbn [negb].
  2:{ eexists. split; [|reflexivity]. rewrite !elem_of_cons; auto. }
  case_match.
  { eexists. split; [|reflexivity]. rewrite !elem_of_cons; auto. }
  cbv zeta. unfold mbind at 1, M_bind at 1, orPanic at 1.
  destruct (Go.index _ (n - 2)) as [kind|]; [|done].
  unfold mbind, M_bind, orPanic.
  repeat (case_match; try done); simplify_eq;
    first [ apply lookupOutcome_service | apply lookupOutcome_instance ].
Qed.

End lookups.

(** ** Return value and response code of a question *)

(** X1.  However a question is handled, when the handler returns an error
    the response code is format error, server failure or name error and no
    record was added; when it returns no error either the code is name error
    and no record was added, or the code is success and at least one answer
    record was appended. *)
Theorem handleQuestion_outcome
    (ext : Imports) (s : Server) (question : dns.Question) (request : dns.Msg)
    (st : state) :
  match handleQuestion ext s question request st with
  | Ret (Some _) st' =>
      ∃ rcode,
        rcode ∈ [dns.RcodeFormatError; dns.RcodeServerFailure; dns.RcodeNameError]
        ∧ st' = withRcode request rcode st
  | Ret None st' =>
      st' = withRcode request dns.RcodeNameError st
      ∨ ∃ answer extra rest,
          answer ≠ []
          ∧ st' = {| response :=
                       dns.SetRcode
                         (dns.set_Extra
                            (dns.set_Answer (response st)
                               (dns.Answer (response st) ++ answer)%list)
                            (dns.Extra (response st) ++ extra)%list)
                         request dns.RcodeSuccess;
                     rand := rest |}
  | Panic => True
  end.
Proof.
  unfold handleQuestion.
  destruct (bool_decide (dns.Qclass question = dns.ClassINET)); cbn [negb].
  2:{ eexists. split; [|reflexivity]. rewrite !elem_of_cons; auto. }
  destruct (_ || _ || _); cbn [negb].
  2:{ eexists. split; [|reflexivity]. rewrite !elem_of_cons; auto. }
  unfold mbind, M_bind.
  pose proof (lookupOutcome_retrieveServices ext s question request st) as Hlookup.
  destruct (retrieveServices ext s question request st)
    as [[serviceInstances [err|]] st1|]; [exact Hlookup| |done].
  cbn in Hlookup. subst st1.
  destruct (decide (answerRecords ext s question serviceInstances = [])) as [Hnil|Hsome].
  - rewrite createRecordsForInstances_no_answer by done. by left.
  - destruct (createRecordsForInstances_run ext s question request
                serviceInstances st) as (answer & extra & rest & Ha & _ & ->).
    rewrite bool_decide_eq_false_2 by done.
    right. exists answer, extra, rest. split; [|done].
    intros ->. apply Permutation_nil_l in Ha. by symmetry in Ha.
Qed.

(** ** The reply *)

Lemma error_code_is_code (rcode : Z) :
  rcode ∈ [dns.RcodeFormatError; dns.RcodeServerFailure; dns.RcodeNameError] →
  rcode ∈ [dns.RcodeSuccess; dns.RcodeFormatError;
           dns.RcodeServerFailure; dns.RcodeNameError].
Proof. rewrite !elem_of_cons. tauto. Qed.

Lemma error_code_not_success (rcode : Z) :
  rcode ∈ [dns.RcodeFormatError; dns.RcodeServerFailure; dns.RcodeNameError] →
  rcode ≠ dns.RcodeSuccess.
Proof.
  rewrite !elem_of_cons, elem_of_nil. by intros [-> | [-> | [-> | []]]].
Qed.

Lemma replyInvariant_withRcode (request : dns.Msg) (rcode : Z) (st : state) :
  rcode ∈ [dns.RcodeSuccess; dns.RcodeFormatError;
           dns.RcodeServerFailure; dns.RcodeNameError] →
  replyInvariant request (response st) →
  replyInvariant request (response (withRcode request rcode st)).
Proof.
  intros Hcode (HId & Hresp & Hauth & Hrec & Hextra & _).
  by repeat split.
Qed.

Lemma replyInvariant_append (request m : dns.Msg) (answer extra : list dns.RR) :
  replyInvariant request m →
  replyInvariant request
    (dns.SetRcode
       (dns.set_Extra (dns.set_Answer m (dns.Answer m ++ answer)%list)
          (dns.Extra m ++ extra)%list)
       request dns.RcodeSuccess).
Proof.
  intros (HId & Hresp & Hauth & Hrec & Hextra & _).
  repeat split; try done.
  - cbn. by apply prefix_app_r.
  - cbn. rewrite !elem_of_cons; auto.
Qed.

(** The loop over the questions keeps the invariant, only ever appends to the
    answer section, and after at least one question leaves the success code
    only together with an answer record. *)
Lemma handleQuestions_invariant (ext : Imports) (s : Server) (request : dns.Msg)
    (questions : list dns.Question) :
  ∀ st,
    replyInvariant request (response st) →
    match handleQuestions ext s questions request st with
    | Ret _ st' =>
        replyInvariant request (response st')
        ∧ dns.Answer (response st) `prefix_of` dns.Answer (response st')
        ∧ (questions ≠ [] →
           dns.Rcode (response st') = dns.RcodeSuccess →
           dns.Answer (response st') ≠ [])
    | Panic => True
    end.
Proof.
  induction questions as [|question rest IH]; intros st Hinv.
  - by cbn.
  - cbn [handleQuestions]. unfold mbind, M_bind.
    pose proof (handleQuestion_outcome ext s question request st) as Hq.
    destruct (handleQuestion ext s question request st) as [[err|] st1|]; [| |done].
    + destruct Hq as (rcode & Hcode & ->). cbn.
      split; [|split; [done|]].
      * apply replyInvariant_withRcode; [|done].
        by apply error_code_is_code.
      * intros _ Hsuccess. by apply error_code_not_success in Hcode.
    + assert (replyInvariant request (response st1)
              ∧ dns.Answer (response st) `prefix_of` dns.Answer (response st1)
              ∧ (dns.Rcode (response st1) = dns.RcodeSuccess →
                 dns.Answer (response st1) ≠ [])) as (Hinv1 & Hpre1 & Hans1).
      { destruct Hq as [->|(answer & extra & rest' & Hsome & ->)].
        - split; [|split; [done|done]].
          apply replyInvariant_withRcode; [|done]. rewrite !elem_of_cons; auto.
        - split; [by apply replyInvariant_append|]. cbn.
          split; [by apply prefix_app_r|].
          intros _ Hnil. cbn in Hnil. by apply app_eq_nil in Hnil as [_ ?]. }
      specialize (IH st1 Hinv1).
      destruct rest as [|question' rest'].
      * cbn. split; [done|]. split; [done|]. intros _. exact Hans1.
      * destruct (handleQuestions ext s (question' :: rest') request st1)
          as [[] st2|]; [|done].
        destruct IH as (Hinv2 & Hpre2 & Hans2).
        split; [done|]. split; [by etrans|].
        intros _. by apply Hans2.
Qed.

(** X2.  The reply handleRequest writes answers the request (same Id,
    response bit set), is authoritative, offers no recursion, carries the
    request's extra records first and unchanged, and has one of the four
    response codes the server uses; the success code on a request with at
    least one question comes with at least one answer record. *)
Theorem handleRequest_reply
    (ext : Imports) (s : Server) (request : dns.Msg) (st : state) :
  match handleRequest ext s request st with
  | Ret reply st' =>
      reply = response st'
      ∧ dns.Id reply = dns.Id request
      ∧ dns.Response reply = true
      ∧ dns.Authoritative reply = true
      ∧ dns.RecursionAvailable reply = false
      ∧ dns.Extra request `prefix_of` dns.Extra reply
      ∧ dns.Rcode reply ∈ [dns.RcodeSuccess; dns.RcodeFormatError;
                           dns.RcodeServerFailure; dns.RcodeNameError]
      ∧ (dns.Msg_Question request ≠ [] →
         dns.Rcode reply = dns.RcodeSuccess → dns.Answer reply ≠ [])
  | Panic => True
  end.
Proof.
  unfold handleRequest.
  set (st0 := {| response := _; rand := rand st |}).
  assert (replyInvariant request (response st0)) as Hinv0.
  { repeat split; try done. cbn. rewrite !elem_of_cons; auto. }
  pose proof (handleQuestions_invariant ext s request
                (dns.Msg_Question request) st0 Hinv0) as Hloop.
  destruct (handleQuestions ext s (dns.Msg_Question request) request st0)
    as [[] st'|]; [|done].
  destruct Hloop as ((HId & Hresp & Hauth & Hrec & Hextra & Hcode) & _ & Hans).
  by repeat split.
Qed.

(** ** Questions refused before any lookup *)

(** X3.  A question of class INET whose type is none of A, AAAA and SRV is
    refused with the unsupported-type error and response code server
    failure, whatever its name and whatever the catalog holds; the questions
    after it are not handled. *)
Theorem unsupported_type_is_server_failure
    (ext : Imports) (s : Server) (question : dns.Question)
    (rest : list dns.Question) (request : dns.Msg) (st : state) :
  dns.Qclass question = dns.ClassINET →
  dns.Qtype question ≠ dns.TypeA →
  dns.Qtype question ≠ dns.TypeAAAA →
  dns.Qtype question ≠ dns.TypeSRV →
  handleQuestion ext s question request st
  = Ret (Some (UnsupportedType (dns.Qtype question)))
        (withRcode request dns.RcodeServerFailure st)
  ∧ handleQuestions ext s (question :: rest) request st
    = Ret tt (withRcode request dns.RcodeServerFailure st).
Proof.
  intros Hclass HA HAAAA HSRV.
  assert (handleQuestion ext s question request st
          = Ret (Some (UnsupportedType (dns.Qtype question)))
                (withRcode request dns.RcodeServerFailure st)) as Hq.
  { unfold handleQuestion.
    rewrite bool_decide_eq_true_2 by done.
    by rewrite !bool_decide_eq_false_2 by done. }
  split; [exact Hq|].
  cbn [handleQuestions]. unfold mbind, M_bind. by rewrite Hq.
Qed.

Lemma unsupported_type_is_server_failure_witness :
  let question := Sample.question "reviews.service.example." 15 in
  let srv := Sample.server (Sample.catalog [Sample.reviews]) "example" in
  let request := Sample.request [question] in
  dns.Qclass question = dns.ClassINET
  ∧ dns.Qtype question ≠ dns.TypeA
  ∧ dns.Qtype question ≠ dns.TypeAAAA
  ∧ dns.Qtype question ≠ dns.TypeSRV
  ∧ handleQuestion Sample.imports srv question request (Sample.start [])
    = Ret (Some (UnsupportedType 15))
          (withRcode request dns.RcodeServerFailure (Sample.start [])).
Proof.
  intros question srv request.
  assert (dns.Qtype question ≠ dns.TypeA) as HA by done.
  assert (dns.Qtype question ≠ dns.TypeAAAA) as HAAAA by done.
  assert (dns.Qtype question ≠ dns.TypeSRV) as HSRV by done.
  split; [reflexivity|]. split; [exact HA|]. split; [exact HAAAA|].
  split; [exact HSRV|].
  exact (proj1 (unsupported_type_is_server_failure Sample.imports srv question []
                  request (Sample.start []) eq_refl HA HAAAA HSRV)).
Defined.

(** X4.  A question of an accepted class and type whose name
    dns.IsDomainName rejects ends with the invalid-name error and response
    code format error; no lookup is made and the questions after it are not
    handled. *)
Theorem invalid_name_is_format_error
    (ext : Imports) (s : Server) (question : dns.Question)
    (rest : list dns.Question) (request : dns.Msg) (st : state)
    (numberOfLabels : Z) :
  dns.Qclass question = dns.ClassINET →
  dns.Qtype question = dns.TypeA ∨ dns.Qtype question = dns.TypeAAAA
    ∨ dns.Qtype question = dns.TypeSRV →
  dns_IsDomainName ext (dns.Name question) = (numberOfLabels, false) →
  handleQuestion ext s question request st
  = Ret (Some (InvalidDomainName (dns.Name question)))
        (withRcode request dns.RcodeFormatError st)
  ∧ handleQuestions ext s (question :: rest) request st
    = Ret tt (withRcode request dns.RcodeFormatError st).
Proof.
  intros Hclass Htype Hvalid.
  assert (handleQuestion ext s question request st
          = Ret (Some (InvalidDomainName (dns.Name question)))
                (withRcode request dns.RcodeFormatError st)) as Hq.
  { unfold handleQuestion.
    rewrite bool_decide_eq_true_2 by done.
    assert (bool_decide (dns.Qtype question = dns.TypeA)
            || bool_decide (dns.Qtype question = dns.TypeAAAA)
            || bool_decide (dns.Qtype question = dns.TypeSRV) = true) as ->.
    { destruct Htype as [-> | [-> | ->]]; by vm_compute. }
    cbn [negb]. unfold mbind at 1, M_bind at 1.
    unfold retrieveServices. by rewrite Hvalid. }
  split; [exact Hq|].
  cbn [handleQuestions]. unfold mbind, M_bind. by rewrite Hq.
Qed.

Lemma invalid_name_is_format_error_witness :
  let question := Sample.question "reviews..service.example." dns.TypeA in
  let srv := Sample.server (Sample.catalog [Sample.reviews]) "example" in
  let request := Sample.request [question] in
  Sample.IsDomainName (dns.Name question) = (0%Z, false)
  ∧ handleQuestion Sample.imports srv question request (Sample.start [])
    = Ret (Some (InvalidDomainName "reviews..service.example."))
          (withRcode request dns.RcodeFormatError (Sample.start [])).
Proof.
  intros question srv request. split; [reflexivity|].
  exact (proj1 (invalid_name_is_format_error Sample.imports srv question []
                  request (Sample.start []) 0 eq_refl (or_introl eq_refl)
                  eq_refl)).
Defined.

(** X5.  A question of an accepted class and type whose valid name splits
    into one or two labels ends with the service-name-missing error and
    response code name error.  Unlike the name error of a lookup that finds
    nothing, this one is returned as an error: no lookup is made and the
    questions after it are not handled. *)
Theorem short_name_is_name_error
    (ext : Imports) (s : Server) (question : dns.Question)
    (rest : list dns.Question) (request : dns.Msg) (st : state)
    (numberOfLabels : Z) :
  dns.Qclass question = dns.ClassINET →
  dns.Qtype question = dns.TypeA ∨ dns.Qtype question = dns.TypeAAAA
    ∨ dns.Qtype question = dns.TypeSRV →
  dns_IsDomainName ext (dns.Name question) = (numberOfLabels, true) →
  length (dns_SplitDomainName ext (dns.Name question)) = 1%nat
    ∨ length (dns_SplitDomainName ext (dns.Name question)) = 2%nat →
  handleQuestion ext s question request st
  = Ret (Some (ServiceNameMissing (dns.Name question)))
        (withRcode request dns.RcodeNameError st)
  ∧ handleQuestions ext s (question :: rest) request st
    = Ret tt (withRcode request dns.RcodeNameError st).
Proof.
  intros Hclass Htype Hvalid Hlen.
  assert (handleQuestion ext s question request st
          = Ret (Some (ServiceNameMissing (dns.Name question)))
                (withRcode request dns.RcodeNameError st)) as Hq.
  { unfold handleQuestion.
    rewrite bool_decide_eq_true_2 by done.
    assert (bool_decide (dns.Qtype question = dns.TypeA)
            || bool_decide (dns.Qtype question = dns.TypeAAAA)
            || bool_decide (dns.Qtype question = dns.TypeSRV) = true) as ->.
    { destruct Htype as [-> | [-> | ->]]; by vm_compute. }
    cbn [negb]. unfold mbind at 1, M_bind at 1.
    unfold retrieveServices. rewrite Hvalid. cbn [negb].
    destruct Hlen as [-> | ->]; done. }
  split; [exact Hq|].
  cbn [handleQuestions]. unfold mbind, M_bind. by rewrite Hq.
Qed.

Lemma short_name_is_name_error_witness :
  let question := Sample.question "service.example." dns.TypeSRV in
  let srv := Sample.server (Sample.catalog [Sample.reviews]) "example" in
  let request := Sample.request [question] in
  Sample.IsDomainName (dns.Name question) = (2%Z, true)
  ∧ length (Sample.SplitDomainName (dns.Name question)) = 2%nat
  ∧ handleQuestion Sample.imports srv question request (Sample.start [])
    = Ret (Some (ServiceNameMissing "service.example."))
          (withRcode request dns.RcodeNameError (Sample.start [])).
Proof.
  intros question srv request. split; [reflexivity|]. split; [reflexivity|].
  exact (proj1 (short_name_is_name_error Sample.imports srv question []
                  request (Sample.start []) 2 eq_refl (or_intror (or_intror eq_refl))
                  eq_refl (or_intror eq_refl))).
Defined.

(** ** Service queries *)

Lemma isProtocol_nonempty (tag : string) : isProtocol tag = true → tag ≠ "".
Proof. by intros Hproto ->. Qed.

(** The loop over the tokens, from any protocol found so far. *)
Lemma splitTagsProtocol_filter (tagOrProtocol : list string) :
  ∀ protocol tags,
    splitTagsProtocol tagOrProtocol protocol tags
    = match filter (λ t, isProtocol t = true) tagOrProtocol with
      | [] =>
          Some (protocol,
                tags ++ filter (λ t, isProtocol t = false) tagOrProtocol)%list
      | [found] =>
          if bool_decide (protocol ≠ "") then None
          else Some (found,
                     tags ++ filter (λ t, isProtocol t = false) tagOrProtocol)%list
      | _ => None
      end.
Proof.
  induction tagOrProtocol as [|tag rest IH]; intros protocol tags.
  - cbn. by rewrite app_nil_r.
  - cbn [splitTagsProtocol]. rewrite !filter_cons.
    destruct (isProtocol tag) eqn:Htag.
    + rewrite decide_True by done. rewrite decide_False by done.
      case_bool_decide as Hproto.
      * by destruct (filter _ rest).
      * rewrite IH.
        rewrite (bool_decide_eq_true_2 (tag ≠ ""))
          by (by apply isProtocol_nonempty).
        by destruct (filter _ rest) as [|? [|? ?]].
    + rewrite decide_False by done. rewrite decide_True by done.
      rewrite IH. by rewrite <- app_assoc.
Qed.

(** X6.  A service query splits its tokens into the protocol tokens (tcp,
    udp, http, https) and the tags.  With two or more protocol tokens it
    fails with format error before the discovery client is consulted.
    Otherwise the client is asked for the service with the tags in their
    order; a client error is handed on with server failure; a successful
    result is returned as it is when there is no protocol token and filtered
    by endpoint type when there is one. *)
Theorem service_query_dispatch
    (s : Server) (serviceName : string) (request : dns.Msg)
    (tagOrProtocol : list string) (st : state) :
  let protocols := filter (λ t, isProtocol t = true) tagOrProtocol in
  let tags := filter (λ t, isProtocol t = false) tagOrProtocol in
  ((2 ≤ length protocols)%nat →
   retrieveInstancesForServiceQuery s serviceName request tagOrProtocol st
   = Ret ([], Some MoreThanOneProtocol) (withRcode request dns.RcodeFormatError st))
  ∧ ((length protocols ≤ 1)%nat →
     ∀ discovery,
       DiscoveryClient (config s) = Some discovery →
       retrieveInstancesForServiceQuery s serviceName request tagOrProtocol st
       = match client.ListInstances discovery
                 {| client.ServiceName := serviceName; client.Tags := tags |} with
         | (_, Some err) =>
             Ret ([], Some err) (withRcode request dns.RcodeServerFailure st)
         | (serviceInstances, None) =>
             Ret (match protocols with
                  | [] => serviceInstances
                  | protocol :: _ =>
                      filter (λ si, client.Type_ (client.Endpoint si) = protocol)
                             serviceInstances
                  end, None) st
         end).
Proof.
  intros protocols tags. unfold retrieveInstancesForServiceQuery.
  rewrite splitTagsProtocol_filter. fold protocols. fold tags. cbn [app].
  split.
  - intros Hlen. by destruct protocols as [|? [|? ?]]; [cbn in Hlen; lia..|].
  - intros Hlen discovery Hclient. rewrite Hclient.
    unfold mbind, M_bind, orPanic.
    assert (∀ t, t ∈ protocols → isProtocol t = true) as Hall.
    { intros t Hin. by apply list_elem_of_filter in Hin as [? _]. }
    destruct protocols as [|protocol [|? ?]]; [| |cbn in Hlen; lia].
    + cbn. by destruct (client.ListInstances _ _) as [l [err|]].
    + assert (protocol ≠ "") as Hproto.
      { apply isProtocol_nonempty, Hall. rewrite elem_of_cons. by left. }
      rewrite (bool_decide_eq_false_2 ("" ≠ "")) by (by intros []).
      cbn.
      destruct (client.ListInstances _ _) as [l [err|]]; [done|].
      rewrite bool_decide_eq_true_2 by done.
      by rewrite applyProtocolFilter_filter.
Qed.

Lemma service_query_dispatch_witness :
  let srv := Sample.server (Sample.catalog Sample.web) "example" in
  let request := Sample.request [] in
  retrieveInstancesForServiceQuery srv "web" request ["tcp"; "v1"; "udp"]
    (Sample.start [])
  = Ret ([], Some MoreThanOneProtocol)
        (withRcode request dns.RcodeFormatError (Sample.start []))
  ∧ retrieveInstancesForServiceQuery srv "web" request ["v1"; "tcp"]
      (Sample.start [])
    = Ret (take 1 Sample.web, None) (Sample.start []).
Proof.
  intros srv request. split.
  - apply (proj1 (service_query_dispatch srv "web" request
                    ["tcp"; "v1"; "udp"] (Sample.start []))).
    vm_compute. lia.
  - apply (proj2 (service_query_dispatch srv "web" request ["v1"; "tcp"]
                    (Sample.start []))
             ltac:(vm_compute; lia) (Sample.catalog Sample.web) eq_refl).
Defined.

(** ** Instance queries *)





(** ** Address questions *)

Lemma To4_length (ip v : Go.IP) : Go.To4 ip = Some v → length v = 4%nat.
Proof.
  unfold Go.To4. case_decide as H4; [by intros [= <-]|].
  destruct (bool_decide (length ip = Go.IPv6len)) eqn:H16; [|done].
  apply bool_decide_eq_true_1 in H16. cbn [andb].
  destruct (_ && _ && _); [|done]. intros [= <-].
  rewrite length_take, length_drop, H16. done.
Qed.

Lemma records_A (ext : Imports) (s : Server) (question : dns.Question)
    (serviceInstances : list client.ServiceInstance) :
  dns.Qtype question = dns.TypeA →
  answerRecords ext s question serviceInstances
  = map (λ '(si, ip, port), createARecord (dns.Name question) (Go.To4 ip))
        (filter (λ '(si, ip, port), is_Some (Go.To4 ip))
                (resolvable ext serviceInstances))
  ∧ extraRecords ext s question serviceInstances = [].
Proof.
  intros HA.
  induction serviceInstances as [|si rest [IHa IHe]]; [done|].
  rewrite answerRecords_cons, extraRecords_cons, resolvable_cons.
  rewrite IHa, IHe. unfold instanceRecords, recordsStep. rewrite HA.
  change (bool_decide (dns.TypeA = dns.TypeA)) with true. cbn beta iota.
  destruct (splitHostPort ext (client.Endpoint si)) as [[ip port]|err]; [|done].
  rewrite filter_cons. case_decide as H4.
  - change (is_Some (Go.To4 ip)) in H4. destruct H4 as [v Hv].
    cbn [map]. by rewrite Hv.
  - change (¬ is_Some (Go.To4 ip)) in H4.
    destruct (Go.To4 ip) as [v|]; [|done]. by destruct H4.
Qed.

(** X8.  For an A question, createRecordsForInstances appends to the answer
    section a permutation of one A record (question name, class INET, TTL 0)
    per instance whose endpoint resolves to an address with a 4-byte form,
    carrying exactly those 4 bytes, and leaves the extra section as it was;
    instances with an unresolvable endpoint or an address without a 4-byte
    form contribute nothing. *)
Theorem A_records_per_instance
    (ext : Imports) (s : Server) (question : dns.Question) (request : dns.Msg)
    (serviceInstances : list client.ServiceInstance) (st : state) :
  dns.Qtype question = dns.TypeA →
  ∃ answer st',
    createRecordsForInstances ext s question request serviceInstances st
    = Ret None st'
    ∧ dns.Answer (response st') = (dns.Answer (response st) ++ answer)%list
    ∧ dns.Extra (response st') = dns.Extra (response st)
    ∧ answer ≡ₚ
        map (λ '(si, ip, port),
               dns.A {| dns.Hdr_Name := dns.Name question;
                        dns.Rrtype := dns.TypeA;
                        dns.Class := dns.ClassINET;
                        dns.Ttl := 0 |} (Go.To4 ip))
            (filter (λ '(si, ip, port), is_Some (Go.To4 ip))
                    (resolvable ext serviceInstances))
    ∧ Forall (λ r, ∃ hdr v, r = dns.A hdr (Some v) ∧ length v = 4%nat) answer.
Proof.
  intros HA.
  destruct (records_A ext s question serviceInstances HA) as [Ha He].
  destruct (createRecordsForInstances_run ext s question request
              serviceInstances st) as (answer & extra & rest & Hpa & Hpe & Hrun).
  rewrite He in Hpe. apply Permutation_nil_r in Hpe. subst extra.
  assert (Forall (λ r, ∃ hdr v, r = dns.A hdr (Some v) ∧ length v = 4%nat)
                 (answerRecords ext s question serviceInstances)) as Hall.
  { rewrite Ha. apply Forall_map.
    apply list.Forall_forall.
    intros [[si ip] port] Hin. apply list_elem_of_filter in Hin as [[v Hv] _].
    cbn. rewrite Hv. eexists _, v. split; [done|]. by eapply To4_length. }
  case_bool_decide as Hnil.
  - eexists [], _. split; [exact Hrun|].
    rewrite Hnil in Ha. cbn. rewrite app_nil_r.
    repeat split; [|constructor]. unfold createARecord in Ha. by rewrite <- Ha.
  - eexists answer, _. split; [exact Hrun|].
    rewrite Ha in Hpa. cbn. rewrite app_nil_r.
    repeat split; [exact Hpa|]. by rewrite Hpa, <- Ha.
Qed.

Lemma A_records_per_instance_witness :
  let question := Sample.question "web.service.example." dns.TypeA in
  dns.Qtype question = dns.TypeA
  ∧ ∃ st',
      createRecordsForInstances Sample.imports
        (Sample.server (Sample.catalog Sample.web) "example") question
        (Sample.request [question]) Sample.web (Sample.start [5; 2; 7]%nat)
      = Ret None st'
      ∧ dns.Answer (response st')
        = [dns.A {| dns.Hdr_Name := "web.service.example.";
                    dns.Rrtype := dns.TypeA;
                    dns.Class := dns.ClassINET;
                    dns.Ttl := 0 |} (Some [10; 0; 0; 5]%Z)]
      ∧ dns.Extra (response st') = [].
Proof.
  intros question. split; [reflexivity|].
  destruct (A_records_per_instance Sample.imports
              (Sample.server (Sample.catalog Sample.web) "example") question
              (Sample.request [question]) Sample.web (Sample.start [5; 2; 7]%nat)
              eq_refl)
    as (answer & st' & Hrun & Ha & He & Hperm & _).
  exists st'. split; [exact Hrun|]. split; [|exact He].
  rewrite Ha. apply Permutation_singleton_r in Hperm. by rewrite Hperm.
Defined.

(** ** Ports *)

Lemma splitHostPortTCPUDP_port (ext : Imports) (value : string) (ip : Go.IP)
    (port : Z) :
  splitHostPortTCPUDP ext value = inl (ip, port) → (0 ≤ port < 65536)%Z.
Proof.
  unfold splitHostPortTCPUDP.
  destruct (net_SplitHostPort ext value) as [[host p]|];
    destruct (net_ParseIP ext _); try done;
    destruct (Go.Atoi _) as [portNum|]; try done;
    intros [= _ <-]; unfold Go.uint16; apply Z.mod_pos_bound; lia.
Qed.

(** X9.  Whatever the endpoint, a port splitHostPort hands back lies in
    [0, 65535]: a port number outside that range in the endpoint value is
    not an error, it is reduced modulo 65536.  For an http or https endpoint
    the port is never 0, since 0 is replaced by the default port. *)
Theorem splitHostPort_port_range
    (ext : Imports) (endpoint : client.ServiceEndpoint) (ip : Go.IP) (port : Z) :
  splitHostPort ext endpoint = inl (ip, port) →
  (0 ≤ port < 65536)%Z
  ∧ (client.Type_ endpoint = "http" ∨ client.Type_ endpoint = "https" →
     port ≠ 0%Z)
  ∧ (client.Type_ endpoint = "tcp" ∨ client.Type_ endpoint = "udp" →
     ∀ host text portNum,
       net_SplitHostPort ext (client.Value endpoint) = Some (host, text) →
       Go.Atoi text = Some portNum →
       port = (portNum mod 65536)%Z).
Proof.
  unfold splitHostPort. intros Hsplit. split; [|split].
  - repeat case_match; try done.
    + by eapply splitHostPortTCPUDP_port.
    + unfold splitHostPortHTTP in Hsplit.
      repeat case_match; try done; simplify_eq; try lia;
        by eapply splitHostPortTCPUDP_port.
  - intros Htype.
    assert (splitHostPortHTTP ext (client.Value endpoint) = inl (ip, port)) as Hhttp.
    { by destruct Htype as [Heq | Heq]; rewrite Heq in Hsplit. }
    clear Hsplit. unfold splitHostPortHTTP in Hhttp.
    destruct (Go.HasPrefix _ "https://"), (Go.HasPrefix _ "http://");
      cbn [negb andb] in Hhttp;
      destruct (url_Parse ext _); try done;
      destruct (splitHostPortTCPUDP ext _) as [[ip' port']|]; try done;
      destruct (port' =? 0)%Z eqn:Hzero; injection Hhttp as <- <-;
      try lia; by apply Z.eqb_neq.
  - intros Htype host text portNum Hhp Hatoi.
    assert (splitHostPortTCPUDP ext (client.Value endpoint) = inl (ip, port)) as Htcp.
    { by destruct Htype as [Heq | Heq]; rewrite Heq in Hsplit. }
    unfold splitHostPortTCPUDP in Htcp. rewrite Hhp in Htcp.
    destruct (net_ParseIP ext host); [|done]. rewrite Hatoi in Htcp.
    by injection Htcp as _ <-.
Qed.

Lemma splitHostPort_port_range_witness :
  splitHostPort Sample.imports
    {| client.Type_ := "tcp"; client.Value := "10.0.0.5:70000" |}
  = inl (Go.IPv4 10 0 0 5, 4464%Z)
  ∧ (0 ≤ 4464 < 65536)%Z
  ∧ 4464%Z = (70000 mod 65536)%Z.
Proof.
  assert (splitHostPort Sample.imports
            {| client.Type_ := "tcp"; client.Value := "10.0.0.5:70000" |}
          = inl (Go.IPv4 10 0 0 5, 4464%Z)) as Hsplit by reflexivity.
  destruct (splitHostPort_port_range Sample.imports _ _ _ Hsplit)
    as (Hrange & _ & Hwrap).
  split; [exact Hsplit|]. split; [exact Hrange|].
  exact (Hwrap (or_introl eq_refl) "10.0.0.5" "70000" 70000%Z eq_refl eq_refl).
Defined.

(** ** Construction of the server *)

Lemma append_assoc (a b c : string) : (a +:+ b) +:+ c = a +:+ (b +:+ c).
Proof.
  induction a as [|ch a IH]; [done|].
  change (String ch ((a +:+ b) +:+ c) = String ch (a +:+ (b +:+ c))).
  by rewrite IH.
Qed.

Lemma IsFqdn_stem (name : string) :
  dns.IsFqdn name = true → ∃ stem, name = stem +:+ ".".
Proof.
  induction name as [|c [|d rest] IH]; [done| |].
  - cbn. intros ->%bool_decide_eq_true_1. by exists "".
  - intros Hfq. destruct (IH Hfq) as [stem Hstem].
    exists (String c stem). rewrite Hstem. done.
Qed.

(** X10.  NewServer fails exactly when the configuration has no discovery
    client.  Otherwise the server keeps the client and the port and holds the
    domain with a final dot: the domain as configured when it already ends in
    a dot, with one dot added when it does not; configuring a server again
    from its own configuration changes nothing. *)
Theorem NewServer_result (c : Config) :
  match DiscoveryClient c with
  | None => NewServer c = (None, Some DiscoveryClientNil)
  | Some discovery =>
      ∃ s,
        NewServer c = (Some s, None)
        ∧ DiscoveryClient (config s) = Some discovery
        ∧ Port (config s) = Port c
        ∧ Domain (config s)
          = (if dns.IsFqdn (Domain c) then Domain c else Domain c +:+ ".")
        ∧ (∃ stem, Domain (config s) = stem +:+ ".")
        ∧ NewServer (config s) = (Some s, None)
  end.
Proof.
  unfold NewServer, validate.
  destruct (DiscoveryClient c) as [discovery|] eqn:Hclient; [|done].
  eexists. split; [reflexivity|]. cbn [config DiscoveryClient Port Domain].
  split; [done|]. split; [done|]. split; [done|].
  assert (dns.IsFqdn (dns.Fqdn (Domain c)) = true) as Hfq.
  { unfold dns.Fqdn.
    destruct (dns.IsFqdn (Domain c)) eqn:Hfq; [done|apply IsFqdn_dot]. }
  split; [by apply IsFqdn_stem|].
  unfold dns.Fqdn at 1. by rewrite Hfq.
Qed.

(** X11.  In a server built by NewServer the domain already ends in a dot,
    and the SRV target adds another after it: for every instance whose
    endpoint resolves, the target of its SRV record is
    "<ID>.instance.<stem>..", where <stem> is the configured domain without
    its final dot, if it had one. *)
Theorem NewServer_SRV_target
    (ext : Imports) (c : Config) (s : Server) (question : dns.Question)
    (si : client.ServiceInstance) (ip : Go.IP) (port : Z) :
  NewServer c = (Some s, None) →
  dns.Qtype question = dns.TypeSRV →
  splitHostPort ext (client.Endpoint si) = inl (ip, port) →
  ∃ stem,
    dns.Fqdn (Domain c) = stem +:+ "."
    ∧ (instanceRecords ext s question si).1
      = [createSRVRecord (dns.Name question) port
           (client.ID si +:+ ".instance." +:+ stem +:+ "..")].
Proof.
  intros Hnew HSRV Hsplit.
  destruct (NewServer_Domain c s Hnew) as [Hdomain Hfq].
  destruct (IsFqdn_stem _ Hfq) as [stem Hstem].
  exists stem. split; [by rewrite <- Hdomain|].
  rewrite instanceRecords_SRV by done. rewrite Hsplit. cbn [fst].
  rewrite Hstem. do 2 f_equal. f_equal. by rewrite append_assoc.
Qed.

Lemma NewServer_SRV_target_witness :
  let c := {| DiscoveryClient := Some (Sample.catalog [Sample.reviews]);
              Port := 53; Domain := "example" |} in
  let s := {| config := {| DiscoveryClient := Some (Sample.catalog [Sample.reviews]);
                           Port := 53; Domain := "example." |} |} in
  let question := Sample.question "_reviews._http.service.example." dns.TypeSRV in
  NewServer c = (Some s, None)
  ∧ splitHostPort Sample.imports (client.Endpoint Sample.reviews)
    = inl (Go.IPv4 192 168 1 10, 9080%Z)
  ∧ (instanceRecords Sample.imports s question Sample.reviews).1
    = [createSRVRecord "_reviews._http.service.example." 9080
         "abc123....instance.example.."].
Proof.
  intros c s question.
  split; [reflexivity|]. split; [reflexivity|].
  destruct (NewServer_SRV_target Sample.imports c s question Sample.reviews
              (Go.IPv4 192 168 1 10) 9080%Z eq_refl eq_refl eq_refl)
    as (stem & Hstem & Hrecords).
  assert (stem = "example") as ->.
  { change ("example." = stem +:+ ".") in Hstem.
    change ("example" +:+ "." = stem +:+ ".") in Hstem.
    clear Hrecords. revert Hstem. generalize "example". intros e.
    revert e. induction stem as [|ch stem IH]; intros [|ch' e]; try done.
    - cbn. intros [= _ He]. by destruct e.
    - cbn. intros [= _ He]. by destruct stem.
    - intros [= -> He]. f_equal. by apply IH. }
  exact Hrecords.
Defined.

(** ** The shapes of a question name *)





(** X13.  A question of an accepted class and type whose valid name has
    three or more labels but neither shape (the label before the last is
    not "service", and the name is not a three-label "instance" name asked
    with type A or AAAA) triggers no lookup: the response code is name error,
    no record is added, and since no error is returned the questions after it
    are still handled. *)
Theorem unmatched_name_is_name_error
    (ext : Imports) (s : Server) (question : dns.Question)
    (rest : list dns.Question) (request : dns.Msg) (st : state)
    (numberOfLabels : Z) (kind : string) :
  dns.Qclass question = dns.ClassINET →
  dns.Qtype question = dns.TypeA ∨ dns.Qtype question = dns.TypeAAAA
    ∨ dns.Qtype question = dns.TypeSRV →
  dns_IsDomainName ext (dns.Name question) = (numberOfLabels, true) →
  length (dns_SplitDomainName ext (dns.Name question)) ≠ 1%nat →
  length (dns_SplitDomainName ext (dns.Name question)) ≠ 2%nat →
  Go.index (dns_SplitDomainName ext (dns.Name question)) (numberOfLabels - 2)
  = Some kind →
  kind ≠ "service" →
  kind ≠ "instance" ∨ numberOfLabels ≠ 3%Z ∨ dns.Qtype question = dns.TypeSRV →
  retrieveServices ext s question request st = Ret ([], None) st
  ∧ handleQuestion ext s question request st
    = Ret None (withRcode request dns.RcodeNameError st)
  ∧ handleQuestions ext s (question :: rest) request st
    = handleQuestions ext s rest request (withRcode request dns.RcodeNameError st).
Proof.
  intros Hclass Htype Hvalid Hone Htwo Hkind Hservice Hshape.
  assert (retrieveServices ext s question request st = Ret ([], None) st) as Hlookup.
  { unfold retrieveServices. rewrite Hvalid. cbn [negb].
    rewrite !bool_decide_eq_false_2 by done. cbn [orb]. cbv zeta.
    unfold mbind at 1, M_bind at 1. rewrite Hkind. unfold orPanic at 1.
    rewrite (bool_decide_eq_false_2 (kind = "service")) by done.
    destruct Hshape as [Hshape | [Hshape | Hshape]].
    - by rewrite (bool_decide_eq_false_2 (kind = "instance")) by done.
    - rewrite (bool_decide_eq_false_2 (numberOfLabels = 3%Z)) by done.
      by rewrite andb_false_r.
    - rewrite Hshape.
      change (bool_decide (dns.TypeSRV = dns.TypeA)) with false.
      change (bool_decide (dns.TypeSRV = dns.TypeAAAA)) with false.
      by rewrite andb_false_r. }
  assert (handleQuestion ext s question request st
          = Ret None (withRcode request dns.RcodeNameError st)) as Hq.
  { rewrite (handleQuestion_synthesis ext s question request [] st st) by done.
    by apply createRecordsForInstances_no_answer. }
  split; [exact Hlookup|]. split; [exact Hq|].
  cbn [handleQuestions]. unfold mbind, M_bind. by rewrite Hq.
Qed.

Lemma unmatched_name_is_name_error_witness :
  let question := Sample.question "i-9.db.instance.example." dns.TypeA in
  let srv := Sample.server (Sample.catalog Sample.twins) "example" in
  let request := Sample.request [question] in
  Sample.IsDomainName (dns.Name question) = (4%Z, true)
  ∧ Sample.SplitDomainName (dns.Name question)
    = ["i-9"; "db"; "instance"; "example"]
  ∧ handleQuestion Sample.imports srv question request (Sample.start [])
    = Ret None (withRcode request dns.RcodeNameError (Sample.start [])).
Proof.
  intros question srv request.
  split; [reflexivity|]. split; [reflexivity|].
  assert ("instance" ≠ "service") as Hservice by done.
  assert ((4 : Z) ≠ 3%Z) as Hfour by done.
  exact (proj1 (proj2 (unmatched_name_is_name_error Sample.imports srv question
                         [] request (Sample.start []) 4 "instance"
                         eq_refl (or_introl eq_refl) eq_refl
                         ltac:(vm_compute; lia) ltac:(vm_compute; lia)
                         eq_refl Hservice (or_intror (or_introl Hfour))))).
Defined.

(** ** Panics *)

Section no_panic.

Context {A B : Type}.

Lemma returns_ret (a : A) : returns (mret a).
Proof. intros st. by eexists _, _. Qed.

Lemma returns_bind (m : M A) (f : A → M B) :
  returns m → (∀ a, returns (f a)) → returns (m ≫= f).
Proof.
  intros Hm Hf st. unfold mbind, M_bind.
  destruct (Hm st) as (a & st' & ->). apply Hf.
Qed.

Lemma returns_orPanic (a : A) : returns (orPanic (Some a)).
Proof. intros st. by eexists _, _. Qed.

End no_panic.

Lemma returns_SetRcode (request : dns.Msg) (rcode : Z) :
  returns (SetRcode request rcode).
Proof. intros st. by eexists _, _. Qed.

Lemma index_Some {A : Type} (l : list A) (i : Z) :
  (0 ≤ i < Z.of_nat (length l))%Z → ∃ x, Go.index l i = Some x.
Proof.
  intros Hi. unfold Go.index. rewrite (proj2 (Z.ltb_ge _ _)) by lia.
  apply lookup_lt_is_Some_2. lia.
Qed.

Lemma slice_to_Some {A : Type} (l : list A) (hi : Z) :
  (0 ≤ hi ≤ Z.of_nat (length l))%Z → ∃ l', Go.slice_to l hi = Some l'.
Proof.
  intros Hhi. unfold Go.slice_to.
  rewrite (proj2 (Z.ltb_ge _ _)), (proj2 (Z.ltb_ge _ _)) by lia.
  by eexists.
Qed.

Section no_panic_server.

Variable ext : Imports.
Variable s : Server.
Variable discovery : client.Discovery.
Hypothesis Hclient : DiscoveryClient (config s) = Some discovery.

Lemma returns_service serviceName request tagOrProtocol :
  returns (retrieveInstancesForServiceQuery s serviceName request tagOrProtocol).
Proof.
  unfold retrieveInstancesForServiceQuery. rewrite Hclient.
  repeat first
    [ apply returns_ret | apply returns_orPanic | apply returns_SetRcode
    | apply returns_bind; [|intros ?]
    | match goal with
      | |- returns (if ?b then _ else _) => destruct b
      | |- returns (match ?x with _ => _ end) => destruct x
      end ].
Qed.

Lemma returns_instance instanceID request :
  returns (retrieveInstancesForInstanceQuery s instanceID request).
Proof.
  unfold retrieveInstancesForInstanceQuery. rewrite Hclient.
  repeat first
    [ apply returns_ret | apply returns_orPanic | apply returns_SetRcode
    | apply returns_bind; [|intros ?]
    | match goal with
      | |- returns (if ?b then _ else _) => destruct b
      | |- returns (match ?x with _ => _ end) => destruct x
      end ].
Qed.

Lemma returns_retrieveServices question request :
  labelsAgree ext (dns.Name question) →
  returns (retrieveServices ext s question request).
Proof.
  intros Hagree. unfold retrieveServices.
  destruct (dns_IsDomainName ext (dns.Name question)) as [n valid] eqn:Hvalid.
  destruct valid; cbn [negb].
  2:{ apply returns_bind; [apply returns_SetRcode|intros ?; apply returns_ret]. }
  destruct (Hagree n Hvalid) as [Hn Hnonempty].
  set (labels := dns_SplitDomainName ext (dns.Name question)) in *.
  case_bool_decide as Hone.
  { apply returns_bind; [apply returns_SetRcode|intros ?; apply returns_ret]. }
  case_bool_decide as Htwo.
  { apply returns_bind; [apply returns_SetRcode|intros ?; apply returns_ret]. }
  cbn [orb]. cbv zeta.
  assert (3 ≤ length labels)%nat as Hlen.
  { destruct labels as [|? [|? [|? ?]]]; cbn in *; try done; lia. }
  destruct (index_Some labels (n - 2)) as [kind ->]; [lia|].
  destruct (index_Some labels (n - 3)) as [serviceName ->]; [lia|].
  destruct (slice_to_Some labels (n - 3)) as [tokens ->]; [lia|].
  destruct (index_Some labels 0) as [label0 ->]; [lia|].
  destruct (index_Some labels 1) as [label1 ->]; [lia|].
  apply returns_bind; [apply returns_orPanic|intros kind'].
  assert (returns
            (serviceName0 ← orPanic (Some serviceName);
             tagsOrProtocol ← orPanic (Some tokens);
             retrieveInstancesForServiceQuery s serviceName0 request tagsOrProtocol))
    as Hlong.
  { apply returns_bind; [apply returns_orPanic|intros ?].
    apply returns_bind; [apply returns_orPanic|intros ?].
    apply returns_service. }
  destruct (bool_decide (kind' = "service")).
  - destruct (_ && _); [|exact Hlong].
    apply returns_bind; [apply returns_orPanic|intros a0].
    destruct (Go.HasPrefix a0 "_") eqn:H0; [|exact Hlong].
    apply returns_bind; [apply returns_orPanic|intros a1].
    destruct (Go.HasPrefix a1 "_") eqn:H1; [|exact Hlong].
    apply HasPrefix_underscore in H0 as [r0 ->].
    apply HasPrefix_underscore in H1 as [r1 ->].
    apply returns_bind; [apply returns_orPanic|intros ?].
    apply returns_bind; [apply returns_orPanic|intros ?].
    apply returns_service.
  - destruct (_ && _ && _); [|apply returns_ret].
    apply returns_bind; [apply returns_orPanic|intros ?].
    apply returns_instance.
Qed.

Lemma returns_handleQuestion question request :
  labelsAgree ext (dns.Name question) →
  returns (handleQuestion ext s question request).
Proof.
  intros Hagree. unfold handleQuestion.
  destruct (negb _).
  { apply returns_bind; [apply returns_SetRcode|intros ?; apply returns_ret]. }
  destruct (negb _).
  { apply returns_bind; [apply returns_SetRcode|intros ?; apply returns_ret]. }
  apply returns_bind; [by apply returns_retrieveServices|].
  intros [serviceInstances [err|]]; [apply returns_ret|].
  intros st.
  destruct (createRecordsForInstances_run ext s question request
              serviceInstances st) as (? & ? & ? & _ & _ & ->).
  by eexists _, _.
Qed.

Lemma returns_handleQuestions questions request :
  Forall (λ question, labelsAgree ext (dns.Name question)) questions →
  returns (handleQuestions ext s questions request).
Proof.
  induction 1 as [|question rest Hq _ IH]; cbn [handleQuestions].
  - apply returns_ret.
  - apply returns_bind; [by apply returns_handleQuestion|].
    intros [err|]; [apply returns_ret|apply IH].
Qed.

End no_panic_server.

(** X14.  A server with a discovery client answers every request whose
    question names have as many labels as dns.IsDomainName counts (and at
    least one): handleRequest writes a reply, no index leaves its slice. *)
Theorem handleRequest_returns
    (ext : Imports) (s : Server) (discovery : client.Discovery)
    (request : dns.Msg) (st : state) :
  DiscoveryClient (config s) = Some discovery →
  Forall (λ question, labelsAgree ext (dns.Name question))
         (dns.Msg_Question request) →
  ∃ reply st', handleRequest ext s request st = Ret reply st'.
Proof.
  intros Hclient Hagree. unfold handleRequest.
  destruct (returns_handleQuestions ext s discovery Hclient _ request Hagree
              {| response :=
                   dns.set_flags
                     (dns.set_Extra (dns.SetReply dns.new_Msg request)
                        (dns.Extra request)) true false;
                 rand := rand st |}) as ([] & st' & ->).
  by eexists _, _.
Qed.

(** X15.  A question of an accepted class and type whose valid name splits
    into no label at all (as dns.SplitDomainName does for the root name)
    makes the handler panic on the index numberOfLabels-2, and with it
    handleRequest: no reply is written. *)
Theorem empty_label_list_panics
    (ext : Imports) (s : Server) (question : dns.Question)
    (rest : list dns.Question) (request : dns.Msg) (st : state)
    (numberOfLabels : Z) :
  dns.Qclass question = dns.ClassINET →
  dns.Qtype question = dns.TypeA ∨ dns.Qtype question = dns.TypeAAAA
    ∨ dns.Qtype question = dns.TypeSRV →
  dns_IsDomainName ext (dns.Name question) = (numberOfLabels, true) →
  dns_SplitDomainName ext (dns.Name question) = [] →
  handleQuestion ext s question request st = Panic
  ∧ (dns.Msg_Question request = question :: rest →
     handleRequest ext s request st = Panic).
Proof.
  intros Hclass Htype Hvalid Hsplit.
  assert (∀ st1, handleQuestion ext s question request st1 = Panic) as Hq.
  { intros st1. unfold handleQuestion.
    rewrite bool_decide_eq_true_2 by done.
    assert (bool_decide (dns.Qtype question = dns.TypeA)
            || bool_decide (dns.Qtype question = dns.TypeAAAA)
            || bool_decide (dns.Qtype question = dns.TypeSRV) = true) as ->.
    { destruct Htype as [-> | [-> | ->]]; by vm_compute. }
    cbn [negb]. unfold mbind at 1, M_bind at 1.
    unfold retrieveServices. rewrite Hvalid, Hsplit. cbn [negb length].
    rewrite !bool_decide_eq_false_2 by done. cbn [orb]. cbv zeta.
    unfold mbind at 1, M_bind at 1.
    assert (Go.index (@nil string) (numberOfLabels - 2) = None) as ->.
    { unfold Go.index. by destruct (_ <? _)%Z. }
    done. }
  split; [apply Hq|].
  intros Hquestions. unfold handleRequest. rewrite Hquestions.
  cbn [handleQuestions]. unfold mbind, M_bind. by rewrite Hq.
Qed.

Lemma empty_label_list_panics_witness :
  let question := Sample.question "." dns.TypeA in
  let srv := Sample.server (Sample.catalog Sample.web) "." in
  let request := Sample.request [question] in
  Sample.IsDomainName (dns.Name question) = (1%Z, true)
  ∧ Sample.SplitDomainName (dns.Name question) = []
  ∧ handleRequest Sample.imports srv request (Sample.start []) = Panic.
Proof.
  intros question srv request.
  split; [reflexivity|]. split; [reflexivity|].
  exact (proj2 (empty_label_list_panics Sample.imports srv question [] request
                  (Sample.start []) 1 eq_refl (or_introl eq_refl)
                  eq_refl eq_refl) eq_refl).
Defined.

(** ** Every order can come out of the shuffle *)

Lemma swap_Some {A : Type} (i j : nat) (l : list A) (a b : A) :
  l !! i = Some a → l !! j = Some b →
  swap i j l = Some (<[j := a]> (<[i := b]> l)).
Proof. intros Hi Hj. unfold swap. by rewrite Hi, Hj. Qed.

Lemma swap_lookup {A : Type} (i j : nat) (l l' : list A) :
  swap i j l = Some l' →
  l' !! i = l !! j ∧ l' !! j = l !! i
  ∧ (∀ n, n ≠ i → n ≠ j → l' !! n = l !! n)
  ∧ length l' = length l.
Proof.
  unfold swap.
  destruct (l !! i) as [a|] eqn:Hi; [|done].
  destruct (l !! j) as [b|] eqn:Hj; [|done].
  intros [= <-].
  pose proof (lookup_lt_Some _ _ _ Hi). pose proof (lookup_lt_Some _ _ _ Hj).
  repeat split.
  - destruct (decide (i = j)) as [->|Hne].
    + rewrite list_lookup_insert_eq by (by rewrite length_insert). congruence.
    + rewrite list_lookup_insert_ne by done.
      by rewrite list_lookup_insert_eq.
  - by rewrite list_lookup_insert_eq by (by rewrite length_insert).
  - intros n Hi' Hj'. by rewrite !list_lookup_insert_ne.
  - by rewrite !length_insert.
Qed.

(** Swapping twice gives the list back. *)
Lemma swap_swap {A : Type} (i j : nat) (l l' : list A) :
  swap i j l = Some l' → swap i j l' = Some l.
Proof.
  intros Hswap.
  destruct (swap_lookup i j l l' Hswap) as (Hi & Hj & Hother & Hlen).
  assert (is_Some (l !! i) ∧ is_Some (l !! j)) as [[a Ha] [b Hb]].
  { unfold swap in Hswap.
    destruct (l !! i); [|done]. by destruct (l !! j). }
  rewrite (swap_Some i j l' b a) by congruence. f_equal.
  apply list_eq. intros n.
  pose proof (lookup_lt_Some _ _ _ Ha). pose proof (lookup_lt_Some _ _ _ Hb).
  destruct (decide (n = j)) as [->|Hnj].
  - rewrite list_lookup_insert_eq by (rewrite length_insert; lia). done.
  - rewrite list_lookup_insert_ne by done.
    destruct (decide (n = i)) as [->|Hni].
    + rewrite list_lookup_insert_eq by lia. done.
    + rewrite list_lookup_insert_ne by done. by apply Hother.
Qed.

(** One round of the loop. *)
Lemma shuffleFrom_S (i todo : nat) (records : list dns.RR) (st : state) :
  shuffleFrom i (S todo) records st
  = match Intn (i + 1) st with
    | Ret j st1 =>
        match swap i j records with
        | Some swapped => shuffleFrom (S i) todo swapped st1
        | None => Panic
        end
    | Panic => Panic
    end.
Proof.
  cbn [shuffleFrom]. unfold mbind, M_bind, orPanic.
  destruct (Intn (i + 1) st) as [j st1|]; [|done].
  by destruct (swap i j records).
Qed.

(** The loop over one more index is the loop followed by one more round. *)
Lemma shuffleFrom_snoc (todo : nat) :
  ∀ i records st,
    shuffleFrom i (S todo) records st
    = match shuffleFrom i todo records st with
      | Ret records' st1 =>
          match Intn (i + todo + 1) st1 with
          | Ret j st2 => orPanic (swap (i + todo) j records') st2
          | Panic => Panic
          end
      | Panic => Panic
      end.
Proof.
  induction todo as [|todo IH]; intros i records st.
  - rewrite shuffleFrom_S. cbn [shuffleFrom]. unfold mret, M_ret.
    rewrite !Nat.add_0_r.
    destruct (Intn (i + 1) st) as [j st1|]; [|done].
    unfold orPanic. by destruct (swap i j records).
  - rewrite shuffleFrom_S, (shuffleFrom_S i todo).
    destruct (Intn (i + 1) st) as [j st1|]; [|done].
    destruct (swap i j records) as [swapped|]; [|done].
    rewrite IH. by replace (S i + todo)%nat with (i + S todo)%nat by lia.
Qed.

Lemma shuffleFrom_reaches (k : nat) :
  ∀ (records target : list dns.RR),
    (k ≤ length records)%nat →
    length target = length records →
    take k target ≡ₚ take k records →
    drop k target = drop k records →
    ∃ draws,
      length draws = k
      ∧ ∀ resp rest,
          shuffleFrom 0 k records {| response := resp; rand := draws ++ rest |}
          = Ret target {| response := resp; rand := rest |}.
Proof.
  induction k as [|k IH]; intros records target Hk Hlen Htake Hdrop.
  - exists []. split; [done|]. intros resp rest.
    rewrite !drop_0 in Hdrop. by subst.
  - destruct (lookup_lt_is_Some_2 records k) as [x Hx]; [lia|].
    destruct (lookup_lt_is_Some_2 target k) as [y Hy]; [lia|].
    assert (∃ j, (j < S k)%nat ∧ target !! j = Some x) as (j & Hj & Htj).
    { assert (x ∈ take (S k) target) as Hin.
      { rewrite Htake. apply list_elem_of_lookup. exists k.
        rewrite lookup_take_lt by lia. done. }
      apply list_elem_of_lookup in Hin as [j Hin].
      pose proof (lookup_lt_Some _ _ _ Hin) as Hlt.
      rewrite length_take in Hlt.
      exists j. split; [lia|]. by rewrite lookup_take_lt in Hin by lia. }
    pose proof (swap_Some k j target y x Hy Htj) as Hswap.
    set (mid := <[j := y]> (<[k := x]> target)) in Hswap.
    destruct (swap_lookup k j target mid Hswap) as (Hmk & Hmj & Hmother & Hmlen).
    assert (drop (S k) mid = drop (S k) target) as Hdrop'.
    { unfold mid. by rewrite !drop_insert_lt by lia. }
    assert (mid ≡ₚ target) as Hperm.
    { destruct (swap_Permutation k j target) as (mid' & Hswap' & Hperm & _);
        [lia|lia|]. congruence. }
    assert (take (S k) mid ≡ₚ take (S k) target) as Htake'.
    { apply (Permutation_app_inv_r (drop (S k) target)).
      rewrite <- Hdrop' at 1. by rewrite !take_drop. }
    assert (mid !! k = Some x) as Hmidk by congruence.
    destruct (IH records mid) as (draws & Hdrawslen & Hdraws).
    + lia.
    + congruence.
    + apply (Permutation_app_inv_r [x]).
      rewrite <- (take_S_r mid k x), <- (take_S_r records k x) by done.
      by rewrite Htake'.
    + rewrite (drop_S mid x k), (drop_S records x k) by done.
      f_equal. by rewrite Hdrop'.
    + exists (draws ++ [j])%list. split; [rewrite length_app; cbn; lia|].
      intros resp rest.
      rewrite shuffleFrom_snoc, <- app_assoc, Hdraws.
      cbn [app plus].
      replace (k + 1)%nat with (S k) by lia.
      unfold Intn. cbn [rand response].
      rewrite Nat.mod_small by lia. unfold orPanic.
      by rewrite (swap_swap k j target mid Hswap).
Qed.

(** X16.  Any order of the records can come out of shuffleRecords: for every
    permutation of the list there are draws of the random source, one per
    record, with which the shuffle returns exactly that permutation. *)
Theorem shuffleRecords_reaches_every_order
    (records target : list dns.RR) (resp : dns.Msg) :
  target ≡ₚ records →
  ∃ draws,
    length draws = length records
    ∧ shuffleRecords records {| response := resp; rand := draws |}
      = Ret target {| response := resp; rand := [] |}.
Proof.
  intros Hperm. unfold shuffleRecords.
  pose proof (Permutation_length Hperm) as Hlen.
  destruct (shuffleFrom_reaches (length records) records target)
    as (draws & Hdrawslen & Hdraws).
  - done.
  - done.
  - rewrite <- Hlen at 1. by rewrite !firstn_all.
  - rewrite <- Hlen at 1. by rewrite !drop_all.
  - specialize (Hdraws resp []). rewrite app_nil_r in Hdraws.
    by exists draws.
Qed.

Lemma shuffleRecords_reaches_every_order_witness :
  let a := createARecord "web.service.example." (Some [10; 0; 0; 1]%Z) in
  let b := createARecord "web.service.example." (Some [10; 0; 0; 2]%Z) in
  let c := createARecord "web.service.example." (Some [10; 0; 0; 3]%Z) in
  [c; a; b] ≡ₚ [a; b; c]
  ∧ ∃ draws,
      length draws = 3%nat
      ∧ shuffleRecords [a; b; c] {| response := dns.new_Msg; rand := draws |}
        = Ret [c; a; b] {| response := dns.new_Msg; rand := [] |}.
Proof.
  intros a b c.
  assert ([c; a; b] ≡ₚ [a; b; c]) as Hperm
    by exact (Permutation_cons_append [a; b] c).
  split; [exact Hperm|].
  exact (shuffleRecords_reaches_every_order [a; b; c] [c; a; b] dns.new_Msg Hperm).
Defined.

Lemma handleRequest_returns_witness :
  let srv := Sample.server (Sample.catalog Sample.web) "example" in
  let request :=
    Sample.request [Sample.question "tcp.web.service.example." dns.TypeSRV;
                    Sample.question "example." dns.TypeA] in
  DiscoveryClient (config srv) = Some (Sample.catalog Sample.web)
  ∧ Forall (λ question, labelsAgree Sample.imports (dns.Name question))
           (dns.Msg_Question request)
  ∧ ∃ reply st',
      handleRequest Sample.imports srv request (Sample.start [4; 4]%nat)
      = Ret reply st'.
Proof.
  intros srv request.
  assert (Forall (λ question, labelsAgree Sample.imports (dns.Name question))
                 (dns.Msg_Question request)) as Hagree.
  { constructor; [|constructor; [|constructor]];
      intros n Hn; vm_compute in Hn; injection Hn as <-; by vm_compute. }
  split; [reflexivity|]. split; [exact Hagree|].
  exact (handleRequest_returns Sample.imports srv (Sample.catalog Sample.web)
           request (Sample.start [4; 4]%nat) eq_refl Hagree).
Defined.

(** ** Answers of earlier questions *)

(** X17.  When a question has been answered with success and the next one
    reaches record synthesis without yielding an answer record, the loop
    ends with response code name error while the answer records of the
    first question stay in the reply: a reply can carry answers under the
    name-error code. *)
Theorem name_error_keeps_earlier_answers
    (ext : Imports) (s : Server) (request : dns.Msg)
    (question1 question2 : dns.Question)
    (instances2 : list client.ServiceInstance) (st after1 st2 : state) :
  handleQuestion ext s question1 request st = Ret None after1 →
  dns.Rcode (response after1) = dns.RcodeSuccess →
  dns.Qclass question2 = dns.ClassINET →
  dns.Qtype question2 = dns.TypeA ∨ dns.Qtype question2 = dns.TypeAAAA
    ∨ dns.Qtype question2 = dns.TypeSRV →
  retrieveServices ext s question2 request after1 = Ret (instances2, None) st2 →
  answerRecords ext s question2 instances2 = [] →
  let final := withRcode request dns.RcodeNameError after1 in
  handleQuestions ext s [question1; question2] request st = Ret tt final
  ∧ dns.Rcode (response final) = dns.RcodeNameError
  ∧ dns.Answer (response final) = dns.Answer (response after1)
  ∧ dns.Answer (response final) ≠ [].
Proof.
  intros Hq1 Hsuccess Hclass2 Htype2 Hlookup2 Hnil final.
  pose proof (lookupOutcome_retrieveServices ext s question2 request after1)
    as Hsame.
  rewrite Hlookup2 in Hsame. cbn in Hsame. subst st2.
  assert (handleQuestion ext s question2 request after1 = Ret None final) as Hq2.
  { rewrite (handleQuestion_synthesis ext s question2 request instances2
               after1 after1) by done.
    by apply createRecordsForInstances_no_answer. }
  split.
  { cbn [handleQuestions]. unfold mbind, M_bind. by rewrite Hq1, Hq2. }
  split; [done|]. split; [done|].
  pose proof (handleQuestion_outcome ext s question1 request st) as Hout.
  rewrite Hq1 in Hout.
  destruct Hout as [-> | (answer & extra & rest & Hsome & ->)]; [done|].
  cbn. intros Hempty. by apply app_eq_nil in Hempty as [_ ?].
Qed.

Lemma name_error_keeps_earlier_answers_witness :
  let question1 := Sample.question "reviews.service.example." dns.TypeA in
  let question2 := Sample.question "nosuch.service.example." dns.TypeA in
  let srv := Sample.server (Sample.catalog (Sample.reviews :: Sample.web)) "example" in
  let request := Sample.request [question1; question2] in
  let st := Sample.start [] in
  let after1 :=
    {| response :=
         dns.SetRcode
           (dns.set_Answer dns.new_Msg
              [createARecord "reviews.service.example." (Some [192; 168; 1; 10]%Z)])
           request dns.RcodeSuccess;
       rand := [] |} in
  handleQuestion Sample.imports srv question1 request st = Ret None after1
  ∧ retrieveServices Sample.imports srv question2 request after1
    = Ret ([], None) after1
  ∧ ∃ final,
      handleQuestions Sample.imports srv [question1; question2] request st
      = Ret tt final
      ∧ dns.Rcode (response final) = dns.RcodeNameError
      ∧ dns.Answer (response final)
        = [createARecord "reviews.service.example." (Some [192; 168; 1; 10]%Z)].
Proof.
  intros question1 question2 srv request st after1.
  assert (handleQuestion Sample.imports srv question1 request st
          = Ret None after1) as Hq1 by reflexivity.
  assert (retrieveServices Sample.imports srv question2 request after1
          = Ret ([], None) after1) as Hlookup2 by reflexivity.
  split; [exact Hq1|]. split; [exact Hlookup2|].
  destruct (name_error_keeps_earlier_answers Sample.imports srv request
              question1 question2 [] st after1 after1
              Hq1 eq_refl eq_refl (or_introl eq_refl) Hlookup2 eq_refl)
    as (Hloop & Hcode & Hanswer & _).
  eexists. split; [exact Hloop|]. split; [exact Hcode|exact Hanswer].
Defined.

(** * The catalog's instance IDs *)

Lemma round_length (v : list Z) (kw : Z * Z) :
  length v = 8%nat → length (sha256.round v kw) = 8%nat.
Proof.
  intros Hlen. do 9 (destruct v as [|? v]; try done).
Qed.

Lemma rounds_length (kws : list (Z * Z)) :
  ∀ v, length v = 8%nat → length (foldl sha256.round v kws) = 8%nat.
Proof.
  induction kws as [|kw kws IH]; intros v Hlen; [done|].
  cbn [foldl]. by apply IH, round_length.
Qed.

Lemma blocks_length (count : nat) :
  ∀ h bytes, length h = 8%nat → length (sha256.blocks count h bytes) = 8%nat.
Proof.
  induction count as [|count IH]; intros h bytes Hlen; [done|].
  cbn [sha256.blocks]. apply IH. unfold sha256.block.
  rewrite length_zip_with, rounds_length by done. lia.
Qed.

Lemma wordBytes_flat (ws : list Z) :
  length (flat_map sha256.wordBytes ws) = (4 * length ws)%nat
  ∧ Forall (λ b, 0 ≤ b < 256)%Z (flat_map sha256.wordBytes ws).
Proof.
  induction ws as [|w ws [IHlen IHall]]; [by split|].
  cbn [flat_map sha256.wordBytes app length]. split; [lia|].
  repeat (apply Forall_cons; split; [apply Z.mod_pos_bound; lia|]).
  exact IHall.
Qed.

(** The digest has 32 bytes. *)
Lemma Sum_length (message : list Z) :
  length (sha256.Sum message) = 32%nat
  ∧ Forall (λ b, 0 ≤ b < 256)%Z (sha256.Sum message).
Proof.
  unfold sha256.Sum.
  destruct (wordBytes_flat
              (sha256.blocks (length (sha256.pad message) / 64) sha256.init
                 (sha256.pad message))) as [Hlen Hall].
  split; [|exact Hall]. rewrite Hlen, blocks_length; done.
Qed.

(** The first [2 * k] digits of an encoding encode the first [k] bytes. *)
Lemma EncodeToString_take (src : list Z) :
  ∀ k, (k ≤ length src)%nat →
       String.substring 0 (2 * k) (hex.EncodeToString src)
       = hex.EncodeToString (take k src)
       ∧ String.length (hex.EncodeToString (take k src)) = (2 * k)%nat.
Proof.
  induction src as [|b src IH]; intros k Hk.
  - cbn in Hk. by replace k with 0%nat by lia.
  - destruct k as [|k]; [done|].
    replace (2 * S k)%nat with (S (S (2 * k))) by lia.
    cbn [hex.EncodeToString take String.substring String.length].
    destruct (IH k) as [-> ->]; [cbn in Hk; lia|]. done.
Qed.

Lemma EncodeToString_length (src : list Z) :
  String.length (hex.EncodeToString src) = (2 * length src)%nat.
Proof.
  induction src as [|b src IH]; [done|].
  cbn [hex.EncodeToString String.length length]. lia.
Qed.

Lemma hex_digit (n : Z) :
  (0 ≤ n < 16)%Z →
  hex.digit n ∈ list_ascii_of_string "0123456789abcdef".
Proof.
  intros Hn.
  assert (n = 0 ∨ n = 1 ∨ n = 2 ∨ n = 3 ∨ n = 4 ∨ n = 5 ∨ n = 6 ∨ n = 7
          ∨ n = 8 ∨ n = 9 ∨ n = 10 ∨ n = 11 ∨ n = 12 ∨ n = 13 ∨ n = 14
          ∨ n = 15)%Z as Hcases by lia.
  cbn [list_ascii_of_string]. rewrite !elem_of_cons.
  repeat (destruct Hcases as [-> | Hcases]; [vm_compute; tauto|]).
  subst n. vm_compute. tauto.
Qed.

Lemma EncodeToString_digits (src : list Z) :
  Forall (λ b, 0 ≤ b < 256)%Z src →
  Forall (λ c, c ∈ list_ascii_of_string "0123456789abcdef")
         (list_ascii_of_string (hex.EncodeToString src)).
Proof.
  induction 1 as [|b src Hb _ IH]; [constructor|].
  cbn [hex.EncodeToString list_ascii_of_string].
  apply Forall_cons; split.
  { apply hex_digit. split; [apply Z.div_pos; lia|].
    apply Z.div_lt_upper_bound; lia. }
  apply Forall_cons; split; [|exact IH].
  apply hex_digit, Z.mod_pos_bound. lia.
Qed.

(** X18.  computeInstanceID never panics: the ID of every instance is a
    string of exactly 16 lowercase hexadecimal digits, the encoding of the
    first 8 bytes of the SHA-256 digest of
    "<hostname>/<service address>/<endpoint address>/<endpoint port>". *)
Theorem computeInstanceID_format (si : istiostore.ServiceInstance) :
  ∃ id,
    istiostore.computeInstanceID si = Some id
    ∧ id = hex.EncodeToString
             (take 8 (sha256.Sum (strings.bytes (istiostore.identity si))))
    ∧ String.length id = 16%nat
    ∧ Forall (λ c, c ∈ list_ascii_of_string "0123456789abcdef")
             (list_ascii_of_string id).
Proof.
  unfold istiostore.computeInstanceID, strings.sliceTo.
  set (md := sha256.Sum _).
  destruct (Sum_length (strings.bytes (istiostore.identity si))) as [Hlen Hall].
  fold md in Hlen, Hall.
  rewrite bool_decide_eq_true_2 by (rewrite EncodeToString_length, Hlen; lia).
  destruct (EncodeToString_take md 8) as [Htake Htakelen]; [lia|].
  change (2 * 8)%nat with 16%nat in *.
  eexists. split; [reflexivity|]. split; [exact Htake|].
  rewrite Htake. split; [exact Htakelen|].
  apply EncodeToString_digits. by apply Forall_take.
Qed.

Lemma Join_shift (a b c d e : string) :
  strings.Join [a +:+ "/" +:+ b; c; d; e] "/"
  = strings.Join [a; b +:+ "/" +:+ c; d; e] "/".
Proof.
  cbn [strings.Join]. by rewrite !append_assoc.
Qed.

Lemma append_length (a b : string) :
  String.length (a +:+ b) = (String.length a + String.length b)%nat.
Proof.
  induction a as [|ch a IH]; [done|].
  change (S (String.length (a +:+ b)) = S (String.length a + String.length b)).
  by rewrite IH.
Qed.

(** X19.  The ID does not tell the four fields apart where a slash falls:
    an instance with hostname "<h>/<x>" and service address "<a>" and an
    instance with hostname "<h>" and service address "<x>/<a>", alike
    otherwise, are two different instances with the same ID, before any
    collision of the hash. *)
Theorem computeInstanceID_slash_collision
    (h x a endpointAddress endpointPort : string) :
  let si1 :=
    {| istiostore.Instance_Service :=
         {| istiostore.Hostname := h +:+ "/" +:+ x; istiostore.Address := a |};
       istiostore.Instance_Endpoint :=
         {| istiostore.Endpoint_Address := endpointAddress;
            istiostore.Endpoint_Port := endpointPort |} |} in
  let si2 :=
    {| istiostore.Instance_Service :=
         {| istiostore.Hostname := h; istiostore.Address := x +:+ "/" +:+ a |};
       istiostore.Instance_Endpoint :=
         {| istiostore.Endpoint_Address := endpointAddress;
            istiostore.Endpoint_Port := endpointPort |} |} in
  si1 ≠ si2
  ∧ istiostore.computeInstanceID si1 = istiostore.computeInstanceID si2.
Proof.
  intros si1 si2. split.
  - intros Heq. injection Heq as Hhost _.
    apply (f_equal String.length) in Hhost.
    rewrite !append_length in Hhost. cbn in Hhost. lia.
  - unfold istiostore.computeInstanceID, istiostore.identity. cbn [si1 si2
      istiostore.Instance_Service istiostore.Instance_Endpoint
      istiostore.Hostname istiostore.Address istiostore.Endpoint_Address
      istiostore.Endpoint_Port].
    by rewrite Join_shift.
Qed.

(** * The controller over the registry client *)

Lemma string_of_list_ascii_snoc (l : list ascii) (c : ascii) :
  string_of_list_ascii (l ++ [c]) = string_of_list_ascii l +:+ String c "".
Proof.
  induction l as [|d l IH]; [done|].
  change (String d (string_of_list_ascii (l ++ [c]))
          = String d (string_of_list_ascii l +:+ String c "")).
  by rewrite IH.
Qed.

Lemma append_snoc (a : string) (c : ascii) (rest : string) :
  (a +:+ String c "") +:+ rest = a +:+ String c rest.
Proof. by rewrite append_assoc. Qed.

Lemma append_empty_r (a : string) : a +:+ "" = a.
Proof.
  induction a as [|c a IH]; [done|].
  change (String c (a +:+ "") = String c a). by rewrite IH.
Qed.

Lemma SplitFrom_cons (s : string) (sep : ascii) (cur : list ascii) :
  ∃ piece pieces, strings.SplitFrom s sep cur = piece :: pieces.
Proof.
  revert cur. induction s as [|c s IH]; intros cur; cbn [strings.SplitFrom].
  - by eexists _, _.
  - case_bool_decide; [by eexists _, _|]. apply IH.
Qed.

(** Joining the pieces with the separator gives the string back. *)
Lemma Join_SplitFrom (s : string) (sep : ascii) :
  ∀ cur, strings.Join (strings.SplitFrom s sep cur) (String sep "")
         = string_of_list_ascii (rev cur) +:+ s.
Proof.
  induction s as [|c s IH]; intros cur; cbn [strings.SplitFrom].
  - cbn [strings.Join]. by rewrite append_empty_r.
  - case_bool_decide as Hc.
    + subst c. specialize (IH []).
      destruct (SplitFrom_cons s sep []) as (piece & pieces & Hsplit).
      rewrite Hsplit in IH |- *.
      change (strings.Join (string_of_list_ascii (rev cur) :: piece :: pieces)
                (String sep ""))
        with (string_of_list_ascii (rev cur) +:+ String sep ""
              +:+ strings.Join (piece :: pieces) (String sep "")).
      rewrite IH. cbn [rev string_of_list_ascii].
      reflexivity.
    + rewrite IH. cbn [rev]. by rewrite string_of_list_ascii_snoc, append_snoc.
Qed.

(** No piece holds the separator. *)
Lemma SplitFrom_pieces (s : string) (sep : ascii) :
  ∀ cur, sep ∉ cur →
         Forall (λ piece, sep ∉ list_ascii_of_string piece)
                (strings.SplitFrom s sep cur).
Proof.
  induction s as [|c s IH]; intros cur Hcur; cbn [strings.SplitFrom].
  - apply Forall_cons; split; [|constructor].
    rewrite list_ascii_of_string_of_list_ascii.
    by rewrite list_elem_of_In, <- in_rev, <- list_elem_of_In.
  - case_bool_decide as Hc.
    + apply Forall_cons; split.
      * rewrite list_ascii_of_string_of_list_ascii.
        by rewrite list_elem_of_In, <- in_rev, <- list_elem_of_In.
      * apply IH. apply not_elem_of_nil.
    + apply IH. rewrite elem_of_cons. intros [-> | Hin]; [done|]. by apply Hcur.
Qed.

Lemma SplitFrom_no_sep (s : string) (sep : ascii) :
  ∀ cur, sep ∉ list_ascii_of_string s →
         strings.SplitFrom s sep cur = [string_of_list_ascii (rev cur) +:+ s].
Proof.
  induction s as [|c s IH]; intros cur Hs; cbn [strings.SplitFrom].
  - by rewrite append_empty_r.
  - cbn [list_ascii_of_string] in Hs. rewrite not_elem_of_cons in Hs.
    destruct Hs as [Hc Hs]. rewrite bool_decide_eq_false_2 by done.
    rewrite IH by done. cbn [rev].
    by rewrite string_of_list_ascii_snoc, append_snoc.
Qed.

Lemma SplitFrom_at_sep (a : string) (sep : ascii) (rest : string) :
  ∀ cur, sep ∉ list_ascii_of_string a →
         strings.SplitFrom (a +:+ String sep rest) sep cur
         = (string_of_list_ascii (rev cur) +:+ a)
             :: strings.SplitFrom rest sep [].
Proof.
  induction a as [|c a IH]; intros cur Ha.
  - change ("" +:+ String sep rest) with (String sep rest).
    cbn [strings.SplitFrom]. rewrite bool_decide_eq_true_2 by done.
    by rewrite append_empty_r.
  - cbn [list_ascii_of_string] in Ha. rewrite not_elem_of_cons in Ha.
    destruct Ha as [Hc Ha].
    change (String c a +:+ String sep rest)
      with (String c (a +:+ String sep rest)).
    cbn [strings.SplitFrom]. rewrite bool_decide_eq_false_2 by done.
    rewrite IH by done. cbn [rev].
    by rewrite string_of_list_ascii_snoc, append_snoc.
Qed.

(** Two pieces: the string has the separator once. *)
Lemma Split_two (s : string) (sep : ascii) (a b : string) :
  strings.Split s sep = [a; b]
  ↔ s = (a +:+ String sep b)
    ∧ (sep ∉ list_ascii_of_string a) ∧ (sep ∉ list_ascii_of_string b).
Proof.
  unfold strings.Split. split.
  - intros Hsplit.
    pose proof (Join_SplitFrom s sep []) as Hjoin.
    pose proof (SplitFrom_pieces s sep [] (not_elem_of_nil _)) as Hpieces.
    rewrite Hsplit in Hjoin, Hpieces. cbn [strings.Join rev] in Hjoin.
    change (string_of_list_ascii [] +:+ s) with s in Hjoin.
    apply Forall_cons in Hpieces as [Ha Hpieces].
    apply Forall_cons in Hpieces as [Hb _].
    split; [|done]. by rewrite <- Hjoin.
  - intros (-> & Ha & Hb).
    rewrite SplitFrom_at_sep, SplitFrom_no_sep by done. done.
Qed.

(** X20.  The endpoint values both loops accept are those of the form
    "<address>:<port>" with one colon in all and a port that strconv.Atoi
    reads; a value with no colon or with more than one, as an IPv6 address
    has, is refused. *)
Theorem addrPort_accepts (value addr : string) (port : Z) :
  vms.addrPort value = Some (addr, port)
  ↔ ∃ digits,
      value = (addr +:+ ":" +:+ digits)
      ∧ (":"%char ∉ list_ascii_of_string addr)
      ∧ (":"%char ∉ list_ascii_of_string digits)
      ∧ Go.Atoi digits = Some port.
Proof.
  unfold vms.addrPort. split.
  - destruct (strings.Split value ":") as [|a [|b [|c pieces]]] eqn:Hsplit;
      try done.
    destruct (Go.Atoi b) as [n|] eqn:Hatoi; [|done].
    intros [= <- <-]. apply Split_two in Hsplit as (-> & Ha & Hb).
    by exists b.
  - intros (digits & -> & Ha & Hb & Hatoi).
    assert (strings.Split (addr +:+ ":" +:+ digits) ":" = [addr; digits])
      as -> by by apply Split_two.
    by rewrite Hatoi.
Qed.

Section controller_properties.

Set Default Proof Using "Type".

Context {ServiceObject RawTags Service Port Tags TagsList : Type}.
Variable convertService : ServiceObject -> Service.
Variable convertTags : RawTags -> Tags.
Variable Ports_Get : Service -> string -> option Port.
Variable Service_Address : Service -> string.
Variable Service_Hostname : Service -> string.
Variable HasSubsetOf : TagsList -> Tags -> bool.
Variable ListServiceObjects : list ServiceObject * option error.
Variable GetServiceObject : string -> list ServiceObject * option error.
Variable ListServiceInstances : string -> list (vms.Item RawTags) * option error.

Local Abbreviation svcPortsOf := (vms.svcPortsOf Ports_Get).
Local Abbreviation instanceOf := (vms.instanceOf convertTags Ports_Get).
Local Abbreviation selected := (vms.selected convertTags Ports_Get HasSubsetOf).
Local Abbreviation instancesLoop := (vms.instancesLoop convertTags HasSubsetOf).
Local Abbreviation Instances :=
  (vms.Instances convertService convertTags Ports_Get HasSubsetOf
     GetServiceObject ListServiceInstances).
Local Abbreviation GetService := (vms.GetService convertService GetServiceObject).
Local Abbreviation hostItemsLoop := (vms.hostItemsLoop convertTags Ports_Get).
Local Abbreviation hostServicesLoop :=
  (vms.hostServicesLoop convertService convertTags Ports_Get Service_Address
     Service_Hostname ListServiceInstances).
Local Abbreviation HostInstances :=
  (vms.HostInstances convertService convertTags Ports_Get Service_Address
     Service_Hostname ListServiceObjects ListServiceInstances).
Local Abbreviation listed :=
  (vms.listed convertService Service_Address Service_Hostname
     ListServiceInstances).
Local Abbreviation hostService :=
  (vms.hostService convertService convertTags Ports_Get Service_Hostname
     ListServiceInstances).
Local Abbreviation Services := (vms.Services convertService ListServiceObjects).

Lemma svcPorts_loop (service : Service) (name : string) (ports : list string) :
  ∀ svcPorts : gmap string Port,
    foldl (λ svcPorts p,
             match Ports_Get service p with
             | Some port => <[p := port]> svcPorts
             | None => svcPorts
             end) svcPorts ports !! name
    = match (if bool_decide (name ∈ ports)
             then Ports_Get service name else None) with
      | Some port => Some port
      | None => svcPorts !! name
      end.
Proof.
  induction ports as [|p ports IH]; intros svcPorts; [done|].
  cbn [foldl]. rewrite IH. clear IH.
  destruct (decide (name ∈ ports)) as [Hin|Hin].
  - rewrite (bool_decide_eq_true_2 (name ∈ ports)) by exact Hin.
    rewrite (bool_decide_eq_true_2 (name ∈ p :: ports)) by (right; exact Hin).
    destruct (Ports_Get service name) as [port|] eqn:Hname; [done|].
    destruct (Ports_Get service p) as [port|] eqn:Hp; [|done].
    apply lookup_insert_ne. intros ->. rewrite Hname in Hp. discriminate.
  - rewrite (bool_decide_eq_false_2 (name ∈ ports)) by exact Hin.
    destruct (decide (name = p)) as [->|Hne].
    + rewrite bool_decide_eq_true_2 by left.
      destruct (Ports_Get service p) as [port|]; [|done].
      by rewrite lookup_insert_eq.
    + rewrite (bool_decide_eq_false_2 (name ∈ p :: ports))
        by (intros [Heq|Hin']%elem_of_cons; [exact (Hne Heq)|exact (Hin Hin')]).
      destruct (Ports_Get service p) as [port|]; [|done].
      by apply lookup_insert_ne.
Qed.

Lemma svcPortsOf_get (service : Service) (ports : list string)
    (name : string) :
  svcPortsOf service ports !! name
  = if bool_decide (name ∈ ports) then Ports_Get service name else None.
Proof.
  unfold vms.svcPortsOf. rewrite svcPorts_loop.
  destruct (bool_decide (name ∈ ports));
    [destruct (Ports_Get service name); [reflexivity|] |]; apply lookup_empty.
Qed.

(** X21.  The map svcPorts of Instances holds the requested port names
    that the service has, each with the service's port of that name, and
    nothing else. *)
Theorem svcPortsOf_lookup (service : Service) (ports : list string)
    (name : string) (port : Port) :
  svcPortsOf service ports !! name = Some port
  ↔ name ∈ ports ∧ Ports_Get service name = Some port.
Proof.
  rewrite svcPortsOf_get. case_bool_decide as Hin.
  - split; [by intros Hport; split | by intros [_ Hport]].
  - split; [done | by intros [Hin' _]].
Qed.

Lemma mapM_cons {A B : Type} (f : A → option B) (x : A) (l : list A) :
  mapM f (x :: l)
  = match f x with
    | Some y =>
        match mapM f l with
        | Some k => Some (y :: k)
        | None => None
        end
    | None => None
    end.
Proof.
  cbn. destruct (f x); [|done]. cbn. by destruct (mapM f l).
Qed.

(** The loop of Instances builds the instances of the selected items, or
    nothing when one of them does not give one. *)
Lemma instancesLoop_mapM (service : Service) (ports : list string)
    (tags : TagsList) (items : list (vms.Item RawTags)) :
  ∀ instances,
    instancesLoop service (svcPortsOf service ports) tags items instances
    = match mapM (instanceOf service)
              (filter (λ item, selected service ports tags item = true) items)
      with
      | Some more => (instances ++ more)%list
      | None => []
      end.
Proof.
  induction items as [|item items IH]; intros instances.
  { cbn. by rewrite app_nil_r. }
  cbn [vms.instancesLoop]. rewrite svcPortsOf_get, filter_cons.
  destruct (bool_decide (vms.ServicePortName item ∈ ports)) eqn:Hin.
  2: { rewrite decide_False; [apply IH|].
       unfold vms.selected. by rewrite Hin. }
  destruct (Ports_Get service (vms.ServicePortName item)) as [svcPort|]
    eqn:Hport.
  2: { rewrite decide_False; [apply IH|].
       unfold vms.selected. rewrite Hin, Hport.
       rewrite bool_decide_eq_false_2 by (by intros [? ?]). done. }
  destruct (HasSubsetOf tags (convertTags (vms.ItemTags item))) eqn:Htags.
  2: { rewrite decide_False; [apply IH|].
       unfold vms.selected. rewrite Htags, andb_false_r. done. }
  rewrite decide_True.
  2: { unfold vms.selected. rewrite Hin, Hport, Htags.
       by rewrite bool_decide_eq_true_2 by eauto. }
  rewrite mapM_cons. unfold vms.instanceOf at 1. rewrite Hport.
  destruct (vms.addrPort (vms.Value item)) as [[addr port]|]; [|done].
  rewrite IH. destruct (mapM _ _) as [more|]; [|done].
  by rewrite <- app_assoc.
Qed.

(** X22.  With a service found and its instances listed, Instances gives
    the instances of the selected items, in the order of the list: the
    items of a requested port that the service has, whose tags the
    requested ones accept.  The service is the first object the client
    returns, whatever follows it, and the items that are not selected are
    not looked at.  When a selected item does not give an instance the
    result is empty. *)
Theorem Instances_result (hostname : string) (ports : list string)
    (tags : TagsList) (first : ServiceObject) (others : list ServiceObject)
    (items : list (vms.Item RawTags)) :
  GetServiceObject hostname = (first :: others, None) →
  ListServiceInstances hostname = (items, None) →
  Instances hostname ports tags
  = Some (default []
            (mapM (instanceOf (convertService first))
               (filter (λ item,
                          selected (convertService first) ports tags item
                          = true) items))).
Proof.
  intros Hget Hlist. unfold vms.Instances. rewrite Hget, Hlist.
  rewrite instancesLoop_mapM. by destruct (mapM _ _).
Qed.

(** X23.  Instances is all or nothing: one selected item whose value is
    not of the form "<address>:<port>" empties the result, whatever the
    other items are. *)
Theorem Instances_all_or_nothing (hostname : string) (ports : list string)
    (tags : TagsList) (first : ServiceObject) (others : list ServiceObject)
    (items : list (vms.Item RawTags)) (bad : vms.Item RawTags) :
  GetServiceObject hostname = (first :: others, None) →
  ListServiceInstances hostname = (items, None) →
  bad ∈ items →
  selected (convertService first) ports tags bad = true →
  vms.addrPort (vms.Value bad) = None →
  Instances hostname ports tags = Some [].
Proof.
  intros Hget Hlist Hin Hselected Hbad.
  unfold vms.Instances. rewrite Hget, Hlist, instancesLoop_mapM.
  rewrite mapM_None_2; [done|].
  apply Exists_exists. exists bad. split.
  - by apply list_elem_of_filter.
  - unfold vms.instanceOf. by rewrite Hbad.
Qed.

(** X24.  GetService refuses a host name for which the client returns no
    service object; Instances does not look at the number of objects and
    panics on the first one of an empty slice. *)
Theorem Instances_without_service (hostname : string) (ports : list string)
    (tags : TagsList) :
  GetServiceObject hostname = ([], None) →
  GetService hostname = None ∧ Instances hostname ports tags = None.
Proof.
  intros Hget. unfold vms.GetService, vms.Instances. by rewrite Hget.
Qed.

Lemma hostItemsLoop_mapM (service : Service) (items : list (vms.Item RawTags)) :
  ∀ instances,
    hostItemsLoop service items instances
    = match mapM (instanceOf service) items with
      | Some more => Some (instances ++ more)%list
      | None => None
      end.
Proof.
  induction items as [|item items IH]; intros instances.
  { cbn. by rewrite app_nil_r. }
  cbn [vms.hostItemsLoop]. rewrite mapM_cons. unfold vms.instanceOf at 1.
  destruct (vms.addrPort (vms.Value item)) as [[addr port]|]; [|done].
  destruct (Ports_Get service (vms.ServicePortName item)) as [svcPort|];
    [|done].
  rewrite IH. destruct (mapM _ _) as [more|]; [|done].
  by rewrite <- app_assoc.
Qed.

Lemma hostServicesLoop_mapM (addrs : gmap string bool)
    (services : list ServiceObject) :
  ∀ instances,
    hostServicesLoop addrs services instances
    = match mapM hostService
              (filter (λ svc, listed addrs svc = true) services) with
      | Some lists => (instances ++ concat lists)%list
      | None => []
      end.
Proof.
  induction services as [|svc services IH]; intros instances.
  { cbn. by rewrite app_nil_r. }
  cbn [vms.hostServicesLoop]. rewrite filter_cons.
  destruct (default false (addrs !! Service_Address (convertService svc)))
    eqn:Haddr.
  2: { rewrite decide_False; [apply IH|].
       unfold vms.listed. by rewrite Haddr. }
  destruct (ListServiceInstances (Service_Hostname (convertService svc)))
    as [items [err|]] eqn:Hlist.
  { rewrite decide_False; [apply IH|].
    unfold vms.listed. by rewrite Haddr, Hlist. }
  rewrite decide_True by (unfold vms.listed; by rewrite Haddr, Hlist).
  rewrite mapM_cons. unfold vms.hostService at 1. rewrite Hlist.
  cbn [fst]. rewrite hostItemsLoop_mapM.
  destruct (mapM _ items) as [more|]; [|done].
  rewrite IH. destruct (mapM _ _) as [lists|]; [|done].
  cbn [concat]. by rewrite app_assoc.
Qed.

(** X25.  HostInstances gives, service after service, the instances of all
    the items of the services at a marked address.  A service whose
    instances the client fails to list is passed over and the others are
    still answered; an item that does not give an instance empties the
    whole result. *)
Theorem HostInstances_result (addrs : gmap string bool)
    (services : list ServiceObject) :
  ListServiceObjects = (services, None) →
  HostInstances addrs
  = match mapM hostService
            (filter (λ svc, listed addrs svc = true) services) with
    | Some lists => concat lists
    | None => []
    end.
Proof.
  intros Hservices. unfold vms.HostInstances. rewrite Hservices.
  rewrite hostServicesLoop_mapM. by destruct (mapM _ _).
Qed.

(** X26.  HostInstances is all or nothing across services: one item of
    one listed service whose value is not of the form "<address>:<port>",
    or whose port the service does not have, empties the result for every
    service. *)
Theorem HostInstances_all_or_nothing (addrs : gmap string bool)
    (services : list ServiceObject) (svc : ServiceObject)
    (bad : vms.Item RawTags) :
  ListServiceObjects = (services, None) →
  svc ∈ services →
  listed addrs svc = true →
  bad ∈ (ListServiceInstances (Service_Hostname (convertService svc))).1 →
  instanceOf (convertService svc) bad = None →
  HostInstances addrs = [].
Proof.
  intros Hservices Hsvc Hlisted Hbad Hnone.
  unfold vms.HostInstances. rewrite Hservices, hostServicesLoop_mapM.
  rewrite mapM_None_2; [done|].
  apply Exists_exists. exists svc. split; [by apply list_elem_of_filter|].
  unfold vms.hostService. apply mapM_None_2, Exists_exists. by exists bad.
Qed.

Lemma elem_of_concat {A : Type} (x : A) (ls : list (list A)) :
  x ∈ concat ls → ∃ l, x ∈ l ∧ l ∈ ls.
Proof.
  induction ls as [|k ls IH]; cbn [concat].
  { by intros ?%not_elem_of_nil. }
  rewrite elem_of_app. intros [Hin|Hin].
  - exists k. split; [done|]. by left.
  - destruct (IH Hin) as (l & Hl & Hls). exists l. split; [done|]. by right.
Qed.

(** X27.  Every instance HostInstances gives belongs to one of the
    services that Services gives, at an address marked true, and is the
    instance of an item that the client lists for the host name of that
    service. *)
Theorem HostInstances_from_Services (addrs : gmap string bool)
    (inst : vms.ServiceInstance Service Port Tags) :
  inst ∈ HostInstances addrs →
  vms.Instance_Service inst ∈ Services
  ∧ addrs !! Service_Address (vms.Instance_Service inst) = Some true
  ∧ ∃ item,
      item ∈ (ListServiceInstances
                (Service_Hostname (vms.Instance_Service inst))).1
      ∧ instanceOf (vms.Instance_Service inst) item = Some inst.
Proof.
  unfold vms.HostInstances, vms.Services.
  destruct ListServiceObjects as [services [err|]].
  { by intros ?%not_elem_of_nil. }
  rewrite hostServicesLoop_mapM.
  destruct (mapM _ _) as [lists|] eqn:Hlists.
  2: { by intros ?%not_elem_of_nil. }
  cbn [app]. intros Hin.
  apply elem_of_concat in Hin as (more & Hinst & Hmore).
  apply mapM_Some_1 in Hlists.
  apply list_elem_of_lookup in Hmore as [i Hi].
  destruct (Forall2_lookup_r _ _ _ _ _ Hlists Hi) as (svc & Hsvc & Hhost).
  apply list_elem_of_lookup_2, list_elem_of_filter in Hsvc
    as [Hlisted Hsvc].
  unfold vms.hostService in Hhost. apply mapM_Some_1 in Hhost.
  apply list_elem_of_lookup in Hinst as [j Hj].
  destruct (Forall2_lookup_r _ _ _ _ _ Hhost Hj) as (item & Hitem & Hof).
  assert (vms.Instance_Service inst = convertService svc) as ->.
  { unfold vms.instanceOf in Hof.
    destruct (vms.addrPort _) as [[addr port]|]; [|done].
    destruct (Ports_Get _ _); [|done]. by injection Hof as <-. }
  split; [apply list_elem_of_fmap; eauto|].
  split.
  - unfold vms.listed in Hlisted.
    destruct (addrs !! _) as [[|]|]; done.
  - exists item. split; [|done]. by eapply list_elem_of_lookup_2.
Qed.

End controller_properties.

Lemma Instances_result_witness :
  SampleRegistry.Instances "reviews" ["http"] ["v1"]
  = Some [ {| vms.Instance_Endpoint :=
                {| vms.Endpoint_Address := "192.168.1.10";
                   vms.Endpoint_Port := 9080;
                   vms.Endpoint_ServicePort := 80%Z |};
              vms.Instance_Service := ("reviews", "10.0.0.1");
              vms.Instance_Tags := ["v1"] |} ].
Proof.
  refine (eq_trans
            (Instances_result id id SampleRegistry.Ports_Get
               SampleRegistry.HasSubsetOf SampleRegistry.GetServiceObject
               SampleRegistry.ListServiceInstances "reviews" ["http"] ["v1"]
               ("reviews", "10.0.0.1") [] _ eq_refl eq_refl) _).
  vm_compute. reflexivity.
Defined.

Lemma Instances_all_or_nothing_witness :
  SampleRegistry.Instances "ratings" ["http"] ["v1"] = Some [].
Proof.
  apply (Instances_all_or_nothing id id SampleRegistry.Ports_Get
           SampleRegistry.HasSubsetOf SampleRegistry.GetServiceObject
           SampleRegistry.ListServiceInstances "ratings" ["http"] ["v1"]
           ("ratings", "10.0.0.2") [] _
           (SampleRegistry.item "192.168.2.11" "http" ["v1"])
           eq_refl eq_refl).
  - right. left.
  - vm_compute. reflexivity.
  - vm_compute. reflexivity.
Defined.

Lemma Instances_without_service_witness :
  SampleRegistry.GetService "checkout" = None
  ∧ SampleRegistry.Instances "checkout" ["http"] [] = None.
Proof.
  apply (Instances_without_service id id SampleRegistry.Ports_Get
           SampleRegistry.HasSubsetOf SampleRegistry.GetServiceObject
           SampleRegistry.ListServiceInstances "checkout" ["http"] []).
  reflexivity.
Defined.

Lemma HostInstances_result_witness :
  SampleRegistry.HostInstances
    (<["10.0.0.1" := true]> (<["10.0.0.3" := true]> ∅))
  = [ {| vms.Instance_Endpoint :=
           {| vms.Endpoint_Address := "192.168.1.10";
              vms.Endpoint_Port := 9080;
              vms.Endpoint_ServicePort := 80%Z |};
         vms.Instance_Service := ("reviews", "10.0.0.1");
         vms.Instance_Tags := ["v1"] |};
      {| vms.Instance_Endpoint :=
           {| vms.Endpoint_Address := "192.168.1.11";
              vms.Endpoint_Port := 9080;
              vms.Endpoint_ServicePort := 80%Z |};
         vms.Instance_Service := ("reviews", "10.0.0.1");
         vms.Instance_Tags := ["v2"] |};
      {| vms.Instance_Endpoint :=
           {| vms.Endpoint_Address := "192.168.1.12";
              vms.Endpoint_Port := 7070;
              vms.Endpoint_ServicePort := 7070%Z |};
         vms.Instance_Service := ("reviews", "10.0.0.1");
         vms.Instance_Tags := ["v1"] |} ].
Proof.
  refine (eq_trans
            (HostInstances_result id id SampleRegistry.Ports_Get snd fst
               SampleRegistry.ListServiceObjects
               SampleRegistry.ListServiceInstances _ _ eq_refl) _).
  vm_compute. reflexivity.
Defined.

Lemma HostInstances_all_or_nothing_witness :
  SampleRegistry.HostInstances
    (<["10.0.0.1" := true]> (<["10.0.0.2" := true]> ∅)) = [].
Proof.
  apply (HostInstances_all_or_nothing id id SampleRegistry.Ports_Get snd fst
           SampleRegistry.ListServiceObjects
           SampleRegistry.ListServiceInstances _ _ ("ratings", "10.0.0.2")
           (SampleRegistry.item "192.168.2.11" "http" ["v1"]) eq_refl).
  - right. left.
  - vm_compute. reflexivity.
  - right. left.
  - vm_compute. reflexivity.
Defined.

Lemma HostInstances_from_Services_witness :
  let inst :=
    {| vms.Instance_Endpoint :=
         {| vms.Endpoint_Address := "192.168.1.11";
            vms.Endpoint_Port := 9080;
            vms.Endpoint_ServicePort := 80%Z |};
       vms.Instance_Service := ("reviews", "10.0.0.1");
       vms.Instance_Tags := ["v2"] |} in
  let addrs : gmap string bool := <["10.0.0.1" := true]> ∅ in
  inst ∈ SampleRegistry.HostInstances addrs
  ∧ vms.Instance_Service inst
      ∈ vms.Services id SampleRegistry.ListServiceObjects
  ∧ addrs !! snd (vms.Instance_Service inst) = Some true.
Proof.
  intros inst addrs.
  assert (inst ∈ SampleRegistry.HostInstances addrs) as Hin.
  { vm_compute. right. left. }
  split; [exact Hin|].
  destruct (HostInstances_from_Services id id SampleRegistry.Ports_Get snd fst
              SampleRegistry.ListServiceObjects
              SampleRegistry.ListServiceInstances addrs inst Hin)
    as (Hservice & Haddr & _).
  split; [exact Hservice | exact Haddr].
Defined.
